(** * The code-assistant tool server (mcp-code-assistant.py), embedded in Rocq

    The development follows the Python source: the standard-library
    functions the server calls ([str] methods, [posixpath], [inspect.cleandoc],
    [ast.walk], [ast.get_docstring], [open], [os], [glob]) are modelled in
    modules named after them, the server's own functions keep their names,
    and the theorems at the end relate the specification to them.

    Conventions.
    - A Python [str] is a [string]; its characters are the code points 0..255.
    - A Python [int] is a [Z]. A Python [float] is the rational ([Qc]) a
      binary64 holds; division and multiplication round the exact result to
      the nearest such rational, ties to even (module [float]).
    - A [dict] with fixed keys is a record or a [json] object; the string
      [json.dumps] makes of a value is kept as that value, under the
      constructor [Dumps] of the replies. The replies are records of a fixed
      nesting, but for the project tree, which nests as deep as the
      directory: there [json.dumps] is [json_dumps], which raises when the
      interpreter's recursion limit is met.
    - The filesystem is a finite map from path strings to entries; a path
      names an entry as it is spelled (no symbolic links, no [.] or [..]
      aliasing), and the host is POSIX ([os.sep] is [/], [os.linesep] is
      a line feed). *)

From Stdlib Require Import ZArith QArith Qcanon Lia Lqa List Ascii String Permutation Sorted.
From stdpp Require Import base option list gmap strings sorting.

Set Warnings "-register-all".

Local Open Scope string_scope.
Local Open Scope list_scope.
Local Open Scope Z_scope.

(** ** Python [str] methods *)

Module str.

Definition LF : ascii := "010"%char.
Definition CR : ascii := "013"%char.
Definition TAB : ascii := "009"%char.
Definition SPACE : ascii := " "%char.

(** [ch.isspace()] on the code points below 256. *)
Definition isspace (c : ascii) : bool :=
  let n := nat_of_ascii c in
  ((9 <=? n) && (n <=? 13) || (28 <=? n) && (n <=? 32)
   || (n =? 133) || (n =? 160))%nat.

(** The line boundaries of [str.splitlines]. *)
Definition is_linebreak (c : ascii) : bool :=
  let n := nat_of_ascii c in
  ((10 <=? n) && (n <=? 13) || (28 <=? n) && (n <=? 30) || (n =? 133))%nat.

Fixpoint contains (c : ascii) (s : string) : bool :=
  match s with
  | EmptyString => false
  | String d r => if Ascii.eqb c d then true else contains c r
  end.

Definition startswith (s prefix : string) : bool := String.prefix prefix s.

(** [s.endswith(suffix)]: some tail of [s] is [suffix]. *)
Fixpoint endswith (s suffix : string) : bool :=
  String.eqb s suffix
  || match s with
     | EmptyString => false
     | String _ r => endswith r suffix
     end.

(** [s.split(sep)] for a one-character separator. *)
Fixpoint split (sep : ascii) (s : string) : list string :=
  match s with
  | EmptyString => [EmptyString]
  | String c r =>
      if Ascii.eqb c sep then EmptyString :: split sep r
      else match split sep r with
           | l :: ls => String c l :: ls
           | [] => [String c EmptyString]
           end
  end.

Definition join (sep : string) (parts : list string) : string :=
  String.concat sep parts.

Fixpoint lstrip (s : string) : string :=
  match s with
  | EmptyString => EmptyString
  | String c r => if isspace c then lstrip r else s
  end.

(** [s.rstrip(ch)] for one character. *)
Fixpoint rstrip_char (ch : ascii) (s : string) : string :=
  match s with
  | EmptyString => EmptyString
  | String c r =>
      match rstrip_char ch r with
      | EmptyString => if Ascii.eqb c ch then EmptyString else String c EmptyString
      | r' => String c r'
      end
  end.

Fixpoint all_char (ch : ascii) (s : string) : bool :=
  match s with
  | EmptyString => true
  | String c r => Ascii.eqb c ch && all_char ch r
  end.

Fixpoint spaces (n : nat) : string :=
  match n with
  | O => EmptyString
  | S k => String SPACE (spaces k)
  end.

(** [s.expandtabs()] with the default tab size 8; [col] is the running
    column, reset by a line feed or a carriage return. *)
Fixpoint expandtabs_from (col : nat) (s : string) : string :=
  match s with
  | EmptyString => EmptyString
  | String c r =>
      if Ascii.eqb c TAB then
        let incr := (8 - col mod 8)%nat in
        spaces incr +:+ expandtabs_from (col + incr) r
      else if Ascii.eqb c LF || Ascii.eqb c CR then
        String c (expandtabs_from 0 r)
      else String c (expandtabs_from (S col) r)
  end.

Definition expandtabs (s : string) : string := expandtabs_from 0 s.

(** [s[n:]] *)
Fixpoint drop (n : nat) (s : string) : string :=
  match n, s with
  | S k, String _ r => drop k r
  | _, _ => s
  end.

(** [s.splitlines()]: a carriage return followed by a line feed is one
    boundary, and a final boundary opens no further line. *)
Fixpoint splitlines (s : string) : list string :=
  match s with
  | EmptyString => []
  | String c r =>
      if is_linebreak c then
        match r with
        | String d r' =>
            if Ascii.eqb c CR && Ascii.eqb d LF
            then EmptyString :: splitlines r'
            else EmptyString :: splitlines r
        | EmptyString => [EmptyString]
        end
      else match splitlines r with
           | l :: ls => String c l :: ls
           | [] => [String c EmptyString]
           end
  end.

(** What a file opened for reading in text mode with the default
    [newline=None] hands back: every [\r\n] and every lone [\r] of the
    stored text has become [\n]. *)
Fixpoint universal_newlines (s : string) : string :=
  match s with
  | EmptyString => EmptyString
  | String c r =>
      if Ascii.eqb c CR then
        match r with
        | String d r' =>
            if Ascii.eqb d LF then String LF (universal_newlines r')
            else String LF (universal_newlines r)
        | EmptyString => String LF EmptyString
        end
      else String c (universal_newlines r)
  end.

End str.

(** ** [inspect.cleandoc] *)

Module inspect.

(** The indentation of a line that has content, [None] for a blank one. *)
Definition indent_of (line : string) : option nat :=
  let content := String.length (str.lstrip line) in
  if (content =? 0)%nat then None else Some (String.length line - content)%nat.

(** The minimum indentation of the non-blank lines; [None] plays
    [sys.maxsize]. *)
Fixpoint margin_of (lines : list string) : option nat :=
  match lines with
  | [] => None
  | l :: ls =>
      match indent_of l, margin_of ls with
      | Some i, Some m => Some (Nat.min i m)
      | Some i, None => Some i
      | None, m => m
      end
  end.

(** [while lines and not lines[0]: lines.pop(0)] *)
Fixpoint drop_leading_blank (lines : list string) : list string :=
  match lines with
  | EmptyString :: ls => drop_leading_blank ls
  | _ => lines
  end.

(** [while lines and not lines[-1]: lines.pop()] *)
Definition drop_trailing_blank (lines : list string) : list string :=
  rev (drop_leading_blank (rev lines)).

Definition cleandoc (doc : string) : string :=
  match str.split str.LF (str.expandtabs doc) with
  | [] => EmptyString
  | first :: rest =>
      let rest' := match margin_of rest with
                   | Some m => map (str.drop m) rest
                   | None => rest
                   end in
      let lines := str.lstrip first :: rest' in
      str.join (String str.LF EmptyString)
        (drop_leading_blank (drop_trailing_blank lines))
  end.

End inspect.

(** ** [posixpath] *)

Module posixpath.

Definition sep : ascii := "/"%char.

(** [p[:i], p[i:]] for [i = p.rfind('/') + 1]. *)
Fixpoint cut_last_sep (p : string) : string * string :=
  match p with
  | EmptyString => (EmptyString, EmptyString)
  | String c r =>
      let '(h, t) := cut_last_sep r in
      if str.contains sep r then (String c h, t)
      else if Ascii.eqb c sep then (String c EmptyString, r)
      else (EmptyString, p)
  end.

Definition split (p : string) : string * string :=
  let '(head, tail) := cut_last_sep p in
  if negb (String.eqb head EmptyString) && negb (str.all_char sep head)
  then (str.rstrip_char sep head, tail)
  else (head, tail).

Definition dirname (p : string) : string := fst (split p).
Definition basename (p : string) : string := snd (cut_last_sep p).

(** [os.path.join(a, b)] *)
Definition join (a b : string) : string :=
  if str.startswith b "/" then b
  else if String.eqb a EmptyString || str.endswith a "/" then a +:+ b
  else a +:+ "/" +:+ b.

End posixpath.

(** ** The syntax tree and the [ast] module *)

(** [Constant.value]: a string, or any other constant. *)
Inductive constant : Type :=
  | Str (s : string)
  | NonStr.

(** The node kinds the server tells apart with [isinstance], with the
    attributes it reads. [Other] stands for every other node kind (compound
    statements such as [if], [for], [try], [with] and [async def], simple
    statements, expressions), with its children in [iter_child_nodes] order.
    Decorators, base classes, argument defaults and annotations are
    expressions: they hold no statement, match none of the server's tests and
    are left out of [ClassDef] and [FunctionDef]; [args] keeps the names of
    [node.args.args]. *)
Inductive node : Type :=
  | Module (body : list node)
  | ClassDef (name : string) (lineno col_offset : Z) (body : list node)
  | FunctionDef (name : string) (lineno col_offset : Z) (args : list string)
      (body : list node)
  | Import (names : list string)
  | ImportFrom (module : option string) (names : list string)
  | Expr (value : node)
  | Constant (value : constant)
  | Other (children : list node).

Definition is_Module (n : node) : bool :=
  match n with Module _ => true | _ => false end.
Definition is_ClassDef (n : node) : bool :=
  match n with ClassDef _ _ _ _ => true | _ => false end.
Definition is_FunctionDef (n : node) : bool :=
  match n with FunctionDef _ _ _ _ _ => true | _ => false end.

(** [isinstance(node, (ast.FunctionDef, ast.ClassDef))] *)
Definition is_def (n : node) : bool := is_FunctionDef n || is_ClassDef n.

(** [isinstance(node, (ast.FunctionDef, ast.ClassDef, ast.Module))] *)
Definition is_documentable (n : node) : bool :=
  is_FunctionDef n || is_ClassDef n || is_Module n.

(** [node.name], [node.lineno], [node.col_offset] and [node.body] where the
    node has them. *)
Definition node_name (n : node) : option string :=
  match n with
  | ClassDef nm _ _ _ | FunctionDef nm _ _ _ _ => Some nm
  | _ => None
  end.
Definition node_lineno (n : node) : option Z :=
  match n with
  | ClassDef _ l _ _ | FunctionDef _ l _ _ _ => Some l
  | _ => None
  end.
Definition node_col_offset (n : node) : option Z :=
  match n with
  | ClassDef _ _ c _ | FunctionDef _ _ c _ _ => Some c
  | _ => None
  end.
Definition node_body (n : node) : list node :=
  match n with
  | Module b | ClassDef _ _ _ b | FunctionDef _ _ _ _ b => b
  | _ => []
  end.

Module ast.

Definition iter_child_nodes (n : node) : list node :=
  match n with
  | Module b | ClassDef _ _ _ b | FunctionDef _ _ _ _ b | Other b => b
  | Expr v => [v]
  | Import _ | ImportFrom _ _ | Constant _ => []
  end.

Fixpoint size (n : node) : nat :=
  match n with
  | Module b | ClassDef _ _ _ b | FunctionDef _ _ _ _ b | Other b =>
      S (list_sum (map size b))
  | Expr v => S (size v)
  | Import _ | ImportFrom _ _ | Constant _ => 1%nat
  end.

Definition forest_size (q : list node) : nat := list_sum (map size q).

(** [ast.walk]: a queue, served from the left, the children of the node
    served joining at the right.
<<
    todo = deque([node])
    while todo:
        node = todo.popleft()
        todo.extend(iter_child_nodes(node))
        yield node
>>
    The loop runs once per node of the tree, so the size of the queue's
    forest is fuel enough ([walk_todo_fuel]). *)
Fixpoint walk_todo (fuel : nat) (todo : list node) : list node :=
  match fuel, todo with
  | S fuel', n :: rest => n :: walk_todo fuel' (rest ++ iter_child_nodes n)
  | _, _ => []
  end.

Definition walk (n : node) : list node := walk_todo (size n) [n].

(** [ast.get_docstring(node)] with the default [clean=True], for the three
    node kinds the server calls it on. *)
Definition get_docstring (n : node) : option string :=
  match node_body n with
  | Expr (Constant (Str text)) :: _ => Some (inspect.cleandoc text)
  | _ => None
  end.

End ast.

(** Python's truth value of [ast.get_docstring(node)]: [None] and the empty
    string are false. *)
Definition truthy (d : option string) : bool :=
  match d with
  | Some s => negb (String.eqb s EmptyString)
  | None => false
  end.

(** [d or default] *)
Definition or_default (d : option string) (default : string) : string :=
  match d with
  | Some s => if String.eqb s EmptyString then default else s
  | None => default
  end.

(** ** The analysis report *)

(** The [dict] built for a method and for a top-level function. *)
Record DeclInfo : Type := mkDecl {
  decl_name : string;
  decl_lineno : Z;
  decl_docstring : string
}.

(** The [dict] built for a class. *)
Record ClassInfo : Type := mkClass {
  class_name : string;
  class_lineno : Z;
  class_methods : list DeclInfo;
  class_docstring : string
}.

(** The two shapes of an import entry. *)
Inductive ImportInfo : Type :=
  | DirectImport (name : string)
  | FromImport (module : option string) (name : string).

Record Report : Type := mkReport {
  file_path : string;
  line_count : nat;
  classes : list ClassInfo;
  functions : list DeclInfo;
  imports : list ImportInfo;
  docstring_coverage : Qc;
  nodes_requiring_docstrings : nat;
  docstring_count : nat
}.

Definition NO_DOCSTRING : string := "No docstring".

(** [ast.get_docstring(node) or "No docstring"] *)
Definition reported_docstring (n : node) : string :=
  or_default (ast.get_docstring n) NO_DOCSTRING.

(** The [dict] built for a [FunctionDef], as a method in the inner loop over
    [node.body] and as a top-level function. *)
Definition function_info (n : node) : option DeclInfo :=
  match n with
  | FunctionDef nm l _ _ _ => Some (mkDecl nm l (reported_docstring n))
  | _ => None
  end.

Definition class_entry (n : node) : option ClassInfo :=
  match n with
  | ClassDef nm l _ b =>
      Some (mkClass nm l (omap function_info b) (reported_docstring n))
  | _ => None
  end.

(** What one turn of the main loop appends to [functions] and to [imports]. *)
Definition function_entry (n : node) : option DeclInfo :=
  match n with
  | FunctionDef _ _ c _ _ => if c =? 0 then function_info n else None
  | _ => None
  end.

Definition import_entries (n : node) : list ImportInfo :=
  match n with
  | Import names => map DirectImport names
  | ImportFrom m names => map (FromImport m) names
  | _ => []
  end.

(** The three lists the main loop appends to. *)
Record Collected : Type := mkCollected {
  col_classes : list ClassInfo;
  col_functions : list DeclInfo;
  col_imports : list ImportInfo
}.

(** One turn of [for node in ast.walk(tree)]: the [if]/[elif] chain. *)
Definition visit (acc : Collected) (n : node) : Collected :=
  match n with
  | ClassDef nm l _ b =>
      mkCollected
        (col_classes acc ++
           [mkClass nm l (omap function_info b) (reported_docstring n)])
        (col_functions acc) (col_imports acc)
  | FunctionDef nm l c _ _ =>
      if c =? 0 then
        mkCollected (col_classes acc)
          (col_functions acc ++ [mkDecl nm l (reported_docstring n)])
          (col_imports acc)
      else acc
  | Import names =>
      mkCollected (col_classes acc) (col_functions acc)
        (col_imports acc ++ map DirectImport names)
  | ImportFrom m names =>
      mkCollected (col_classes acc) (col_functions acc)
        (col_imports acc ++ map (FromImport m) names)
  | _ => acc
  end.

(** [sum(1 for node in ast.walk(tree) if ...)] for the two counters. *)
Definition count_documented (tree : node) : nat :=
  length (List.filter
            (fun n => is_documentable n && truthy (ast.get_docstring n))
            (ast.walk tree)).

Definition count_documentable (tree : node) : nat :=
  length (List.filter is_documentable (ast.walk tree)).

(** ** Python [float] arithmetic

    A finite binary64 is an integer multiple of a power of two: of [2 ^ (e - 52)]
    when its magnitude lies in [[2 ^ e, 2 ^ (e + 1))] (a significand of 53
    bits), and of [2 ^ -1074] at least (the subnormal numbers). An operation
    returns the multiple nearest to the exact result, the even one of two
    that are equally near. Overflow is left out: the quotients of the server
    are at most 100. *)

Module float.

(** The integer nearest to [a / b] for [b > 0], the even one at a tie. *)
Definition rne_div (a b : Z) : Z :=
  let f := a / b in
  let r := a mod b in
  if 2 * r <? b then f
  else if b <? 2 * r then f + 1
  else if Z.even f then f else f + 1.

(** The [e] with [2 ^ e <= p / q < 2 ^ (e + 1)], for [p > 0] and [q > 0]:
    the difference of the bit lengths, or one less. *)
Definition floor_log2 (p q : Z) : Z :=
  let k := Z.log2 p - Z.log2 q in
  if (if 0 <=? k then 2 ^ k * q <=? p else q <=? 2 ^ (- k) * p)
  then k else k - 1.

(** The exponent of the unit in the last place at [p / q]. *)
Definition ulp_exponent (p q : Z) : Z := Z.max (floor_log2 p q - 52) (-1074).

(** The binary64 nearest to [p / q], for [p >= 0] and [q > 0]. *)
Definition round_frac (p q : Z) : Q :=
  if p <=? 0 then inject_Z 0
  else
    let u := ulp_exponent p q in
    if 0 <=? u then inject_Z (rne_div p (q * 2 ^ u) * 2 ^ u)
    else Qmake (rne_div (p * 2 ^ (- u)) q) (Z.to_pos (2 ^ (- u))).

(** The binary64 nearest to [x]; rounding is symmetric about 0. *)
Definition round (x : Qc) : Qc :=
  if Qnum x <? 0
  then (- Q2Qc (round_frac (- Qnum x) (Zpos (Qden x))))%Qc
  else Q2Qc (round_frac (Qnum x) (Zpos (Qden x))).

(** [a / b] for two [int]s ([b] not 0): the quotient, correctly rounded. *)
Definition truediv (a b : Z) : Qc := round (Qc_of_Z a / Qc_of_Z b)%Qc.

(** [x * y] for two [float]s. *)
Definition mul (x y : Qc) : Qc := round (x * y)%Qc.

End float.

(** [(docstring_count / nodes_requiring_docstrings) * 100] behind its guard:
    the quotient of the two [int]s is a [float], and so is its product with
    100, which is converted to [100.0]. *)
Definition coverage (documented documentable : nat) : Qc :=
  if (0 <? documentable)%nat
  then float.mul (float.truediv (Z.of_nat documented) (Z.of_nat documentable))
         (Qc_of_Z 100)
  else Qc_of_Z 0.

(** The body of [analyze_python_file] from [ast.parse] on: [content] is the
    text read and [tree] its parse. *)
Definition analyze_tree (path content : string) (tree : node) : Report :=
  let acc := fold_left visit (ast.walk tree) (mkCollected [] [] []) in
  let count := count_documented tree in
  let total := count_documentable tree in
  mkReport path (length (str.splitlines content))
    (col_classes acc) (col_functions acc) (col_imports acc)
    (coverage count total) total count.

(** ** Choosing the target of [generate_docstring] *)

(** The truth value of the optional arguments: [None], the empty name and
    line 0 are false. *)
Definition given_name (object_name : option string) : option string :=
  match object_name with
  | Some nm => if String.eqb nm EmptyString then None else Some nm
  | None => None
  end.

Definition given_line (line_number : option Z) : option Z :=
  match line_number with
  | Some l => if l =? 0 then None else Some l
  | None => None
  end.

Definition has_name (nm : string) (n : node) : bool :=
  is_def n && bool_decide (node_name n = Some nm).

Definition has_lineno (l : Z) (n : node) : bool :=
  is_def n && bool_decide (node_lineno n = Some l).

Definition undocumented (n : node) : bool :=
  is_documentable n && negb (truthy (ast.get_docstring n)).

(** The three loops of [generate_docstring], each leaving at its first hit
    ([target_node = node; break]). *)
Definition find_target (tree : node) (object_name : option string)
    (line_number : option Z) : option node :=
  match given_name object_name with
  | Some nm => List.find (has_name nm) (ast.walk tree)
  | None =>
      match given_line line_number with
      | Some l => List.find (has_lineno l) (ast.walk tree)
      | None => List.find undocumented (ast.walk tree)
      end
  end.

(** Pre-order, depth first: the order the specification names. *)
Fixpoint preorder (n : node) : list node :=
  n :: match n with
       | Module b | ClassDef _ _ _ b | FunctionDef _ _ _ _ b | Other b =>
           flat_map preorder b
       | Expr v => preorder v
       | Import _ | ImportFrom _ _ | Constant _ => []
       end.

(** The nodes [k] levels below the roots [q], left to right. *)
Fixpoint nodes_at_depth (k : nat) (q : list node) : list node :=
  match k with
  | O => q
  | S k' => nodes_at_depth k' (flat_map ast.iter_child_nodes q)
  end.

(** Level order: the roots, then their children, and so on for [h] levels. *)
Fixpoint level_order (h : nat) (q : list node) : list node :=
  match h with
  | O => []
  | S h' => q ++ level_order h' (flat_map ast.iter_child_nodes q)
  end.

(** Two conditions on the positions of a tree. *)

(** The columns follow the nesting: a [def] statement of the module body
    starts in column 0 and a [def] anywhere deeper does not. [depth] counts
    the nodes that enclose the statement below the module, and the body of
    [Module body] is checked at depth 0. This is the layout of a file whose
    statements start where their block's indentation puts them; the parser
    does not guarantee it: a [def] that follows a line continuation in a
    class body is a method in column 0, and a [def] of the module body that
    follows a form feed is in column 1. *)
Fixpoint columns_ok (depth : nat) (n : node) : bool :=
  match n with
  | Module b | ClassDef _ _ _ b | Other b => forallb (columns_ok (S depth)) b
  | FunctionDef _ _ c _ b =>
      Bool.eqb (c =? 0) (depth =? 0)%nat && forallb (columns_ok (S depth)) b
  | Expr v => columns_ok (S depth) v
  | Import _ | ImportFrom _ _ | Constant _ => true
  end.

(** The line numbers of the declarations of a list of nodes, in order. *)
Definition decl_linenos (l : list node) : list Z := omap node_lineno l.

Fixpoint nondecreasing (l : list Z) : bool :=
  match l with
  | x :: (y :: _) as r => (x <=? y) && nondecreasing r
  | _ => true
  end.

(** The lines follow the text: they count from 1 and a pre-order walk meets
    the declarations in the order of their lines. *)
Definition lines_ok (tree : node) : bool :=
  forallb (fun l => 1 <=? l) (decl_linenos (preorder tree))
  && nondecreasing (decl_linenos (preorder tree)).

(** ** The filesystem, exceptions and the monad of the tool bodies *)

Inductive entry : Type :=
  | File (content : string)
  | Dir.

#[global] Instance entry_eq_dec : EqDecision entry.
Proof. solve_decision. Defined.

Abbreviation filesystem := (gmap string entry).

(** The exceptions the modelled calls raise; all are subclasses of
    [Exception], the first four of [OSError]. *)
Inductive exn : Type :=
  | FileNotFoundError (path : string)
  | IsADirectoryError (path : string)
  | NotADirectoryError (path : string)
  | FileExistsError (path : string)
  | SyntaxError (msg : string)
  | ValueError (msg : string)
  | RecursionError (msg : string).

Definition is_OSError (e : exn) : bool :=
  match e with
  | SyntaxError _ | ValueError _ | RecursionError _ => false
  | _ => true
  end.

Definition quoted (p : string) : string := "'" +:+ p +:+ "'".

(** [str(e)]; the path is quoted as [repr] quotes a plain name. *)
Definition str_exn (e : exn) : string :=
  match e with
  | FileNotFoundError p => "[Errno 2] No such file or directory: " +:+ quoted p
  | IsADirectoryError p => "[Errno 21] Is a directory: " +:+ quoted p
  | NotADirectoryError p => "[Errno 20] Not a directory: " +:+ quoted p
  | FileExistsError p => "[Errno 17] File exists: " +:+ quoted p
  | SyntaxError msg => msg
  | ValueError msg => msg
  | RecursionError msg => msg
  end.

Inductive outcome (A : Type) : Type :=
  | Returned (a : A)
  | Raised (e : exn).
Arguments Returned {A} a.
Arguments Raised {A} e.

(** A computation reads and updates the filesystem and either returns or
    raises. *)
Definition IO (A : Type) : Type := filesystem -> outcome A * filesystem.

Definition ret {A} (a : A) : IO A := fun fs => (Returned a, fs).
Definition raise {A} (e : exn) : IO A := fun fs => (Raised e, fs).
Definition bind {A B} (m : IO A) (k : A -> IO B) : IO B :=
  fun fs =>
    match m fs with
    | (Returned a, fs') => k a fs'
    | (Raised e, fs') => (Raised e, fs')
    end.

(** [try: m except Exception as e: h e] *)
Definition try_except {A} (m : IO A) (h : exn -> IO A) : IO A :=
  fun fs =>
    match m fs with
    | (Returned a, fs') => (Returned a, fs')
    | (Raised e, fs') => h e fs'
    end.

Definition read_fs : IO filesystem := fun fs => (Returned fs, fs).
Definition write_fs (fs' : filesystem) : IO unit := fun _ => (Returned tt, fs').
Definition of_outcome {A} (o : outcome A) : IO A := fun fs => (o, fs).

#[global] Instance IO_ret : MRet IO := @ret.
#[global] Instance IO_bind : MBind IO := fun A B k m => bind m k.

(** ** [os.path], [os] and [open] *)

Module os_path.

(** The empty path names nothing. *)
Definition exists_ (fs : filesystem) (p : string) : bool :=
  negb (String.eqb p EmptyString) && bool_decide (is_Some (fs !! p)).

Definition isdir (fs : filesystem) (p : string) : bool :=
  negb (String.eqb p EmptyString) && bool_decide (fs !! p = Some Dir).

Definition isabs (p : string) : bool := str.startswith p "/".

(** One step of the loop of [normpath] over the components. *)
Definition norm_step (initial_slashes : bool) (new_comps : list string)
    (comp : string) : list string :=
  if String.eqb comp EmptyString || String.eqb comp "." then new_comps
  else if negb (String.eqb comp "..")
          || (negb initial_slashes && bool_decide (new_comps = []))
          || bool_decide (last new_comps = Some "..")
  then new_comps ++ [comp]
  else removelast new_comps.

Definition normpath (path : string) : string :=
  if String.eqb path EmptyString then "." else
  let initial := str.startswith path "/" in
  let two := initial && str.startswith path "//"
             && negb (str.startswith path "///") in
  let comps := fold_left (norm_step initial) (str.split posixpath.sep path) [] in
  let joined := str.join "/" comps in
  let res := if two then "//" +:+ joined
             else if initial then "/" +:+ joined else joined in
  if String.eqb res EmptyString then "." else res.

Definition abspath (cwd path : string) : string :=
  normpath (if isabs path then path else posixpath.join cwd path).

Fixpoint commonprefix_len (a b : list string) : nat :=
  match a, b with
  | x :: a', y :: b' => if String.eqb x y then S (commonprefix_len a' b') else O
  | _, _ => O
  end.

Definition nonempty_parts (p : string) : list string :=
  List.filter (fun x => negb (String.eqb x EmptyString))
    (str.split posixpath.sep p).

(** [os.path.relpath(path, start)] for a [start] that is given. *)
Definition relpath (cwd path start : string) : outcome string :=
  if String.eqb path EmptyString then Raised (ValueError "no path specified")
  else
    let start_list := nonempty_parts (abspath cwd start) in
    let path_list := nonempty_parts (abspath cwd path) in
    let i := commonprefix_len start_list path_list in
    let rel_list :=
      (repeat ".." (length start_list - i) ++ skipn i path_list)%list in
    match rel_list with
    | [] => Returned "."
    | first :: rest => Returned (fold_left posixpath.join rest first)
    end.

End os_path.

Module os.

(** The error for a path that names nothing: [ENOTDIR] when its parent is a
    regular file, [ENOENT] otherwise. *)
Definition absent_error (fs : filesystem) (p : string) : exn :=
  if String.eqb (posixpath.dirname p) EmptyString then FileNotFoundError p
  else match fs !! posixpath.dirname p with
       | Some (File _) => NotADirectoryError p
       | _ => FileNotFoundError p
       end.

(** The parent of a new entry must be a directory; the empty parent is the
    working directory. *)
Definition parent_ready (fs : filesystem) (p : string) : bool :=
  String.eqb (posixpath.dirname p) EmptyString
  || os_path.isdir fs (posixpath.dirname p).

(** [with open(p, 'r', encoding='utf-8') as f: f.read()] *)
Definition open_read (p : string) : IO string :=
  fs ← read_fs;
  match fs !! p with
  | Some (File content) => ret (str.universal_newlines content)
  | Some Dir => raise (IsADirectoryError p)
  | None => raise (absent_error fs p)
  end.

(** [with open(p, 'w', encoding='utf-8') as f: f.write(content)]: the file
    is created or truncated and holds [content] afterwards (on POSIX a line
    feed is written as it is). A path with no final component (the empty
    path, a path that ends in a slash) opens no file. *)
Definition open_write (p content : string) : IO unit :=
  fs ← read_fs;
  if String.eqb p EmptyString then raise (FileNotFoundError p)
  else if String.eqb (posixpath.basename p) EmptyString
  then raise (IsADirectoryError p)
  else
    match fs !! p with
    | Some Dir => raise (IsADirectoryError p)
    | _ =>
        if parent_ready fs p then write_fs (<[p := File content]> fs)
        else raise (absent_error fs p)
    end.

(** [os.remove(p)] *)
Definition remove (p : string) : IO unit :=
  fs ← read_fs;
  match fs !! p with
  | Some (File _) => write_fs (delete p fs)
  | Some Dir => raise (IsADirectoryError p)
  | None => raise (absent_error fs p)
  end.

(** [os.mkdir(p)] *)
Definition mkdir (p : string) : IO unit :=
  fs ← read_fs;
  match fs !! p with
  | Some _ => raise (FileExistsError p)
  | None =>
      if parent_ready fs p then write_fs (<[p := Dir]> fs)
      else raise (absent_error fs p)
  end.

(** The last statement of [makedirs] with [exist_ok=True]:
<<
    try: mkdir(name, mode)
    except OSError:
        if not exist_ok or not path.isdir(name): raise
>> *)
Definition mkdir_exist_ok (name : string) : IO unit :=
  try_except (mkdir name)
    (fun e =>
       fs ← read_fs;
       if is_OSError e && os_path.isdir fs name then ret tt else raise e).

(** [os.makedirs(name, exist_ok=True)]. Each nested call is on a proper
    prefix of [name], so the length of [name] is fuel enough. *)
Fixpoint makedirs_fuel (fuel : nat) (name : string) : IO unit :=
  match fuel with
  | O => mkdir_exist_ok name
  | S fuel' =>
      let '(head, tail) := posixpath.split name in
      let '(head, tail) :=
        if String.eqb tail EmptyString then posixpath.split head
        else (head, tail) in
      fs ← read_fs;
      if negb (String.eqb head EmptyString)
         && negb (String.eqb tail EmptyString)
         && negb (os_path.exists_ fs head)
      then
        try_except (makedirs_fuel fuel' head)
          (fun e => match e with
                    | FileExistsError _ => ret tt
                    | _ => raise e
                    end);;
        if String.eqb tail "." then ret tt else mkdir_exist_ok name
      else mkdir_exist_ok name
  end.

Definition makedirs (name : string) : IO unit :=
  makedirs_fuel (String.length name) name.

End os.

(** ** [glob] *)

Module glob.

Definition is_magic_char (c : ascii) : bool :=
  Ascii.eqb c "*"%char || Ascii.eqb c "?"%char || Ascii.eqb c "["%char.

(** [magic_check.search(s) is not None] *)
Fixpoint has_magic (s : string) : bool :=
  match s with
  | EmptyString => false
  | String c r => is_magic_char c || has_magic r
  end.

Definition _ishidden (path : string) : bool := str.startswith path ".".
Definition _isrecursive (pattern : string) : bool := String.eqb pattern "**".

Definition _join (dirname basename : string) : string :=
  if String.eqb dirname EmptyString then basename
  else if String.eqb basename EmptyString then dirname
  else posixpath.join dirname basename.

Definition _lexists (fs : filesystem) (p : string) : bool := os_path.exists_ fs p.

(** The names [os.scandir(dirname or '.')] yields: the entries whose path
    is [dirname] joined with their own name; with [dironly] the
    directories among them. *)
Definition _listdir (fs : filesystem) (dirname : string) (dironly : bool)
    : list string :=
  omap (fun '(k, e) =>
          let name := posixpath.basename k in
          if negb (String.eqb name EmptyString)
             && String.eqb (posixpath.join dirname name) k
             && (negb dironly || bool_decide (e = Dir))
          then Some name else None)
       (map_to_list fs).

Section matcher.

(** [fnmatch.fnmatchcase name pattern]; on POSIX [fnmatch.filter] is a
    filter by it. *)
Variable fnmatchcase : string -> string -> bool.

Definition _glob1 (fs : filesystem) (dirname pattern : string)
    (dironly : bool) : list string :=
  let names := _listdir fs dirname dironly in
  let names := if _ishidden pattern then names
               else List.filter (fun x => negb (_ishidden x)) names in
  List.filter (fun x => fnmatchcase x pattern) names.

Definition _glob0 (fs : filesystem) (dirname basename : string)
    (dironly : bool) : list string :=
  if negb (String.eqb basename EmptyString) then
    if _lexists fs (_join dirname basename) then [basename] else []
  else
    if os_path.isdir fs dirname then [basename] else [].

(** Every nested call descends one directory, so the number of entries
    bounds the recursion. *)
Fixpoint _rlistdir (fuel : nat) (fs : filesystem) (dirname : string)
    (dironly : bool) : list string :=
  match fuel with
  | O => []
  | S fuel' =>
      flat_map
        (fun x =>
           if _ishidden x then []
           else
             let path := if String.eqb dirname EmptyString then x
                         else _join dirname x in
             x :: map (_join x) (_rlistdir fuel' fs path dironly))
        (_listdir fs dirname dironly)
  end.

Definition _glob2 (fs : filesystem) (dirname pattern : string)
    (dironly : bool) : list string :=
  ((if String.eqb dirname EmptyString || os_path.isdir fs dirname
    then [EmptyString] else [])
   ++ _rlistdir (S (size fs)) fs dirname dironly)%list.

(** [_iglob]; the nested call is on [dirname], a proper prefix of
    [pathname]. *)
Fixpoint _iglob (fuel : nat) (fs : filesystem) (pathname : string)
    (recursive dironly : bool) : list string :=
  let '(dirname, basename) := posixpath.split pathname in
  if negb (has_magic pathname) then
    if negb (String.eqb basename EmptyString) then
      if _lexists fs pathname then [pathname] else []
    else
      if os_path.isdir fs dirname then [pathname] else []
  else if String.eqb dirname EmptyString then
    if recursive && _isrecursive basename
    then _glob2 fs EmptyString basename dironly
    else _glob1 fs EmptyString basename dironly
  else
    let dirs :=
      if negb (String.eqb dirname pathname) && has_magic dirname then
        match fuel with
        | O => []
        | S fuel' => _iglob fuel' fs dirname recursive true
        end
      else [dirname] in
    let glob_in_dir :=
      if has_magic basename then
        if recursive && _isrecursive basename then _glob2 else _glob1
      else _glob0 in
    flat_map
      (fun d => map (posixpath.join d) (glob_in_dir fs d basename dironly))
      dirs.

(** [glob.glob(pathname, recursive=recursive)] *)
Definition glob (fs : filesystem) (pathname : string) (recursive : bool)
    : list string :=
  let it := _iglob (String.length pathname) fs pathname recursive false in
  if String.eqb pathname EmptyString
     || recursive && _isrecursive (substring 0 2 pathname)
  then match it with
       | EmptyString :: rest => rest
       | _ => it
       end
  else it.

End matcher.

End glob.

(** ** JSON values and the replies of the tools *)

Inductive json : Type :=
  | JNull
  | JBool (b : bool)
  | JInt (z : Z)
  | JFloat (q : Qc)
  | JStr (s : string)
  | JList (items : list json)
  | JObj (fields : list (string * json)).

(** Every tool returns a [str]: either a text of its own or
    [json.dumps] of a value. *)
Inductive reply : Type :=
  | Raw (text : string)
  | Dumps (value : json).

(** The value under key [k] of a JSON object. *)
Fixpoint assoc (k : string) (fields : list (string * json)) : option json :=
  match fields with
  | [] => None
  | (k', v) :: rest => if String.eqb k k' then Some v else assoc k rest
  end.

Definition field (k : string) (r : reply) : option json :=
  match r with
  | Dumps (JObj fields) => assoc k fields
  | _ => None
  end.

Definition decl_json (d : DeclInfo) : json :=
  JObj [("name", JStr (decl_name d)); ("lineno", JInt (decl_lineno d));
        ("docstring", JStr (decl_docstring d))].

Definition class_json (c : ClassInfo) : json :=
  JObj [("name", JStr (class_name c)); ("lineno", JInt (class_lineno c));
        ("methods", JList (map decl_json (class_methods c)));
        ("docstring", JStr (class_docstring c))].

Definition import_json (i : ImportInfo) : json :=
  match i with
  | DirectImport nm => JObj [("type", JStr "import"); ("name", JStr nm)]
  | FromImport m nm =>
      JObj [("type", JStr "from");
            ("module", match m with Some s => JStr s | None => JNull end);
            ("name", JStr nm)]
  end.

Definition report_json (r : Report) : json :=
  JObj [("file_path", JStr (file_path r));
        ("line_count", JInt (Z.of_nat (line_count r)));
        ("classes", JList (map class_json (classes r)));
        ("functions", JList (map decl_json (functions r)));
        ("imports", JList (map import_json (imports r)));
        ("docstring_coverage", JFloat (docstring_coverage r));
        ("nodes_requiring_docstrings",
          JInt (Z.of_nat (nodes_requiring_docstrings r)));
        ("docstring_count", JInt (Z.of_nat (docstring_count r)))].

(** What [analyze_python_file] returns: the report, or the [dict] of its
    [except] branch. *)
Inductive analysis : Type :=
  | Analysed (r : Report)
  | AnalysisError (error path : string).

Definition analysis_json (a : analysis) : json :=
  match a with
  | Analysed r => report_json r
  | AnalysisError msg p => JObj [("error", JStr msg); ("file_path", JStr p)]
  end.

(** The [dict] of the [except] branch of most tools. *)
Definition failure (msg : string) : reply :=
  Dumps (JObj [("success", JBool false); ("error", JStr msg)]).

(** ** The server's functions *)

Section Server.

(** [ast.parse]: the body of the [Module] it returns, or the exception it
    raises. *)
Variable ast_parse : string -> outcome (list node).
(** [fnmatch.fnmatchcase] *)
Variable fnmatchcase : string -> string -> bool.
(** [os.getcwd()] *)
Variable getcwd : string.

(** Calls of [logger.error] leave no trace in the filesystem or in the
    value returned and are not modelled. *)

Definition get_file_content (file_path : string) : IO string :=
  try_except (os.open_read file_path)
    (fun e => ret ("Error reading file: " +:+ str_exn e)).

Definition write_file_content (file_path content : string) : IO bool :=
  try_except (os.open_write file_path content;; ret true)
    (fun _ => ret false).

Definition analyze_python_file (file_path : string) : IO analysis :=
  try_except
    (content ← os.open_read file_path;
     body ← of_outcome (ast_parse content);
     ret (Analysed (analyze_tree file_path content (Module body))))
    (fun e => ret (AnalysisError (str_exn e) file_path)).

Definition list_files (directory pattern : string) : IO reply :=
  try_except
    (fs ← read_fs;
     if negb (os_path.isdir fs directory) then
       ret (Dumps (JObj [("error", JStr ("Directory not found: " +:+ directory))]))
     else
       let files :=
         glob.glob fnmatchcase fs (posixpath.join directory pattern) true in
       ret (Dumps (JObj [("files", JList (map JStr files))])))
    (fun e => ret (Dumps (JObj [("error", JStr (str_exn e))]))).

Definition get_file (file_path : string) : IO reply :=
  text ← get_file_content file_path; ret (Raw text).

Definition update_file (file_path content : string) : IO reply :=
  success ← write_file_content file_path content;
  if success : bool then
    ret (Dumps (JObj [("success", JBool true);
                      ("message", JStr ("File " +:+ file_path +:+ " updated successfully"))]))
  else
    ret (Dumps (JObj [("success", JBool false);
                      ("message", JStr ("Failed to update file " +:+ file_path))])).

Definition analyze_code (file_path : string) : IO reply :=
  if negb (str.endswith file_path ".py") then
    ret (Dumps (JObj [("error", JStr "Only Python files are supported for analysis")]))
  else
    a ← analyze_python_file file_path; ret (Dumps (analysis_json a)).

Definition NL : string := String str.LF EmptyString.
Definition QUOTE : ascii := "034"%char.
Definition TRIPLE : string := String QUOTE (String QUOTE (String QUOTE EmptyString)).

(** The text suggested for a function: its name, one line per name of
    [node.args.args] other than [self], and the line for the return value.
    [args_args] is [node.args.args], the parameters that can be passed by
    position or by keyword; the other fields of [node.args] (positional-only
    and keyword-only parameters, [*args], [**kwargs]) are not read. *)
Definition function_docstring (name : string) (args_args : list string)
    : string :=
  let args := List.filter (fun a => negb (String.eqb a "self")) args_args in
  TRIPLE +:+ NL +:+ name +:+ NL +:+ NL
  +:+ (match args with
       | [] => EmptyString
       | _ =>
           "Args:" +:+ NL
           +:+ String.concat EmptyString
                 (map (fun a => "    " +:+ a +:+ ": Description of " +:+ a +:+ NL) args)
       end)
  +:+ NL +:+ "Returns:" +:+ NL +:+ "    Description of return value" +:+ NL +:+ TRIPLE.

Definition class_docstring_text (name : string) : string :=
  TRIPLE +:+ NL +:+ name +:+ " class" +:+ NL +:+ NL
  +:+ "Description of the class and its purpose." +:+ NL +:+ TRIPLE.

Definition module_docstring_text (file_path : string) : string :=
  TRIPLE +:+ NL +:+ posixpath.basename file_path +:+ NL +:+ NL
  +:+ "Description of the module and its purpose." +:+ NL +:+ TRIPLE.

(** The reply built from the target found. *)
Definition suggestion (file_path : string) (target : option node) : reply :=
  match target with
  | None =>
      Dumps (JObj [("success", JBool false);
                   ("message", JStr "No suitable target found for docstring generation")])
  | Some (FunctionDef nm l _ args_args _) =>
      Dumps (JObj [("success", JBool true); ("node_type", JStr "function");
                   ("name", JStr nm);
                   ("suggested_docstring", JStr (function_docstring nm args_args));
                   ("line_number", JInt l)])
  | Some (ClassDef nm l _ _) =>
      Dumps (JObj [("success", JBool true); ("node_type", JStr "class");
                   ("name", JStr nm);
                   ("suggested_docstring", JStr (class_docstring_text nm));
                   ("line_number", JInt l)])
  | Some (Module _) =>
      Dumps (JObj [("success", JBool true); ("node_type", JStr "module");
                   ("suggested_docstring", JStr (module_docstring_text file_path));
                   ("line_number", JInt 1)])
  | Some _ =>
      Dumps (JObj [("success", JBool false);
                   ("message", JStr "Unsupported node type for docstring generation")])
  end.

Definition generate_docstring (file_path : string) (object_name : option string)
    (line_number : option Z) : IO reply :=
  try_except
    (content ← os.open_read file_path;
     body ← of_outcome (ast_parse content);
     ret (suggestion file_path (find_target (Module body) object_name line_number)))
    (fun e => ret (failure (str_exn e))).

Definition create_directory (path : string) : IO reply :=
  try_except
    (os.makedirs path;;
     ret (Dumps (JObj [("success", JBool true);
                       ("message", JStr ("Directory created at " +:+ path));
                       ("path", JStr path)])))
    (fun e => ret (failure (str_exn e))).

Definition delete_file (path : string) : IO reply :=
  try_except
    (fs ← read_fs;
     if negb (os_path.exists_ fs path) then
       ret (failure ("File not found: " +:+ path))
     else if os_path.isdir fs path then
       ret (failure ("Path is a directory, use delete_directory instead: " +:+ path))
     else
       os.remove path;;
       ret (Dumps (JObj [("success", JBool true);
                         ("message", JStr ("File deleted: " +:+ path))])))
    (fun e => ret (failure (str_exn e))).

(** [[os.path.relpath(match, directory) for match in matches]] *)
Fixpoint relative_matches (directory : string) (matches : list string)
    : outcome (list string) :=
  match matches with
  | [] => Returned []
  | m :: rest =>
      match os_path.relpath getcwd m directory with
      | Raised e => Raised e
      | Returned r =>
          match relative_matches directory rest with
          | Raised e => Raised e
          | Returned rs => Returned (r :: rs)
          end
      end
  end.

(** The list [matches] of [find_files]. *)
Definition find_matches (fs : filesystem) (directory pattern : string)
    (recursive : bool) : list string :=
  if recursive then
    glob.glob fnmatchcase fs
      (posixpath.join (posixpath.join directory "**") pattern) true
  else
    glob.glob fnmatchcase fs (posixpath.join directory pattern) false.

Definition find_files (directory pattern : string) (recursive : bool) : IO reply :=
  try_except
    (fs ← read_fs;
     if negb (os_path.isdir fs directory) then
       ret (failure ("Directory not found: " +:+ directory))
     else
       let matches := find_matches fs directory pattern recursive in
       relative ← of_outcome (relative_matches directory matches);
       ret (Dumps (JObj [("success", JBool true);
                         ("pattern", JStr pattern);
                         ("recursive", JBool recursive);
                         ("matches", JList (map JStr matches));
                         ("relative_matches", JList (map JStr relative));
                         ("count", JInt (Z.of_nat (length matches)))])))
    (fun e => ret (failure (str_exn e))).

Definition create_file (file_path content : string) : IO reply :=
  try_except
    (let directory := posixpath.dirname file_path in
     fs ← read_fs;
     (if negb (String.eqb directory EmptyString)
         && negb (os_path.exists_ fs directory)
      then os.makedirs directory else ret tt);;
     fs ← read_fs;
     let file_exists := os_path.exists_ fs file_path in
     os.open_write file_path content;;
     ret (Dumps (JObj [("success", JBool true);
                       ("message",
                         JStr ("File " +:+ (if file_exists then "overwritten" else "created")
                               +:+ " at " +:+ file_path));
                       ("path", JStr file_path);
                       ("existed_before", JBool file_exists)])))
    (fun e => ret (failure (str_exn e))).

End Server.

(** The number of nodes of a tree that satisfy [p], counted over the tree
    itself (its pre-order list). *)
Definition count_nodes (p : node -> bool) (tree : node) : nat :=
  length (List.filter p (preorder tree)).

(** A node that carries a docstring: [ast.get_docstring] returns a string
    that is not empty. *)
Definition documented (n : node) : bool := truthy (ast.get_docstring n).

(** A node that opens with a documentation string, whatever the string: the
    first statement of its body is a string literal. *)
Definition opens_with_string (n : node) : bool :=
  match node_body n with
  | Expr (Constant (Str _)) :: _ => true
  | _ => false
  end.

(** Half a unit in the last place of the binary64 numbers below [2 ^ m], and
    the distance the coverage figure keeps to the exact quotient times 100. *)
Definition half_ulp (m : Z) : Q := 1 # Z.to_pos (2 ^ (53 - m)).

Definition coverage_tolerance : Qc := Q2Qc (1 # 2 ^ 45).

(** The test the loop of [generate_docstring] that runs applies to a node:
    the name when one is given, else the line when one is given, else the
    lack of a docstring. *)
Definition target_test (object_name : option string) (line_number : option Z)
    : node -> bool :=
  match given_name object_name, given_line line_number with
  | Some nm, _ => has_name nm
  | None, Some l => has_lineno l
  | None, None => undocumented
  end.

(** [pass] *)
Definition Pass : node := Other [].

(** Sample files.
<<
    class K:                      class K:
        def m(self):                  (empty string literal)
            pass                      def m(self):
    def f():                              (empty string literal)
        pass                      def f():
                                      (empty string literal)
>>
    On the right every declaration opens with an empty string literal as
    its docstring. *)
Definition undocumented_body : list node :=
  [ClassDef "K" 1 0 [FunctionDef "m" 2 4 ["self"] [Pass]];
   FunctionDef "f" 4 0 [] [Pass]].

Definition empty_docstring : node := Expr (Constant (Str EmptyString)).

(** The file on the right with an empty string literal on a first line of
    its own: the module, the class, the method and the function each open
    with a documentation string, an empty one. *)
Definition all_empty_docs_body : list node :=
  [empty_docstring;
   ClassDef "K" 2 0
     [empty_docstring; FunctionDef "m" 4 4 ["self"] [empty_docstring]];
   FunctionDef "f" 6 0 [] [empty_docstring]].

Definition all_empty_docs_text : string :=
  let quotes := String QUOTE (String QUOTE EmptyString) in
  quotes +:+ NL
  +:+ "class K:" +:+ NL
  +:+ "    " +:+ quotes +:+ NL
  +:+ "    def m(self):" +:+ NL
  +:+ "        " +:+ quotes +:+ NL
  +:+ "def f():" +:+ NL
  +:+ "    " +:+ quotes +:+ NL.

Definition empty_docs_body : list node :=
  [ClassDef "K" 1 0
     [empty_docstring; FunctionDef "m" 3 4 ["self"] [empty_docstring]];
   FunctionDef "f" 5 0 [] [empty_docstring]].

(**
<<
    class A:            # line 1
        class B:        # line 2
            pass
    class C:            # line 4
        pass
>> *)
Definition nested_classes_body : list node :=
  [ClassDef "A" 1 0 [ClassDef "B" 2 4 [Pass]];
   ClassDef "C" 4 0 [Pass]].

(** A file in which the columns do not follow the nesting: the body of
    class [A] follows a line continuation and starts in column 0.
<<
    class A:                      # line 1
        \                         # line 2
    def m(self): pass             # line 3, the body of A
    def g(): pass                 # line 4
>> *)
Definition continued_body : list node :=
  [ClassDef "A" 1 0 [FunctionDef "m" 3 0 ["self"] [Pass]];
   FunctionDef "g" 4 0 [] [Pass]].

(** A file of one line, a form feed followed by [def f(): pass]: the
    statement of the module body starts in column 1. *)
Definition form_feed_body : list node := [FunctionDef "f" 1 1 [] [Pass]].

(** [ast.AsyncFunctionDef], the node of an [async def] statement: a node of
    another kind, with the statements of its body below it. The file is
    [async def f(): pass]. *)
Definition AsyncFunctionDef (body : list node) : node := Other body.

Definition async_body : list node := [AsyncFunctionDef [Pass]].

(** The test of the loop for a top-level function:
    [isinstance(node, ast.FunctionDef) and node.col_offset == 0]. *)
Definition in_column_0 (n : node) : bool :=
  is_FunctionDef n && bool_decide (node_col_offset n = Some 0).

(**
<<
    (docstring of the module)     # line 1
    class A:                      # line 2
        (docstring of A)
        def m(self):              # line 4
            pass
    def g():                      # line 6
        pass
>> *)
Definition method_m : node := FunctionDef "m" 4 4 ["self"] [Pass].
Definition function_g : node := FunctionDef "g" 6 0 [] [Pass].
Definition method_before_function : node :=
  Module
    [Expr (Constant (Str "Module doc."));
     ClassDef "A" 2 0 [Expr (Constant (Str "Class doc.")); method_m];
     function_g].

(**
<<
    import os                     # line 1
    def top(a):                   # line 2
        (docstring of top)
        def inner():              # line 4
            pass
    class K:                      # line 6
        def m1(self):             # line 7
            (docstring of m1)
        def m2(self):             # line 9
            pass
    if os.name:                   # line 11
        def cond():               # line 12
            pass
>> *)
Definition sample_body : list node :=
  [Import ["os"];
   FunctionDef "top" 2 0 ["a"]
     [Expr (Constant (Str "Doc of top.")); FunctionDef "inner" 4 4 [] [Pass]];
   ClassDef "K" 6 0
     [FunctionDef "m1" 7 4 ["self"] [Expr (Constant (Str "Doc of m1."))];
      FunctionDef "m2" 9 4 ["self"] [Pass]];
   Other [Other []; FunctionDef "cond" 12 4 [] [Pass]]].

(** ** Notions of the specification about the tools *)

Definition is_text (j : option json) : bool :=
  match j with
  | Some (JStr _) => true
  | _ => false
  end.

Definition is_bool (b : bool) (j : option json) : bool :=
  match j with
  | Some (JBool b') => Bool.eqb b b'
  | _ => false
  end.

Definition is_absent (j : option json) : bool :=
  match j with
  | None => true
  | Some _ => false
  end.

(** The error value the specification describes: a record with a false
    success indicator and a message field. *)
Definition structured_error (r : reply) : bool :=
  is_bool false (field "success" r) && is_text (field "message" r).

Definition reports_success (r : reply) : bool :=
  is_bool true (field "success" r).

(** A failing reply as the tools with a success indicator build it: success
    is false and a text stands under [error] or under [message]. *)
Definition reports_failure (r : reply) : bool :=
  is_bool false (field "success" r)
  && (is_text (field "error" r) || is_text (field "message" r)).

(** The reply of the tools that carry no success indicator when they fail: a
    text under [error] and no [success] field. *)
Definition bare_error (r : reply) : bool :=
  is_absent (field "success" r) && is_text (field "error" r).

(** The reply of [create_file] when it succeeds. *)
Definition created_reply (path : string) (existed : bool) : reply :=
  Dumps (JObj [("success", JBool true);
               ("message",
                 JStr ("File " +:+ (if existed then "overwritten" else "created")
                       +:+ " at " +:+ path));
               ("path", JStr path);
               ("existed_before", JBool existed)]).

(** The reply of [delete_file] when it succeeds, and the text [get_file]
    returns for a path that names nothing. *)
Definition deleted_reply (path : string) : reply :=
  Dumps (JObj [("success", JBool true);
               ("message", JStr ("File deleted: " +:+ path))]).

Definition not_found_text (path : string) : string :=
  "Error reading file: " +:+ str_exn (FileNotFoundError path).

(** Every value a computation returns satisfies [P], whatever the
    filesystem it starts from. *)
Definition returns_only {A} (P : A -> Prop) (m : IO A) : Prop :=
  forall fs a fs', m fs = (Returned a, fs') -> P a.

(** A computation that returns from every filesystem: no exception leaves
    it. *)
Definition never_raises {A} (m : IO A) : Prop :=
  forall fs, exists a fs', m fs = (Returned a, fs').

Definition has_field (k : string) (r : reply) : bool :=
  match field k r with
  | Some _ => true
  | None => false
  end.

(** The directories above [p], nearest first. *)
Fixpoint ancestors_fuel (fuel : nat) (p : string) : list string :=
  match fuel with
  | O => []
  | S fuel' =>
      let d := posixpath.dirname p in
      if String.eqb d p || String.eqb d EmptyString then []
      else d :: ancestors_fuel fuel' d
  end.

Definition ancestors (p : string) : list string :=
  ancestors_fuel (String.length p) p.

(** The directory part of the paths of the entries of [d]: [d] without
    its trailing slashes, or [d] itself when it is made of slashes only. *)
Definition without_trailing_sep (d : string) : string :=
  if str.all_char posixpath.sep d then d
  else str.rstrip_char posixpath.sep d.

(** [m] lies in a nested subdirectory of [directory]: the directory that
    holds [m] is not [directory] itself and has [directory] above it. *)
Definition in_nested_subdirectory (directory m : string) : bool :=
  negb (String.eqb (posixpath.dirname m) directory)
  && bool_decide (directory ∈ ancestors (posixpath.dirname m)).


(** The analysis as a function of the path and of the text stored there. *)
Definition analysis_of_text (ast_parse : string -> outcome (list node))
    (path text : string) : analysis :=
  let content := str.universal_newlines text in
  match ast_parse content with
  | Returned body => Analysed (analyze_tree path content (Module body))
  | Raised e => AnalysisError (str_exn e) path
  end.

(** A parser for the samples: the empty text is the empty module. *)
Definition parse_empty (content : string) : outcome (list node) :=
  if String.eqb content EmptyString then Returned []
  else Raised (SyntaxError "invalid syntax").

(** A matcher for the samples: a pattern [*suffix] matches the names that
    end in [suffix], any other pattern matches itself. *)
Definition sample_fnmatch (name pattern : string) : bool :=
  match pattern with
  | String "*" suffix => str.endswith name suffix
  | _ => String.eqb name pattern
  end.

(** A project directory [/proj] with a file [a.py] and a subdirectory [sub]
    that holds [b.py]. *)
Definition project_fs : filesystem :=
  list_to_map
    [("/", Dir); ("/proj", Dir); ("/proj/a.py", File "import os");
     ("/proj/sub", Dir); ("/proj/sub/b.py", File EmptyString)].

(** A text with a carriage return, and what reading it back gives. *)
Definition text_with_cr : string :=
  "a" +:+ String str.CR EmptyString +:+ "b".
Definition text_with_lf : string :=
  "a" +:+ String str.LF EmptyString +:+ "b".

(**
<<
    class K:                      # line 1
        def documented(self):     # line 2
            (docstring)
        def plain(self):          # line 4
            pass
>> *)
Definition one_class_body : list node :=
  [ClassDef "K" 1 0
     [FunctionDef "documented" 2 4 ["self"] [Expr (Constant (Str "Doc."))];
      FunctionDef "plain" 4 4 ["self"] [Pass]]].

(** The walk from a queue, with the fuel its forest needs. *)
Definition bfs (q : list node) : list node :=
  ast.walk_todo (ast.forest_size q) q.

(** ** Further library functions: [os.path.isfile], [os.listdir],
    [sorted], [os.walk], [os.makedirs] with its [exist_ok] argument *)

(** The number of occurrences of a character: [s.count(c)]. *)
Fixpoint count_char (c : ascii) (s : string) : nat :=
  match s with
  | EmptyString => O
  | String d r => ((if Ascii.eqb d c then 1 else 0) + count_char c r)%nat
  end.

Definition os_path_isfile (fs : filesystem) (p : string) : bool :=
  negb (String.eqb p EmptyString)
  && match fs !! p with
     | Some (File _) => true
     | _ => false
     end.

(** [os.listdir(path)]: the names of the entries of a directory, in the
    order the system hands them out. *)
Definition os_listdir (fs : filesystem) (path : string) : outcome (list string) :=
  if String.eqb path EmptyString then Raised (FileNotFoundError path)
  else match fs !! path with
       | Some Dir => Returned (glob._listdir fs path false)
       | Some (File _) => Raised (NotADirectoryError path)
       | None => Raised (os.absent_error fs path)
       end.

(** The order of [str]: code point by code point. *)
Definition name_le (a b : string) : Prop := String.leb a b = true.

#[global] Instance name_le_dec : RelDecision name_le :=
  fun a b => decide (String.leb a b = true).

(** [sorted(names)] *)
Definition sorted (names : list string) : list string :=
  merge_sort name_le names.

Fixpoint names_sorted (names : list string) : bool :=
  match names with
  | a :: (b :: _) as rest => String.leb a b && names_sorted rest
  | _ => true
  end.

(** [[f(x) for x in l]] where [f] may raise: the first exception ends the
    loop. *)
Fixpoint outcome_map {A B} (f : A -> outcome B) (l : list A) : outcome (list B) :=
  match l with
  | [] => Returned []
  | x :: rest =>
      match f x with
      | Raised e => Raised e
      | Returned y =>
          match outcome_map f rest with
          | Raised e => Raised e
          | Returned ys => Returned (y :: ys)
          end
      end
  end.

(** The length of the longest path of the filesystem. Every directory
    entry lies one component deeper than its directory, so this bounds the
    depth of every descent. *)
Definition longest_path (fs : filesystem) : nat :=
  max_list (map (fun ke => String.length (fst ke)) (map_to_list fs)).

(** [os.walk(top)], top down: the triple of a directory, then the walks of
    its subdirectories. A directory that cannot be listed yields nothing
    ([onerror] is [None]). *)
Fixpoint os_walk (fuel : nat) (fs : filesystem) (top : string)
    : list (string * list string * list string) :=
  match os_listdir fs top with
  | Raised _ => []
  | Returned names =>
      let is_dir name := os_path.isdir fs (posixpath.join top name) in
      let dirs := List.filter is_dir names in
      let nondirs := List.filter (fun name => negb (is_dir name)) names in
      (top, dirs, nondirs)
      :: match fuel with
         | O => []
         | S fuel' =>
             flat_map (fun d => os_walk fuel' fs (posixpath.join top d)) dirs
         end
  end.

(** [os.makedirs(name, exist_ok=exist_ok)] below its first lines: the last
    statement is [mkdir(name)], whose [OSError] is swallowed only with
    [exist_ok] and a directory at [name]. *)
Definition mkdir_last (exist_ok : bool) (name : string) : IO unit :=
  if exist_ok then os.mkdir_exist_ok name else os.mkdir name.

Fixpoint os_makedirs_fuel (exist_ok : bool) (fuel : nat) (name : string)
    : IO unit :=
  match fuel with
  | O => mkdir_last exist_ok name
  | S fuel' =>
      let '(head, tail) := posixpath.split name in
      let '(head, tail) :=
        if String.eqb tail EmptyString then posixpath.split head
        else (head, tail) in
      fs ← read_fs;
      if negb (String.eqb head EmptyString)
         && negb (String.eqb tail EmptyString)
         && negb (os_path.exists_ fs head)
      then
        try_except (os_makedirs_fuel exist_ok fuel' head)
          (fun e => match e with
                    | FileExistsError _ => ret tt
                    | _ => raise e
                    end);;
        if String.eqb tail "." then ret tt else mkdir_last exist_ok name
      else mkdir_last exist_ok name
  end.

(** [os.makedirs(name, exist_ok=exist_ok)]. For the empty name the call
    comes down to [mkdir] of the empty path, which fails with [ENOENT]. *)
Definition os_makedirs (name : string) (exist_ok : bool) : IO unit :=
  if String.eqb name EmptyString then raise (FileNotFoundError name)
  else os_makedirs_fuel exist_ok (String.length name) name.

(** ** The project tree *)

(** The [dict] [build_tree] returns for a file and for a directory. *)
Inductive tree : Type :=
  | FileNode (name path : string) (level : Z)
  | DirNode (name path : string) (level : Z) (children : list tree).

Definition tree_name (t : tree) : string :=
  match t with FileNode n _ _ | DirNode n _ _ _ => n end.
Definition tree_path (t : tree) : string :=
  match t with FileNode _ p _ | DirNode _ p _ _ => p end.
Definition tree_level (t : tree) : Z :=
  match t with FileNode _ _ l | DirNode _ _ l _ => l end.

Fixpoint tree_json (t : tree) : json :=
  match t with
  | FileNode name path level =>
      JObj [("type", JStr "file"); ("name", JStr name); ("path", JStr path);
            ("level", JInt level)]
  | DirNode name path level children =>
      JObj [("type", JStr "directory"); ("name", JStr name);
            ("path", JStr path); ("level", JInt level);
            ("children", JList (map tree_json children))]
  end.

(** [not item.startswith('.') and item != "__pycache__"] *)
Definition listed (item : string) : bool :=
  negb (str.startswith item ".") && negb (String.eqb item "__pycache__").

(** The text of the [RecursionError] the encoder of [json.dumps] raises
    when a value nests deeper than the interpreter's recursion limit
    allows. *)
Definition RECURSION_IN_DUMPS : string :=
  "maximum recursion depth exceeded while encoding a JSON object".

(** The nested function [build_tree] of [get_project_structure]; the
    arguments [is_last] and [prefix] and the variable [is_last_item] are
    never read. Each nested call is on an entry of [path], one level down,
    and the recursion is as deep as the directory tree: [depth] is the number
    of calls of [build_tree] the interpreter lets nest before its recursion
    limit is met, and the call that would pass it raises [RecursionError]
    with the [text] the interpreter gives it (it begins with [maximum
    recursion depth exceeded]; the rest depends on the call at which the
    limit is met). *)
Fixpoint build_tree (text : string) (depth : nat) (fs : filesystem)
    (path : string) (level : Z) : outcome tree :=
  match depth with
  | O => Raised (RecursionError text)
  | S depth' =>
      if os_path_isfile fs path then
        Returned (FileNode (posixpath.basename path) path level)
      else
        match os_listdir fs path with
        | Raised e => Raised e
        | Returned items =>
            let items := List.filter listed items in
            match outcome_map
                    (fun item =>
                       build_tree text depth' fs (posixpath.join path item)
                         (level + 1))
                    (sorted items) with
            | Raised e => Raised e
            | Returned children =>
                Returned (DirNode (posixpath.basename path) path level children)
            end
        end
  end.

(** The number of levels of a tree: the calls of [build_tree] that nest to
    build it. *)
Fixpoint tree_depth (t : tree) : nat :=
  match t with
  | FileNode _ _ _ => 1%nat
  | DirNode _ _ _ children => S (max_list (map tree_depth children))
  end.

(** How deep the lists and the dicts of a value nest. *)
Fixpoint json_depth (j : json) : nat :=
  match j with
  | JList items => S (max_list (map json_depth items))
  | JObj fields =>
      S (max_list (map (fun kv => match kv with (_, v) => json_depth v end) fields))
  | _ => O
  end.

(** [json.dumps(value)] for a value of any depth: the encoder descends one
    level per list and per dict, and raises when the value nests deeper
    than [limit], the nesting the interpreter's recursion limit leaves room
    for. *)
Definition json_dumps (limit : nat) (value : json) : outcome reply :=
  if (json_depth value <=? limit)%nat then Returned (Dumps value)
  else Raised (RecursionError RECURSION_IN_DUMPS).

(** What [get_project_structure] returns: the tree, or the [dict] of its
    [except] branch. *)
Inductive structure : Type :=
  | Structure (t : tree)
  | StructureError (error : string).

Definition structure_json (s : structure) : json :=
  match s with
  | Structure t => tree_json t
  | StructureError msg => JObj [("error", JStr msg)]
  end.

(** The names of a tree below its root, and the test that a tree is laid
    out as [build_tree] lays it out: each node is named by the last component
    of its path, the children of a directory are one level down, at the
    directory's path joined with their name, in the order of their names, and
    none is hidden or a [__pycache__]. *)
Fixpoint tree_ok (t : tree) : bool :=
  match t with
  | FileNode name path _ => String.eqb name (posixpath.basename path)
  | DirNode name path level children =>
      String.eqb name (posixpath.basename path)
      && names_sorted (map tree_name children)
      && forallb
           (fun c =>
              (tree_level c =? level + 1)
              && String.eqb (tree_path c) (posixpath.join path (tree_name c))
              && listed (tree_name c)
              && tree_ok c)
           children
  end.

(** ** The lines that match, for [search_in_files] *)

(** One file's [matches], as pairs of a line number and a line, and one entry
    of [results]. *)
Definition line_match : Type := Z * string.
Definition file_matches : Type := string * list line_match.

Definition match_json (m : line_match) : json :=
  JObj [("line_number", JInt (fst m)); ("line", JStr (snd m))].

Definition file_matches_json (r : file_matches) : json :=
  JObj [("file", JStr (fst r)); ("matches", JList (map match_json (snd r)))].

(** [sum(len(r["matches"]) for r in results)] *)
Definition count_matches (results : list file_matches) : nat :=
  list_sum (map (fun r => length (snd r)) results).

(** ** The result of a command *)

(** [subprocess.CompletedProcess], with the attributes read. *)
Record CompletedProcess : Type := mkCompleted {
  returncode : Z;
  stdout : string;
  stderr : string
}.

(** The two [dict]s [execute_command] returns. *)
Inductive CommandResult : Type :=
  | Ran (success : bool) (out err : string) (code : Z)
  | NotRun (error : string).

(** [result["success"]]: both [dict]s hold the key. *)
Definition result_success (r : CommandResult) : bool :=
  match r with
  | Ran s _ _ _ => s
  | NotRun _ => false
  end.

(** [result.get("stdout", "")], [result.get("stderr", "")] and
    [result.get("returncode", 1)] *)
Definition result_stdout (r : CommandResult) : string :=
  match r with
  | Ran _ out _ _ => out
  | NotRun _ => EmptyString
  end.
Definition result_stderr (r : CommandResult) : string :=
  match r with
  | Ran _ _ err _ => err
  | NotRun _ => EmptyString
  end.
Definition result_returncode (r : CommandResult) : Z :=
  match r with
  | Ran _ _ _ code => code
  | NotRun _ => 1
  end.

(** ** The other tools of the server *)

Definition DEFAULT_README_PATH : string := "README.md".

Definition BACKTICKS : string := "```".

(** The text of a new README. *)
Definition readme_template (project_name : string) : string :=
  "# " +:+ project_name +:+ NL +:+ NL
  +:+ "## Description" +:+ NL +:+ NL +:+ "Project description here." +:+ NL +:+ NL
  +:+ "## Installation" +:+ NL +:+ NL +:+ BACKTICKS +:+ "bash" +:+ NL
  +:+ "pip install -r requirements.txt" +:+ NL +:+ BACKTICKS +:+ NL +:+ NL
  +:+ "## Usage" +:+ NL +:+ NL +:+ "Usage instructions here." +:+ NL +:+ NL
  +:+ "## License" +:+ NL +:+ NL
  +:+ "[MIT](https://choosealicense.com/licenses/mit/)" +:+ NL.

(** The note appended for the sections asked for. *)
Definition updates_needed (sections : list string) : string :=
  NL +:+ NL +:+ "## Updates Needed" +:+ NL +:+ NL
  +:+ "The following sections need to be updated:" +:+ NL +:+ NL
  +:+ String.concat EmptyString (map (fun s => "- " +:+ s +:+ NL) sections).

(** The truth value of [sections]: [None] and the empty list are false. *)
Definition given_sections (sections : option (list string)) : list string :=
  match sections with
  | Some l => l
  | None => []
  end.

Section Tools.

(** [fnmatch.fnmatch], which on POSIX is [fnmatch.fnmatchcase]. *)
Variable fnmatchcase : string -> string -> bool.
(** [os.getcwd()] *)
Variable getcwd : string.
(** The truth value of [re.search(pattern, line)], or the exception it
    raises (a pattern that does not compile). *)
Variable re_search : string -> string -> outcome bool.
(** [subprocess.run(command, capture_output=True, text=True, check=False)] *)
Variable subprocess_run : list string -> IO CompletedProcess.
(** [os.rmdir], [shutil.rmtree], [shutil.copy2], [shutil.copytree],
    [shutil.move] and [os.rename], for what they do to the filesystem. *)
Variable os_rmdir : string -> IO unit.
Variable shutil_rmtree : string -> IO unit.
Variable shutil_copy2 : string -> string -> IO unit.
Variable shutil_copytree : string -> string -> IO unit.
Variable shutil_move : string -> string -> IO unit.
Variable os_rename : string -> string -> IO unit.
(** What the interpreter's recursion limit ([sys.getrecursionlimit()], 1000
    unless it is set, less the frames in use when the tool is called) leaves
    room for: the number of calls of [build_tree] that can nest, with the
    text of the [RecursionError] raised beyond it, and the depth of the value
    [json.dumps] can encode. *)
Variable recursion_limit : nat.
Variable recursion_text : string.
Variable dumps_limit : nat.

Definition execute_command (command : list string) : IO CommandResult :=
  try_except
    (result ← subprocess_run command;
     ret (Ran (returncode result =? 0) (stdout result) (stderr result)
            (returncode result)))
    (fun e => ret (NotRun (str_exn e))).

Definition get_project_structure (directory : string) : IO structure :=
  fs ← read_fs;
  match build_tree recursion_text recursion_limit fs directory 0 with
  | Returned t => ret (Structure t)
  | Raised e => ret (StructureError (str_exn e))
  end.

(** No [try] surrounds the body: an exception of [json.dumps] leaves the
    tool. *)
Definition get_project_tree (directory : string) : IO reply :=
  fs ← read_fs;
  if negb (os_path.isdir fs directory) then
    ret (Dumps (JObj [("error", JStr ("Directory not found: " +:+ directory))]))
  else
    s ← get_project_structure directory;
    of_outcome (json_dumps dumps_limit (structure_json s)).

(** The argument [pattern] is not read. *)
Definition run_tests (directory pattern : string) : IO reply :=
  try_except
    (fs ← read_fs;
     if negb (os_path.isdir fs directory) then
       ret (Dumps (JObj [("error", JStr ("Directory not found: " +:+ directory))]))
     else
       result ← execute_command ["pytest"; directory; "-v"];
       ret (Dumps (JObj [("success", JBool (result_success result));
                         ("stdout", JStr (result_stdout result));
                         ("stderr", JStr (result_stderr result));
                         ("returncode", JInt (result_returncode result))])))
    (fun e => ret (Dumps (JObj [("error", JStr (str_exn e))]))).

Definition lint_code (file_path : string) : IO reply :=
  try_except
    (if negb (str.endswith file_path ".py") then
       ret (Dumps (JObj [("error", JStr "Only Python files are supported for linting")]))
     else
       fs ← read_fs;
       if negb (os_path_isfile fs file_path) then
         ret (Dumps (JObj [("error", JStr ("File not found: " +:+ file_path))]))
       else
         result ← execute_command ["flake8"; file_path];
         ret (Dumps (JObj [("success", JBool (result_success result));
                           ("output", JStr (result_stdout result));
                           ("errors", JStr (result_stderr result));
                           ("returncode", JInt (result_returncode result))])))
    (fun e => ret (Dumps (JObj [("error", JStr (str_exn e))]))).

Definition delete_directory (path : string) (recursive : bool) : IO reply :=
  try_except
    (fs ← read_fs;
     if negb (os_path.exists_ fs path) then
       ret (failure ("Directory not found: " +:+ path))
     else if negb (os_path.isdir fs path) then
       ret (failure ("Path is not a directory: " +:+ path))
     else
       (if recursive then shutil_rmtree path else os_rmdir path);;
       ret (Dumps (JObj [("success", JBool true);
                         ("message", JStr ("Directory deleted: " +:+ path))])))
    (fun e => ret (failure (str_exn e))).

Definition copy_file (source destination : string) : IO reply :=
  try_except
    (fs ← read_fs;
     if negb (os_path.exists_ fs source) then
       ret (failure ("Source file not found: " +:+ source))
     else if os_path.isdir fs source then
       ret (failure ("Source is a directory, use copy_directory instead: "
                     +:+ source))
     else
       let dest_dir := posixpath.dirname destination in
       (if negb (String.eqb dest_dir EmptyString)
           && negb (os_path.exists_ fs dest_dir)
        then os_makedirs dest_dir false else ret tt);;
       shutil_copy2 source destination;;
       ret (Dumps (JObj [("success", JBool true);
                         ("message",
                           JStr ("File copied from " +:+ source +:+ " to "
                                 +:+ destination));
                         ("source", JStr source);
                         ("destination", JStr destination)])))
    (fun e => ret (failure (str_exn e))).

Definition copy_directory (source destination : string) : IO reply :=
  try_except
    (fs ← read_fs;
     if negb (os_path.exists_ fs source) then
       ret (failure ("Source directory not found: " +:+ source))
     else if negb (os_path.isdir fs source) then
       ret (failure ("Source is not a directory: " +:+ source))
     else
       (if negb (os_path.exists_ fs (posixpath.dirname destination))
        then os_makedirs (posixpath.dirname destination) true else ret tt);;
       shutil_copytree source destination;;
       ret (Dumps (JObj [("success", JBool true);
                         ("message",
                           JStr ("Directory copied from " +:+ source +:+ " to "
                                 +:+ destination));
                         ("source", JStr source);
                         ("destination", JStr destination)])))
    (fun e => ret (failure (str_exn e))).

Definition move_file (source destination : string) : IO reply :=
  try_except
    (fs ← read_fs;
     if negb (os_path.exists_ fs source) then
       ret (failure ("Source file not found: " +:+ source))
     else if os_path.isdir fs source then
       ret (failure ("Source is a directory, use move_directory instead: "
                     +:+ source))
     else
       let dest_dir := posixpath.dirname destination in
       (if negb (String.eqb dest_dir EmptyString)
           && negb (os_path.exists_ fs dest_dir)
        then os_makedirs dest_dir false else ret tt);;
       shutil_move source destination;;
       ret (Dumps (JObj [("success", JBool true);
                         ("message",
                           JStr ("File moved from " +:+ source +:+ " to "
                                 +:+ destination));
                         ("source", JStr source);
                         ("destination", JStr destination)])))
    (fun e => ret (failure (str_exn e))).

Definition move_directory (source destination : string) : IO reply :=
  try_except
    (fs ← read_fs;
     if negb (os_path.exists_ fs source) then
       ret (failure ("Source directory not found: " +:+ source))
     else if negb (os_path.isdir fs source) then
       ret (failure ("Source is not a directory: " +:+ source))
     else
       let parent_dir := posixpath.dirname destination in
       (if negb (String.eqb parent_dir EmptyString)
           && negb (os_path.exists_ fs parent_dir)
        then os_makedirs parent_dir true else ret tt);;
       shutil_move source destination;;
       ret (Dumps (JObj [("success", JBool true);
                         ("message",
                           JStr ("Directory moved from " +:+ source +:+ " to "
                                 +:+ destination));
                         ("source", JStr source);
                         ("destination", JStr destination)])))
    (fun e => ret (failure (str_exn e))).

Definition rename_file (source new_name : string) : IO reply :=
  try_except
    (fs ← read_fs;
     if negb (os_path.exists_ fs source) then
       ret (failure ("Source file not found: " +:+ source))
     else if os_path.isdir fs source then
       ret (failure ("Source is a directory, use rename_directory instead: "
                     +:+ source))
     else
       let directory := posixpath.dirname source in
       let destination := posixpath.join directory new_name in
       os_rename source destination;;
       ret (Dumps (JObj [("success", JBool true);
                         ("message",
                           JStr ("File renamed from " +:+ source +:+ " to "
                                 +:+ destination));
                         ("old_path", JStr source);
                         ("new_path", JStr destination)])))
    (fun e => ret (failure (str_exn e))).

Definition rename_directory (source new_name : string) : IO reply :=
  try_except
    (fs ← read_fs;
     if negb (os_path.exists_ fs source) then
       ret (failure ("Source directory not found: " +:+ source))
     else if negb (os_path.isdir fs source) then
       ret (failure ("Source is not a directory: " +:+ source))
     else
       let parent_dir := posixpath.dirname source in
       let destination := posixpath.join parent_dir new_name in
       os_rename source destination;;
       ret (Dumps (JObj [("success", JBool true);
                         ("message",
                           JStr ("Directory renamed from " +:+ source +:+ " to "
                                 +:+ destination));
                         ("old_path", JStr source);
                         ("new_path", JStr destination)])))
    (fun e => ret (failure (str_exn e))).

(** The loop over the lines of one file: [i] is the index [enumerate]
    gives the first line of [lines]. *)
Fixpoint matching_lines (pattern : string) (i : Z) (lines : list string)
    : outcome (list line_match) :=
  match lines with
  | [] => Returned []
  | line :: rest =>
      match re_search pattern line with
      | Raised e => Raised e
      | Returned hit =>
          match matching_lines pattern (i + 1) rest with
          | Raised e => Raised e
          | Returned ms => Returned (if hit then (i + 1, line) :: ms else ms)
          end
      end
  end.

(** The inner [try] of [search_in_files]: what one file adds to [results].
    A file that cannot be read, or a search that raises, adds nothing (the
    warning is only logged). *)
Definition search_file (pattern file_path : string) : IO (list file_matches) :=
  try_except
    (content ← os.open_read file_path;
     matches ← of_outcome (matching_lines pattern 0 (str.splitlines content));
     ret (match matches with
          | [] => []
          | _ => [(file_path, matches)]
          end))
    (fun _ => ret []).

(** [for file in files], for one triple of the walk. *)
Fixpoint search_files (pattern file_pattern root : string) (files : list string)
    : IO (list file_matches) :=
  match files with
  | [] => ret []
  | file :: rest =>
      found ← (if negb (fnmatchcase file file_pattern) then ret []
               else search_file pattern (posixpath.join root file));
      more ← search_files pattern file_pattern root rest;
      ret (found ++ more)
  end.

(** [for root, _, files in os.walk(directory)] *)
Fixpoint search_walk (pattern file_pattern : string)
    (walked : list (string * list string * list string))
    : IO (list file_matches) :=
  match walked with
  | [] => ret []
  | (root, _, files) :: rest =>
      found ← search_files pattern file_pattern root files;
      more ← search_walk pattern file_pattern rest;
      ret (found ++ more)
  end.

Definition search_in_files (directory pattern file_pattern : string) : IO reply :=
  try_except
    (fs ← read_fs;
     if negb (os_path.isdir fs directory) then
       ret (failure ("Directory not found: " +:+ directory))
     else
       results ← search_walk pattern file_pattern
                   (os_walk (longest_path fs) fs directory);
       ret (Dumps (JObj [("success", JBool true);
                         ("pattern", JStr pattern);
                         ("file_pattern", JStr file_pattern);
                         ("results", JList (map file_matches_json results));
                         ("count", JInt (Z.of_nat (count_matches results)))])))
    (fun e => ret (failure (str_exn e))).

Definition update_readme (project_dir : string) (sections : option (list string))
    : IO reply :=
  try_except
    (fs ← read_fs;
     if negb (os_path.isdir fs project_dir) then
       ret (Dumps (JObj [("error", JStr ("Directory not found: " +:+ project_dir))]))
     else
       let readme_path := posixpath.join project_dir DEFAULT_README_PATH in
       let readme_exists := os_path_isfile fs readme_path in
       current_content ← (if readme_exists then get_file_content readme_path
                          else ret EmptyString);
       let new_content :=
         if negb readme_exists || String.eqb current_content EmptyString then
           readme_template
             (posixpath.basename (os_path.abspath getcwd project_dir))
         else
           match given_sections sections with
           | [] => current_content
           | _ :: _ => current_content +:+ updates_needed (given_sections sections)
           end in
       success ← write_file_content readme_path new_content;
       if success : bool then
         ret (Dumps (JObj [("success", JBool true);
                           ("message", JStr "README updated successfully");
                           ("created_new", JBool (negb readme_exists));
                           ("path", JStr readme_path)]))
       else
         ret (Dumps (JObj [("success", JBool false);
                           ("message", JStr "Failed to update README")])))
    (fun e => ret (Dumps (JObj [("error", JStr (str_exn e))]))).

End Tools.

(** ** Notions for the further properties *)

(** The number of entries an import statement adds to the report. *)
Definition imported_names (n : node) : nat :=
  match n with
  | Import names | ImportFrom _ names => length names
  | _ => O
  end.

(** The reply of [generate_docstring] for the module, and the one for no
    target. *)
Definition module_reply (path : string) : reply :=
  Dumps (JObj [("success", JBool true); ("node_type", JStr "module");
               ("suggested_docstring", JStr (module_docstring_text path));
               ("line_number", JInt 1)]).

Definition no_target_reply : reply :=
  Dumps (JObj [("success", JBool false);
               ("message", JStr "No suitable target found for docstring generation")]).

(** The names of [node.args.args] that [generate_docstring] writes a line
    for. *)
Definition documented_args (args_args : list string) : list string :=
  List.filter (fun a => negb (String.eqb a "self")) args_args.

(** The number of lines of a text: one more than its line feeds. *)
Definition text_lines (s : string) : nat := length (str.split str.LF s).

(** A parser for the samples that returns one tree for every text. *)
Definition parse_as (body : list node) (content : string) : outcome (list node) :=
  Returned body.

(** From [fs] to [fs'] nothing is removed or overwritten, and what is new
    is a directory. *)
Definition only_adds_directories (fs fs' : filesystem) : Prop :=
  forall k, fs' !! k = fs !! k \/ (fs !! k = None /\ fs' !! k = Some Dir).

(** The two replies of [update_file]. *)
Definition updated_reply (path : string) : reply :=
  Dumps (JObj [("success", JBool true);
               ("message", JStr ("File " +:+ path +:+ " updated successfully"))]).


(** The reply of [create_directory] when it succeeds. *)
Definition directory_reply (path : string) : reply :=
  Dumps (JObj [("success", JBool true);
               ("message", JStr ("Directory created at " +:+ path));
               ("path", JStr path)]).

(** Library calls for the samples: one that does nothing and one that
    fails. *)
Definition call_ok (source destination : string) : IO unit := ret tt.
Definition call_ok1 (path : string) : IO unit := ret tt.


Definition directory_moved_reply (source destination : string) : reply :=
  Dumps (JObj [("success", JBool true);
               ("message",
                 JStr ("Directory moved from " +:+ source +:+ " to "
                       +:+ destination));
               ("source", JStr source);
               ("destination", JStr destination)]).

(** The reply a tool makes of the outcome of its library call. *)
Definition reply_of_call (success : reply) (result : outcome unit * filesystem)
    : outcome reply * filesystem :=
  match result with
  | (Returned _, fs') => (Returned success, fs')
  | (Raised e, fs') => (Returned (failure (str_exn e)), fs')
  end.

(** A project directory with a hidden directory, a cache directory, two
    files out of order and a subdirectory. *)
Definition tree_fs : filesystem :=
  list_to_map
    [("/", Dir); ("/p", Dir); ("/p/.git", Dir); ("/p/.git/config", File "x");
     ("/p/__pycache__", Dir); ("/p/b.py", File "b"); ("/p/a.py", File "a");
     ("/p/sub", Dir); ("/p/sub/c.py", File "c"); ("/p/sub/.env", File "e")].

Definition tree_of_p : tree :=
  DirNode "p" "/p" 0
    [FileNode "a.py" "/p/a.py" 1;
     FileNode "b.py" "/p/b.py" 1;
     DirNode "sub" "/p/sub" 1 [FileNode "c.py" "/p/sub/c.py" 2]].

(** ** Notions for [search_in_files] *)

Section SearchNotions.

Variable fnmatchcase : string -> string -> bool.
Variable re_search : string -> string -> outcome bool.

(** [ms] are the matches among [lines]: every match is a line the search
    accepts, under its number counted from 1; every such line is among the
    matches; and the matches come by increasing line number. *)
Definition matches_of_lines (pattern : string) (lines : list string)
    (ms : list line_match) : Prop :=
  Forall (fun m => 1 <= fst m
                   /\ lines !! Z.to_nat (fst m - 1) = Some (snd m)
                   /\ re_search pattern (snd m) = Returned true) ms
  /\ (forall idx line,
        lines !! idx = Some line -> re_search pattern line = Returned true ->
        (Z.of_nat idx + 1, line) ∈ ms)
  /\ StronglySorted Z.lt (map fst ms).

(** An entry of [results] that comes from a file of [fs]: the file's name
    matches the file pattern, and the matches, of which there is one at
    least, are those of the lines of the text read. *)
Definition found_in (fs : filesystem) (pattern file_pattern : string)
    (r : file_matches) : Prop :=
  snd r <> []
  /\ fnmatchcase (posixpath.basename (fst r)) file_pattern = true
  /\ exists content,
       fs !! fst r = Some (File content)
       /\ matches_of_lines pattern
            (str.splitlines (str.universal_newlines content)) (snd r).

End SearchNotions.

(** The reply of [search_in_files] when it succeeds. *)
Definition search_reply (pattern file_pattern : string)
    (results : list file_matches) : reply :=
  Dumps (JObj [("success", JBool true);
               ("pattern", JStr pattern);
               ("file_pattern", JStr file_pattern);
               ("results", JList (map file_matches_json results));
               ("count", JInt (Z.of_nat (count_matches results)))]).

(** Searches for the samples: one that accepts the lines that hold the
    character of a one-character pattern, and one whose pattern never
    compiles. *)
Definition search_char (pattern line : string) : outcome bool :=
  match pattern with
  | String c EmptyString => Returned (str.contains c line)
  | _ => Raised (ValueError "bad pattern")
  end.

Definition search_fails (pattern line : string) : outcome bool :=
  Raised (ValueError "unterminated character set at position 0").

(** The two replies of [update_readme] after the directory test. *)
Definition readme_reply (created_new : bool) (readme_path : string) : reply :=
  Dumps (JObj [("success", JBool true);
               ("message", JStr "README updated successfully");
               ("created_new", JBool created_new);
               ("path", JStr readme_path)]).

Definition readme_failed_reply : reply :=
  Dumps (JObj [("success", JBool false);
               ("message", JStr "Failed to update README")]).

(** The text [update_readme] writes over a README that holds [old]. *)
Definition readme_update (old : string) (sections : option (list string))
    : string :=
  match given_sections sections with
  | [] => old
  | _ :: _ => old +:+ updates_needed (given_sections sections)
  end.

(** The replies of [run_tests] and [lint_code] after their tests, made of
    the result of [execute_command]. *)
Definition tests_reply (result : CommandResult) : reply :=
  Dumps (JObj [("success", JBool (result_success result));
               ("stdout", JStr (result_stdout result));
               ("stderr", JStr (result_stderr result));
               ("returncode", JInt (result_returncode result))]).

Definition lint_reply (result : CommandResult) : reply :=
  Dumps (JObj [("success", JBool (result_success result));
               ("output", JStr (result_stdout result));
               ("errors", JStr (result_stderr result));
               ("returncode", JInt (result_returncode result))]).

(** What [execute_command] makes of the outcome of [subprocess.run]. *)
Definition result_of_run (o : outcome CompletedProcess) : CommandResult :=
  match o with
  | Returned result =>
      Ran (returncode result =? 0) (stdout result) (stderr result)
        (returncode result)
  | Raised e => NotRun (str_exn e)
  end.

(** Subprocesses for the samples: a program that is not installed, and
    one that ends with code 1 and a line of output. *)
Definition run_not_installed (command : list string) : IO CompletedProcess :=
  raise (FileNotFoundError "flake8").

Definition run_with_findings (command : list string) : IO CompletedProcess :=
  ret (mkCompleted 1 "a.py:1:1: F401 imported but unused" EmptyString).

(** The directories [os.walk] comes to from [top]: [top] itself, and what
    it comes to from a subdirectory of [top]. *)
Inductive reaches (fs : filesystem) : string -> string -> Prop :=
  | reaches_here top : reaches fs top top
  | reaches_down top name root :
      os_path.isdir fs top = true ->
      name ∈ glob._listdir fs top false ->
      os_path.isdir fs (posixpath.join top name) = true ->
      reaches fs (posixpath.join top name) root ->
      reaches fs top root.

(** * Properties *)

(** ** The library functions on samples *)

Example split_ex1 : posixpath.split "/proj/sub/a.py" = ("/proj/sub", "a.py").
Proof. reflexivity. Qed.
Example split_ex2 : posixpath.split "/a.py" = ("/", "a.py").
Proof. reflexivity. Qed.
Example split_ex3 : posixpath.split "a//b///c" = ("a//b", "c").
Proof. reflexivity. Qed.
Example split_ex4 : posixpath.split "plain" = (EmptyString, "plain").
Proof. reflexivity. Qed.
Example split_ex5 : posixpath.split "a/b/" = ("a/b", EmptyString).
Proof. reflexivity. Qed.
Example join_ex1 : posixpath.join "/proj" "a.py" = "/proj/a.py".
Proof. reflexivity. Qed.
Example join_ex2 : posixpath.join "/proj/" "a.py" = "/proj/a.py".
Proof. reflexivity. Qed.
Example join_ex3 : posixpath.join "/proj" "/etc/x" = "/etc/x".
Proof. reflexivity. Qed.
Example cleandoc_ex1 : inspect.cleandoc EmptyString = EmptyString.
Proof. reflexivity. Qed.
Example cleandoc_ex2 :
  inspect.cleandoc (" Title" +:+ String str.LF "    body" +:+ String str.LF "    ")
  = "Title" +:+ String str.LF "body".
Proof. reflexivity. Qed.
Example splitlines_ex1 :
  str.splitlines ("a" +:+ String str.CR (String str.LF "b") +:+ String str.LF EmptyString)
  = ["a"; "b"].
Proof. reflexivity. Qed.
Example endswith_ex1 : str.endswith "x.py" ".py" = true.
Proof. reflexivity. Qed.
Example endswith_ex2 : str.endswith "py" ".py" = false.
Proof. reflexivity. Qed.
Example cleandoc_blank : inspect.cleandoc "   " = EmptyString.
Proof. reflexivity. Qed.
Example relpath_ex1 :
  os_path.relpath "/home" "/proj/sub/b.py" "/proj" = Returned "sub/b.py".
Proof. reflexivity. Qed.
Example relpath_ex2 :
  os_path.relpath "/proj" "a.py" "/proj/sub" = Returned "../a.py".
Proof. reflexivity. Qed.
Example universal_newlines_ex :
  str.universal_newlines text_with_cr = text_with_lf.
Proof. reflexivity. Qed.

(** ** The order of [ast.walk] *)

Lemma size_pos n : (1 <= ast.size n)%nat.
Proof. destruct n; simpl; lia. Qed.

Lemma size_children n :
  ast.size n = S (ast.forest_size (ast.iter_child_nodes n)).
Proof. destruct n; unfold ast.forest_size; simpl; lia. Qed.

Lemma forest_size_app q r :
  ast.forest_size (q ++ r) = (ast.forest_size q + ast.forest_size r)%nat.
Proof. unfold ast.forest_size. by rewrite map_app, list_sum_app. Qed.

Lemma forest_size_cons n q :
  ast.forest_size (n :: q) = (ast.size n + ast.forest_size q)%nat.
Proof. reflexivity. Qed.

Lemma forest_size_step n rest :
  S (ast.forest_size (rest ++ ast.iter_child_nodes n))
  = ast.forest_size (n :: rest).
Proof. rewrite forest_size_app, forest_size_cons, (size_children n). lia. Qed.

(** Any fuel that covers the forest gives the same walk: the queue is
    served to its end. *)
Lemma walk_todo_fuel f1 f2 q :
  (ast.forest_size q <= f1)%nat -> (ast.forest_size q <= f2)%nat ->
  ast.walk_todo f1 q = ast.walk_todo f2 q.
Proof.
  revert f2 q. induction f1 as [|f1 IH]; intros f2 q H1 H2.
  - destruct q as [|n rest]; [by destruct f2|].
    rewrite forest_size_cons in H1. pose proof (size_pos n). lia.
  - destruct q as [|n rest]; [by destruct f2|].
    destruct f2 as [|f2].
    + rewrite forest_size_cons in H2. pose proof (size_pos n). lia.
    + simpl. f_equal. pose proof (forest_size_step n rest). apply IH; lia.
Qed.

Lemma bfs_cons n rest : bfs (n :: rest) = n :: bfs (rest ++ ast.iter_child_nodes n).
Proof.
  unfold bfs. rewrite <- (forest_size_step n rest). simpl. reflexivity.
Qed.

Lemma walk_bfs t : ast.walk t = bfs [t].
Proof.
  unfold ast.walk, bfs. apply walk_todo_fuel; rewrite forest_size_cons;
    unfold ast.forest_size; simpl; lia.
Qed.

(** Serving a whole queue yields it in order and leaves the children of its
    nodes, in order, behind whatever was waiting. *)
Lemma bfs_app q r :
  bfs (q ++ r) = q ++ bfs (r ++ flat_map ast.iter_child_nodes q).
Proof.
  revert r. induction q as [|n q IH]; intros r; simpl.
  - by rewrite app_nil_r.
  - rewrite bfs_cons. f_equal. rewrite <- app_assoc, IH.
    by rewrite <- app_assoc.
Qed.

Lemma bfs_levels q : bfs q = q ++ bfs (flat_map ast.iter_child_nodes q).
Proof. by rewrite <- (app_nil_r q) at 1; rewrite bfs_app. Qed.

Lemma forest_size_children q :
  (ast.forest_size (flat_map ast.iter_child_nodes q) + length q)%nat
  = ast.forest_size q.
Proof.
  induction q as [|n q IH]; [done|].
  simpl. rewrite forest_size_app, forest_size_cons, (size_children n). lia.
Qed.

Lemma level_order_nil h : level_order h [] = [].
Proof. induction h; simpl; auto. Qed.

(** [ast.walk] is level order: every node of one depth comes before every
    deeper node, and the nodes of one depth come left to right. *)
Lemma bfs_level_order h q :
  (ast.forest_size q <= h)%nat -> bfs q = level_order h q.
Proof.
  revert q. induction h as [|h IH]; intros q Hq.
  - destruct q as [|n q]; [done|].
    rewrite forest_size_cons in Hq. pose proof (size_pos n). lia.
  - simpl. rewrite bfs_levels. f_equal.
    destruct q as [|n q]; [by rewrite level_order_nil|].
    apply IH. pose proof (forest_size_children (n :: q)). simpl in *. lia.
Qed.

Lemma preorder_unfold n :
  preorder n = n :: flat_map preorder (ast.iter_child_nodes n).
Proof. destruct n; simpl; try done. by rewrite app_nil_r. Qed.

(** [ast.walk] meets every node of the tree once: it is a rearrangement of
    the pre-order list. *)
Lemma bfs_perm q : Permutation (bfs q) (flat_map preorder q).
Proof.
  remember (ast.forest_size q) as k eqn:Hk.
  revert q Hk. induction k as [k IH] using lt_wf_ind. intros q Hk.
  destruct q as [|n rest]; [done|].
  rewrite bfs_cons. simpl. rewrite (preorder_unfold n). simpl.
  constructor.
  rewrite (IH (ast.forest_size (rest ++ ast.iter_child_nodes n))); [| |done].
  - rewrite flat_map_app. apply Permutation_app_comm.
  - pose proof (forest_size_step n rest). lia.
Qed.

Lemma walk_perm t : Permutation (ast.walk t) (preorder t).
Proof. rewrite walk_bfs, bfs_perm. simpl. by rewrite app_nil_r. Qed.

(** ** Docstring coverage *)

Lemma filter_perm {A} (p : A -> bool) (l1 l2 : list A) :
  Permutation l1 l2 -> Permutation (List.filter p l1) (List.filter p l2).
Proof.
  induction 1 as [|x l1 l2 _ IH|x y l|l1 l2 l3 _ IH1 _ IH2]; simpl.
  - constructor.
  - destruct (p x); [by constructor|done].
  - destruct (p x), (p y); try reflexivity. apply perm_swap.
  - by etrans.
Qed.

(** The counters of the report count nodes of the tree, each once. *)
Lemma walk_count p t :
  length (List.filter p (ast.walk t)) = count_nodes p t.
Proof.
  unfold count_nodes. apply Permutation_length, filter_perm, walk_perm.
Qed.

Lemma filter_length_le {A} (p q : A -> bool) (l : list A) :
  (length (List.filter (fun x => q x && p x) l) <= length (List.filter q l))%nat.
Proof.
  induction l as [|x l IH]; simpl; [lia|].
  destruct (q x), (p x); simpl; lia.
Qed.

(** *** Rounding *)

Lemma rne_div_bounds a b M :
  0 < b -> 0 <= a -> a <= M * b -> 0 <= float.rne_div a b <= M.
Proof.
  intros Hb Ha HM. unfold float.rne_div.
  pose proof (Z.div_mod a b ltac:(lia)) as Hdm.
  pose proof (Z.mod_pos_bound a b Hb) as Hr.
  assert (0 <= a / b) as Hf by (apply Z.div_pos; lia).
  assert (a / b <= M) as HfM by nia.
  assert (0 < a mod b -> a / b + 1 <= M) as Hup by nia.
  destruct (Z.ltb_spec (2 * (a mod b)) b); [lia|].
  destruct (Z.ltb_spec b (2 * (a mod b))); [lia|].
  destruct (Z.even (a / b)); lia.
Qed.

(** The integer chosen is within one half of the quotient. *)
Lemma rne_div_near a b :
  0 < b -> 2 * Z.abs (float.rne_div a b * b - a) <= b.
Proof.
  intros Hb. unfold float.rne_div.
  pose proof (Z.div_mod a b ltac:(lia)) as Hdm.
  pose proof (Z.mod_pos_bound a b Hb) as Hr.
  destruct (Z.ltb_spec (2 * (a mod b)) b); [nia|].
  destruct (Z.ltb_spec b (2 * (a mod b))); [nia|].
  destruct (Z.even (a / b)); nia.
Qed.

(** [floor_log2 p q] is the binary exponent of [p / q]:
    [2 ^ e <= p / q < 2 ^ (e + 1)], written without negative powers. *)
Lemma floor_log2_spec p q :
  0 < p -> 0 < q ->
  let e := float.floor_log2 p q in
  2 ^ Z.max e 0 * q <= 2 ^ Z.max (- e) 0 * p
  /\ 2 ^ Z.max (- (e + 1)) 0 * p < 2 ^ Z.max (e + 1) 0 * q.
Proof.
  intros Hp Hq. unfold float.floor_log2.
  destruct (Z.log2_spec p Hp) as [Hp1 Hp2].
  destruct (Z.log2_spec q Hq) as [Hq1 Hq2].
  pose proof (Z.log2_nonneg p) as Ha. pose proof (Z.log2_nonneg q) as Hb.
  set (a := Z.log2 p) in *. set (b := Z.log2 q) in *.
  rewrite Z.pow_succ_r in Hp2, Hq2 by lia.
  destruct (Z.leb_spec 0 (a - b)) as [Hk|Hk].
  - assert (2 ^ a = 2 ^ (a - b) * 2 ^ b) as Hab
      by (rewrite <- Z.pow_add_r by lia; f_equal; lia).
    assert (0 < 2 ^ (a - b)) as Hpos by (apply Z.pow_pos_nonneg; lia).
    destruct (Z.leb_spec (2 ^ (a - b) * q) p) as [Ht|Ht]; cbv zeta.
    + rewrite (Z.max_l (a - b) 0), (Z.max_r (- (a - b)) 0),
        (Z.max_r (- (a - b + 1)) 0), (Z.max_l (a - b + 1) 0) by lia.
      rewrite Z.pow_add_r by lia. change (2 ^ 0) with 1. change (2 ^ 1) with 2.
      split; nia.
    + assert (a - b = 0 \/ 0 < a - b) as [H0|H0] by lia.
      * rewrite H0 in *. change (2 ^ 0) with 1 in *.
        change (2 ^ Z.max (0 - 1) 0) with 1. change (2 ^ Z.max (- (0 - 1)) 0) with 2.
        change (2 ^ Z.max (- (0 - 1 + 1)) 0) with 1.
        change (2 ^ Z.max (0 - 1 + 1) 0) with 1. nia.
      * rewrite (Z.max_l (a - b - 1) 0), (Z.max_r (- (a - b - 1)) 0),
          (Z.max_r (- (a - b - 1 + 1)) 0), (Z.max_l (a - b - 1 + 1) 0) by lia.
        replace (a - b - 1 + 1) with (a - b) by lia.
        assert (2 ^ (a - b) = 2 * 2 ^ (a - b - 1)) as Hhalf.
        { replace (a - b) with (Z.succ (a - b - 1)) at 1 by lia.
          rewrite Z.pow_succ_r; lia. }
        assert (0 < 2 ^ (a - b - 1)) by (apply Z.pow_pos_nonneg; lia).
        change (2 ^ 0) with 1. split; nia.
  - assert (2 ^ b = 2 ^ (b - a) * 2 ^ a) as Hab
      by (rewrite <- Z.pow_add_r by lia; f_equal; lia).
    assert (0 < 2 ^ (b - a)) as Hpos by (apply Z.pow_pos_nonneg; lia).
    replace (- (a - b)) with (b - a) by lia.
    assert (2 ^ (b - a) = 2 * 2 ^ (b - a - 1)) as Hhalf.
    { replace (b - a) with (Z.succ (b - a - 1)) at 1 by lia.
      rewrite Z.pow_succ_r; lia. }
    assert (0 < 2 ^ (b - a - 1)) by (apply Z.pow_pos_nonneg; lia).
    destruct (Z.leb_spec q (2 ^ (b - a) * p)) as [Ht|Ht]; cbv zeta.
    + rewrite (Z.max_r (a - b) 0), (Z.max_l (- (a - b)) 0),
        (Z.max_l (- (a - b + 1)) 0), (Z.max_r (a - b + 1) 0) by lia.
      replace (- (a - b)) with (b - a) by lia.
      replace (- (a - b + 1)) with (b - a - 1) by lia.
      change (2 ^ 0) with 1. split; nia.
    + rewrite (Z.max_r (a - b - 1) 0), (Z.max_l (- (a - b - 1)) 0),
        (Z.max_l (- (a - b - 1 + 1)) 0), (Z.max_r (a - b - 1 + 1) 0) by lia.
      replace (- (a - b - 1)) with (Z.succ (b - a)) by lia.
      replace (- (a - b - 1 + 1)) with (b - a) by lia.
      rewrite Z.pow_succ_r by lia.
      change (2 ^ 0) with 1. split; nia.
Qed.

Lemma floor_log2_le p q m :
  0 < p -> 0 < q -> 0 <= m -> p <= 2 ^ m * q -> float.floor_log2 p q <= m.
Proof.
  intros Hp Hq Hm Hpq. unfold float.floor_log2.
  assert (Z.log2 p - Z.log2 q <= m).
  { pose proof (Z.log2_le_mono _ _ Hpq) as H.
    rewrite Z.mul_comm, Z.log2_mul_pow2 in H by lia. lia. }
  destruct (if 0 <=? _ then _ else _); lia.
Qed.

(** A fraction of at most [2 ^ m], [m <= 52], is rounded to a multiple of
    [2 ^ - t] for some [t >= 52 - m]. *)
Lemma round_frac_small p q m :
  0 < p -> 0 < q -> 0 <= m <= 52 -> p <= 2 ^ m * q ->
  exists t, 52 - m <= t
    /\ float.round_frac p q
       = Qmake (float.rne_div (p * 2 ^ t) q) (Z.to_pos (2 ^ t)).
Proof.
  intros Hp Hq Hm Hpq. unfold float.round_frac.
  destruct (Z.leb_spec p 0); [lia|].
  pose proof (floor_log2_le p q m Hp Hq ltac:(lia) Hpq) as He.
  assert (float.ulp_exponent p q <= m - 52) as Hu
    by (unfold float.ulp_exponent; lia).
  exists (- float.ulp_exponent p q). split; [lia|].
  destruct (Z.leb_spec 0 (float.ulp_exponent p q)) as [H0|H0]; [|done].
  assert (float.ulp_exponent p q = 0) as -> by lia.
  cbn [Z.opp]. change (2 ^ 0) with 1. rewrite !Z.mul_1_r. reflexivity.
Qed.

(** Rounding a fraction between 0 and the integer [B], itself at most
    [2 ^ m] with [m <= 52]: the result lies between 0 and [B] and within
    half a unit in the last place of the fraction. *)
Lemma round_frac_spec p q B m :
  0 <= p -> 0 < q -> 0 <= m <= 52 -> 0 <= B <= 2 ^ m -> p <= B * q ->
  (0 <= float.round_frac p q <= inject_Z B)%Q
  /\ ((p # Z.to_pos q) - half_ulp m <= float.round_frac p q
      <= (p # Z.to_pos q) + half_ulp m)%Q.
Proof.
  intros Hp Hq Hm HB HpB.
  assert (p = 0 \/ 0 < p) as [->|Hp'] by lia.
  { unfold float.round_frac, half_ulp. cbn.
    unfold Qle, Qplus, Qminus, Qopp; cbn. lia. }
  assert (p <= 2 ^ m * q) as Hpm by nia.
  destruct (round_frac_small p q m Hp' Hq Hm Hpm) as (t & Ht & ->).
  assert (0 < 2 ^ t) as Hpow by (apply Z.pow_pos_nonneg; lia).
  assert (2 ^ (52 - m) <= 2 ^ t) as Hmono by (apply Z.pow_le_mono_r; lia).
  assert (0 < 2 ^ (52 - m)) as Hpow' by (apply Z.pow_pos_nonneg; lia).
  assert (2 ^ (53 - m) = 2 * 2 ^ (52 - m)) as Hdouble.
  { replace (53 - m) with (Z.succ (52 - m)) by lia. rewrite Z.pow_succ_r; lia. }
  pose proof (rne_div_bounds (p * 2 ^ t) q (B * 2 ^ t) Hq ltac:(nia) ltac:(nia))
    as [HN0 HNB].
  pose proof (rne_div_near (p * 2 ^ t) q Hq) as Hnear.
  set (N := float.rne_div (p * 2 ^ t) q) in *.
  unfold half_ulp. rewrite Hdouble.
  assert (- q <= 2 * (N * q - p * 2 ^ t) <= q) as Hnear' by lia.
  clearbody N. clear Hnear.
  revert Hpow Hmono HNB Hnear'. generalize (2 ^ t). intros D HD Hmono HNB Hnear.
  clear Hdouble. revert Hpow' Hmono. generalize (2 ^ (52 - m)). intros E HE HED.
  unfold Qminus, Qopp, Qplus, Qle; cbn [Qnum Qden inject_Z].
  rewrite ?Pos2Z.inj_mul, !Z2Pos.id by lia.
  assert (q * E <= q * D) by nia.
  repeat split; nia.
Qed.

Lemma round_spec (x : Qc) B m :
  0 <= m <= 52 -> 0 <= B <= 2 ^ m ->
  (Qc_of_Z 0 <= x <= Qc_of_Z B)%Qc ->
  (0 <= this (float.round x) <= inject_Z B)%Q
  /\ (this x - half_ulp m <= this (float.round x) <= this x + half_ulp m)%Q.
Proof.
  intros Hm HB [H0 HxB]. destruct x as [[p q] Hcanon].
  unfold Qcle, Qle in H0, HxB. cbn in H0, HxB.
  unfold float.round. cbn [this Qnum Qden].
  destruct (Z.ltb_spec p 0); [lia|].
  cbn [this Q2Qc]. rewrite Qred_correct.
  apply (round_frac_spec p (Z.pos q) B m); lia.
Qed.

(** 0, 1 and 100 are binary64 numbers. *)
Lemma round_0 : float.round (Qc_of_Z 0) = Qc_of_Z 0.
Proof. apply Qc_is_canon. reflexivity. Qed.

Lemma round_1 : float.round (Qc_of_Z 1) = Qc_of_Z 1.
Proof. apply Qc_is_canon. vm_compute. reflexivity. Qed.

Lemma round_100 : float.round (Qc_of_Z 100) = Qc_of_Z 100.
Proof. apply Qc_is_canon. vm_compute. reflexivity. Qed.

(** The values Python prints for [1/3*100], [2/3*100] and [5/7*100]:
    33.33333333333333, 66.66666666666666 and 71.42857142857143, by their
    [as_integer_ratio()]; and a quotient that rounds to a tie. *)
Example float_samples :
  coverage 1 3 = Q2Qc (2345624805922133 # 70368744177664)
  /\ coverage 2 3 = Q2Qc (2345624805922133 # 35184372088832)
  /\ coverage 5 7 = Q2Qc (5026338869833143 # 70368744177664)
  /\ coverage 1 4 = Qc_of_Z 25
  /\ float.truediv 1 10 = Q2Qc (3602879701896397 # 36028797018963968)
  /\ float.truediv (2 ^ 53 + 1) 1 = Qc_of_Z (2 ^ 53)
  /\ float.truediv (2 ^ 53 + 3) 1 = Qc_of_Z (2 ^ 53 + 4).
Proof. repeat split; apply Qc_is_canon; vm_compute; reflexivity. Qed.

(** *** The coverage figure *)

Lemma coverage_guard d : coverage d 0 = Qc_of_Z 0.
Proof. reflexivity. Qed.

Lemma coverage_none n : coverage 0 n = Qc_of_Z 0.
Proof.
  unfold coverage. destruct (0 <? n)%nat; [|done].
  unfold float.mul, float.truediv, Qcdiv. change (Z.of_nat 0) with 0.
  rewrite Z2Qc_inj_0, Qcmult_0_l, <- Z2Qc_inj_0, round_0.
  rewrite ?Z2Qc_inj_0, ?Qcmult_0_l, <- ?Z2Qc_inj_0, ?round_0. done.
Qed.

Lemma Qc_of_nat_pos n : (0 < n)%nat -> (0 < Qc_of_Z (Z.of_nat n))%Qc.
Proof. intros. rewrite <- Z2Qc_inj_0. apply (proj1 (Z2Qc_inj_lt _ _)). lia. Qed.

Lemma coverage_all n : (0 < n)%nat -> coverage n n = Qc_of_Z 100.
Proof.
  intros Hn. unfold coverage. destruct (Nat.ltb_spec 0 n); [|lia].
  unfold float.mul, float.truediv, Qcdiv. rewrite Qcmult_inv_r.
  - rewrite <- Z2Qc_inj_1, round_1, Z2Qc_inj_1, Qcmult_1_l. apply round_100.
  - apply not_eq_sym, Qclt_not_eq, Qc_of_nat_pos, Hn.
Qed.

(** The exact quotient of the two counts. *)
Lemma quotient_range d n :
  (d <= n)%nat -> (0 < n)%nat ->
  (Qc_of_Z 0 <= Qc_of_Z (Z.of_nat d) / Qc_of_Z (Z.of_nat n) <= Qc_of_Z 1)%Qc.
Proof.
  intros Hdn Hn. pose proof (Qc_of_nat_pos n Hn) as Hpos.
  assert (0 <= Qc_of_Z (Z.of_nat d))%Qc as Hd.
  { rewrite <- Z2Qc_inj_0. apply (proj1 (Z2Qc_inj_le _ _)). lia. }
  assert (Qc_of_Z (Z.of_nat d) <= Qc_of_Z (Z.of_nat n))%Qc as Hle.
  { apply (proj1 (Z2Qc_inj_le _ _)). lia. }
  pose proof (Qcinv_pos _ Hpos) as Hinv.
  rewrite Z2Qc_inj_0, Z2Qc_inj_1. unfold Qcdiv. split.
  - apply Qcmult_nonneg_nonneg; [done|by apply Qclt_le_weak].
  - rewrite <- (Qcmult_inv_r (Qc_of_Z (Z.of_nat n))).
    + apply Qcmult_le_mono_nonneg_r; [by apply Qclt_le_weak|done].
    + by apply not_eq_sym, Qclt_not_eq.
Qed.

(** The coverage lies between 0 and 100 and within [2 ^ -45] of the exact
    quotient times 100: the quotient is rounded below 1, where half a unit
    in the last place is [2 ^ -53], and the product below 128, where it is
    [2 ^ -46]. *)
Lemma coverage_spec d n :
  (d <= n)%nat -> (0 < n)%nat ->
  let exact := (Qc_of_Z (Z.of_nat d) / Qc_of_Z (Z.of_nat n) * Qc_of_Z 100)%Qc in
  (Qc_of_Z 0 <= coverage d n <= Qc_of_Z 100)%Qc
  /\ (exact - coverage_tolerance <= coverage d n <= exact + coverage_tolerance)%Qc.
Proof.
  intros Hdn Hn exact. unfold coverage. destruct (Nat.ltb_spec 0 n); [|lia].
  unfold exact, float.mul, float.truediv.
  set (x := (Qc_of_Z (Z.of_nat d) / Qc_of_Z (Z.of_nat n))%Qc).
  pose proof (quotient_range d n Hdn Hn) as Hx. fold x in Hx.
  destruct (round_spec x 1 0 ltac:(lia) ltac:(lia) Hx) as [[Ht0 Ht1] [Htl Htu]].
  set (t := float.round x) in *.
  assert (Qc_of_Z 0 <= t * Qc_of_Z 100 <= Qc_of_Z 100)%Qc as Hy.
  { unfold Qcle. cbn [this Qcmult Q2Qc Qc_of_Z]. rewrite !Qred_correct.
    change (inject_Z 100) with (100 # 1)%Q. change (inject_Z 0) with (0 # 1)%Q.
    change (inject_Z 1) with (1 # 1)%Q in Ht1. split; lra. }
  destruct (round_spec (t * Qc_of_Z 100)%Qc 100 7 ltac:(lia) ltac:(lia) Hy)
    as [[Hc0 Hc1] [Hcl Hcu]].
  set (c := float.round (t * Qc_of_Z 100)) in *.
  unfold Qcle, coverage_tolerance.
  cbn [this Qcmult Qcplus Qcminus Qcopp Q2Qc Qc_of_Z] in *.
  rewrite ?Qred_correct in *.
  unfold half_ulp in *.
  change (inject_Z 100) with (100 # 1)%Q in *.
  change (inject_Z 0) with (0 # 1)%Q in *.
  change (inject_Z 1) with (1 # 1)%Q in *.
  change (Z.to_pos (2 ^ (53 - 0))) with 9007199254740992%positive in *.
  change (Z.to_pos (2 ^ (53 - 7))) with 70368744177664%positive in *.
  change (2 ^ 45)%positive with 35184372088832%positive.
  repeat split; lra.
Qed.

(** The coverage is a rounded figure: for one documented node of three it
    is not the third of 100. *)
Example coverage_is_rounded :
  coverage 1 3 <> (Qc_of_Z 1 / Qc_of_Z 3 * Qc_of_Z 100)%Qc.
Proof. intros H. apply (f_equal this) in H. vm_compute in H. discriminate. Qed.

(** What [analyze_tree] reports for the tree of a file: the two counters
    count nodes of the tree, each once, and the coverage is made of them. *)
Lemma analyze_tree_counts (path content : string) (body : list node) :
  let tree := Module body in
  let r := analyze_tree path content tree in
  let total := count_nodes is_documentable tree in
  let count := count_nodes (fun n => is_documentable n && documented n) tree in
  nodes_requiring_docstrings r = total
  /\ docstring_count r = count
  /\ docstring_coverage r = coverage count total
  /\ (0 < total)%nat
  /\ (count <= total)%nat.
Proof.
  intros tree r total count.
  split; [apply walk_count|]. split; [apply walk_count|].
  split; [unfold r, analyze_tree; simpl; f_equal; apply walk_count|].
  split; [unfold total, count_nodes; simpl; lia|apply filter_length_le].
Qed.

(** The two tests of the counters, read off the tree. *)
Lemma is_documentable_spec n :
  is_documentable n = true
  <-> (exists b, n = Module b)
      \/ (exists nm l c b, n = ClassDef nm l c b)
      \/ (exists nm l c a b, n = FunctionDef nm l c a b).
Proof.
  split.
  - destruct n; try discriminate; intros _; eauto 10.
  - intros [[b ->]|[(nm & l & c & b & ->)|(nm & l & c & a & b & ->)]]; done.
Qed.

Lemma documented_spec n :
  documented n = true
  <-> exists text rest,
        node_body n = Expr (Constant (Str text)) :: rest
        /\ inspect.cleandoc text <> EmptyString.
Proof.
  unfold documented, ast.get_docstring. split.
  - destruct (node_body n) as [|[| | | | |[| | | | | |[s|]|]| |] rest];
      try discriminate.
    cbn [truthy]. intros H%negb_true_iff%String.eqb_neq. by exists s, rest.
  - intros (text & rest & -> & Hne). cbn [truthy].
    by apply negb_true_iff, String.eqb_neq.
Qed.

Example one_class_two_methods :
  let r := analyze_tree "k.py" EmptyString (Module one_class_body) in
  map (fun c => length (class_methods c)) (classes r) = [2%nat]
  /\ functions r = []
  /\ nodes_requiring_docstrings r = 4%nat
  /\ docstring_count r = 1%nat
  /\ docstring_coverage r = Qc_of_Z 25.
Proof.
  repeat split. apply Qc_is_canon. vm_compute. reflexivity.
Qed.

Example imports_sample :
  imports (analyze_tree "i.py" EmptyString
             (Module [Import ["a"; "b"]; ImportFrom (Some "m") ["x"; "y"]]))
  = [DirectImport "a"; DirectImport "b";
     FromImport (Some "m") "x"; FromImport (Some "m") "y"].
Proof. reflexivity. Qed.

(** ** The lists of the report *)

(** The main loop appends, for every node of the walk in turn, the entry of
    the first branch of its [if]/[elif] chain that applies. *)
Lemma fold_visit l acc :
  fold_left visit l acc
  = mkCollected (col_classes acc ++ omap class_entry l)
      (col_functions acc ++ omap function_entry l)
      (col_imports acc ++ flat_map import_entries l).
Proof.
  revert acc. induction l as [|n l IH]; intros acc; simpl.
  - destruct acc; simpl. by rewrite !app_nil_r.
  - rewrite IH. destruct n as [b|nm ln c b|nm ln c a b|ns|m ns|v|v|b]; simpl;
      try reflexivity.
    + by rewrite <- app_assoc.
    + destruct (c =? 0); simpl; [by rewrite <- app_assoc|done].
    + by rewrite <- app_assoc.
    + by rewrite <- app_assoc.
Qed.

Lemma analyze_classes path content tree :
  classes (analyze_tree path content tree) = omap class_entry (ast.walk tree).
Proof. unfold analyze_tree. simpl. by rewrite fold_visit. Qed.

Lemma analyze_functions path content tree :
  functions (analyze_tree path content tree)
  = omap function_entry (ast.walk tree).
Proof. unfold analyze_tree. simpl. by rewrite fold_visit. Qed.

Lemma analyze_imports path content tree :
  imports (analyze_tree path content tree)
  = flat_map import_entries (ast.walk tree).
Proof. unfold analyze_tree. simpl. by rewrite fold_visit. Qed.

Lemma child_size c n :
  c ∈ ast.iter_child_nodes n -> (ast.size c < ast.size n)%nat.
Proof.
  intros Hc. rewrite (size_children n).
  induction (ast.iter_child_nodes n) as [|x l IH]; [by apply elem_of_nil in Hc|].
  rewrite forest_size_cons. apply elem_of_cons in Hc as [->|Hc]; [lia|].
  specialize (IH Hc). lia.
Qed.

(** A property of the roots that passes from a node to its children holds
    of every node under the roots. *)
Lemma descendants_ind (P : node -> Prop) (q : list node) :
  (forall n, n ∈ q -> P n) ->
  (forall n c, P n -> c ∈ ast.iter_child_nodes n -> P c) ->
  forall m, m ∈ flat_map preorder q -> P m.
Proof.
  intros Hroots Hstep.
  assert (forall k n, (ast.size n < k)%nat -> P n ->
                      forall m, m ∈ preorder n -> P m) as Hsub.
  { induction k as [|k IH]; intros n Hk Hn m Hm; [lia|].
    rewrite preorder_unfold in Hm. apply elem_of_cons in Hm as [->|Hm]; [done|].
    apply list_elem_of_In, in_flat_map in Hm as (c & Hc & Hm).
    apply list_elem_of_In in Hc, Hm.
    apply (IH c); [|by eapply Hstep|done].
    pose proof (child_size c n Hc). lia. }
  intros m Hm. apply list_elem_of_In, in_flat_map in Hm as (n & Hn & Hm).
  apply list_elem_of_In in Hn, Hm.
  by apply (Hsub (S (ast.size n)) n); [lia|apply Hroots|].
Qed.

Lemma walk_module body :
  ast.walk (Module body)
  = Module body :: body ++ bfs (flat_map ast.iter_child_nodes body).
Proof.
  rewrite walk_bfs, bfs_levels. simpl. rewrite app_nil_r.
  by rewrite bfs_levels.
Qed.

Lemma columns_ok_children d n c :
  columns_ok d n = true -> c ∈ ast.iter_child_nodes n ->
  columns_ok (S d) c = true.
Proof.
  intros Hn Hc. destruct n; simpl in *;
    try (by apply elem_of_nil in Hc).
  - rewrite forallb_forall in Hn. by apply Hn, list_elem_of_In.
  - rewrite forallb_forall in Hn. by apply Hn, list_elem_of_In.
  - apply andb_true_iff in Hn as [_ Hn].
    rewrite forallb_forall in Hn. by apply Hn, list_elem_of_In.
  - apply list_elem_of_singleton in Hc as ->. done.
  - rewrite forallb_forall in Hn. by apply Hn, list_elem_of_In.
Qed.

(** An indented node is no top-level function. *)
Lemma function_entry_deep d n :
  columns_ok (S d) n = true -> function_entry n = None.
Proof.
  destruct n; simpl; try done.
  intros H. apply andb_true_iff in H as [H _].
  destruct (col_offset =? 0); [done|done].
Qed.

(** A node of the module body is a top-level function when it is a
    [FunctionDef]. *)
Lemma function_entry_top n :
  columns_ok 0 n = true -> function_entry n = function_info n.
Proof.
  destruct n; simpl; try done.
  intros H. apply andb_true_iff in H as [H _].
  destruct (col_offset =? 0); [done|done].
Qed.

Lemma omap_none {A B} (f : A -> option B) (l : list A) :
  (forall x, x ∈ l -> f x = None) -> omap f l = [].
Proof.
  induction l as [|x l IH]; intros H; [done|].
  csimpl. rewrite (H x) by apply list_elem_of_here.
  apply IH. intros y Hy. apply H. by apply list_elem_of_further.
Qed.

Lemma omap_ext_in {A B} (f g : A -> option B) (l : list A) :
  (forall x, x ∈ l -> f x = g x) -> omap f l = omap g l.
Proof.
  induction l as [|x l IH]; intros H; [done|].
  csimpl. rewrite (H x) by apply list_elem_of_here.
  rewrite IH; [done|]. intros y Hy. apply H. by apply list_elem_of_further.
Qed.

Lemma nested_not_top_level body :
  forallb (columns_ok 0) body = true ->
  forall n, n ∈ flat_map preorder (flat_map ast.iter_child_nodes body) ->
            function_entry n = None.
Proof.
  intros Hcols. rewrite forallb_forall in Hcols.
  assert (forall m, m ∈ flat_map preorder (flat_map ast.iter_child_nodes body) ->
                    exists d, columns_ok (S d) m = true) as Hdeep.
  { apply descendants_ind.
    - intros c Hc. apply list_elem_of_In, in_flat_map in Hc as (n & Hn & Hc).
      exists 0%nat. apply (columns_ok_children 0 n); [by apply Hcols|].
      by apply list_elem_of_In.
    - intros n c [d Hn] Hc. exists (S d). by eapply columns_ok_children. }
  intros n Hn. destruct (Hdeep n Hn) as [d Hd]. by eapply function_entry_deep.
Qed.

Lemma module_functions path content body :
  forallb (columns_ok 0) body = true ->
  functions (analyze_tree path content (Module body)) = omap function_info body.
Proof.
  intros Hcols. rewrite analyze_functions, walk_module. simpl.
  rewrite omap_app.
  rewrite (omap_none function_entry (bfs _)), app_nil_r.
  - apply omap_ext_in. intros n Hn. apply function_entry_top.
    rewrite forallb_forall in Hcols. by apply Hcols, list_elem_of_In.
  - intros m Hm. rewrite bfs_perm in Hm. by apply (nested_not_top_level body).
Qed.

(** The function list is made of the [def] statements in column 0, met in
    the order of the walk. *)
Lemma function_entry_in_column_0 l :
  omap function_entry l = omap function_info (List.filter in_column_0 l).
Proof.
  induction l as [|n l IH]; [done|].
  destruct n as [b|nm ln c b|nm ln c a b|ns|m ns|v|v|b]; csimpl; try done.
  unfold in_column_0. cbn [is_FunctionDef node_col_offset andb].
  destruct (Z.eqb_spec c 0) as [->|Hc].
  - rewrite bool_decide_true by done. csimpl. by rewrite IH.
  - rewrite bool_decide_false by congruence. done.
Qed.

Lemma in_column_0_spec n :
  in_column_0 n = true <-> exists nm l a b, n = FunctionDef nm l 0 a b.
Proof.
  unfold in_column_0. split.
  - destruct n as [b|nm ln c b|nm ln c a b|ns|m ns|v|v|b]; try done.
    cbn [is_FunctionDef node_col_offset andb].
    intros [= ->]%bool_decide_eq_true. by eauto.
  - intros (nm & l & a & b & ->). done.
Qed.

(** The entries of the function list, read off the tree. *)
Lemma function_of_report path content tree d :
  d ∈ functions (analyze_tree path content tree)
  <-> exists nm l a b,
        FunctionDef nm l 0 a b ∈ preorder tree
        /\ d = mkDecl nm l (reported_docstring (FunctionDef nm l 0 a b)).
Proof.
  rewrite analyze_functions, function_entry_in_column_0, list_elem_of_omap.
  split.
  - intros (n & Hn & Hd).
    apply list_elem_of_In, filter_In in Hn as [Hn Hcol].
    apply list_elem_of_In in Hn. rewrite walk_perm in Hn.
    apply in_column_0_spec in Hcol as (nm & l & a & b & ->).
    exists nm, l, a, b. split; [done|]. by injection Hd as <-.
  - intros (nm & l & a & b & Hn & ->).
    exists (FunctionDef nm l 0 a b). split; [|done].
    apply list_elem_of_In, filter_In. split; [|done].
    apply list_elem_of_In. by rewrite walk_perm.
Qed.

Lemma function_info_length l :
  forallb is_FunctionDef l = true ->
  length (omap function_info l) = length l.
Proof.
  induction l as [|n l IH]; [done|]. cbn [forallb].
  intros [Hn Hl]%andb_true_iff. destruct n; try discriminate.
  csimpl. by rewrite IH.
Qed.

(** C3, as stated, fails in both directions: the list is chosen by column,
    not by nesting depth. In the first sample file the method [m] of class
    [A], of depth 1, follows a line continuation, starts in column 0 and is
    listed as a top-level function, after [g]; in the second the function [f]
    of the module body, of depth 0, follows a form feed, starts in column 1
    and is not listed; in the third the [async def] of the module body is
    not listed. *)
Theorem C3_listed_by_column_not_by_depth :
  let r1 := analyze_tree "c.py" EmptyString (Module continued_body) in
  let r2 := analyze_tree "f.py" EmptyString (Module form_feed_body) in
  let r3 := analyze_tree "a.py" EmptyString (Module async_body) in
  omap node_name (nodes_at_depth 0 continued_body) = ["A"; "g"]
  /\ omap node_name (nodes_at_depth 1 continued_body) = ["m"]
  /\ map decl_name (functions r1) = ["g"; "m"]
  /\ map (fun c => map decl_name (class_methods c)) (classes r1) = [["m"]]
  /\ omap node_name (nodes_at_depth 0 form_feed_body) = ["f"]
  /\ functions r2 = []
  /\ functions r3 = [].
Proof. repeat split. Qed.

(** C3, amended. The top-level function list of the report holds the [def]
    statements of the tree that start in column 0, at whatever depth, each
    once and in the order of [ast.walk], and nothing else: a function is
    listed if and only if it is an [ast.FunctionDef] whose column offset is
    0 (an [async def] is a node of another kind and is in no list). In a
    tree whose columns follow the nesting (a [def] is in column 0 exactly
    when it is a statement of the module body), the list is exactly the list
    of the [def] statements of the module body, in source order, and the
    loop lists no node below the module body, so no method and no nested
    function. The methods of a class are the [FunctionDef] statements of its
    body, kept in the method list of its class entry. *)
Theorem C3_top_level_functions (path content : string) (body : list node) :
  let tree := Module body in
  let r := analyze_tree path content tree in
  functions r = omap function_info (List.filter in_column_0 (ast.walk tree))
  /\ (forall d,
        d ∈ functions r
        <-> exists nm l a b,
              FunctionDef nm l 0 a b ∈ preorder tree
              /\ d = mkDecl nm l (reported_docstring (FunctionDef nm l 0 a b)))
  /\ length (functions r) = count_nodes in_column_0 tree
  /\ (forall n, function_entry n <> None -> is_FunctionDef n = true)
  /\ (forallb (columns_ok 0) body = true ->
      functions r = omap function_info body
      /\ (forall n,
            n ∈ flat_map preorder (flat_map ast.iter_child_nodes body) ->
            function_entry n = None))
  /\ classes r = omap class_entry (ast.walk tree)
  /\ (forall nm ln col b,
        class_entry (ClassDef nm ln col b)
        = Some (mkClass nm ln (omap function_info b)
                  (reported_docstring (ClassDef nm ln col b)))).
Proof.
  intros tree r.
  assert (functions r
          = omap function_info (List.filter in_column_0 (ast.walk tree))) as Hfun.
  { unfold r. by rewrite analyze_functions, function_entry_in_column_0. }
  split; [done|]. split; [|split; [|split; [|split; [|split]]]].
  - intros d. apply function_of_report.
  - rewrite Hfun, function_info_length.
    + apply walk_count.
    + apply forallb_forall. intros n [_ Hn]%filter_In.
      by apply andb_true_iff in Hn as [? _].
  - intros n Hn. destruct n; try done.
  - intros Hcols. split; [by apply module_functions|].
    by apply nested_not_top_level.
  - apply analyze_classes.
  - done.
Qed.

Lemma C3_witness :
  let tree := Module sample_body in
  let r := analyze_tree "sample.py" EmptyString tree in
  forallb (columns_ok 0) sample_body = true
  /\ functions r = omap function_info (List.filter in_column_0 (ast.walk tree))
  /\ (forall d,
        d ∈ functions r
        <-> exists nm l a b,
              FunctionDef nm l 0 a b ∈ preorder tree
              /\ d = mkDecl nm l (reported_docstring (FunctionDef nm l 0 a b)))
  /\ length (functions r) = count_nodes in_column_0 tree
  /\ (forall n, function_entry n <> None -> is_FunctionDef n = true)
  /\ (forallb (columns_ok 0) sample_body = true ->
      functions r = omap function_info sample_body
      /\ (forall n,
            n ∈ flat_map preorder (flat_map ast.iter_child_nodes sample_body) ->
            function_entry n = None))
  /\ classes r = omap class_entry (ast.walk tree)
  /\ (forall nm ln col b,
        class_entry (ClassDef nm ln col b)
        = Some (mkClass nm ln (omap function_info b)
                  (reported_docstring (ClassDef nm ln col b)))).
Proof.
  split; [reflexivity|].
  apply (C3_top_level_functions "sample.py" EmptyString sample_body).
Defined.

(** In the sample file, whose columns follow the nesting, the one function
    listed is [top]; [inner], the methods and [cond] are not. *)
Example sample_functions :
  map decl_name
    (functions (analyze_tree "sample.py" EmptyString (Module sample_body)))
  = ["top"].
Proof. reflexivity. Qed.

(** ** Docstring fields *)

Lemma reported_docstring_absent n :
  ast.get_docstring n = None \/ ast.get_docstring n = Some EmptyString ->
  reported_docstring n = NO_DOCSTRING.
Proof. unfold reported_docstring. by intros [-> | ->]. Qed.

Lemma reported_docstring_present n s :
  ast.get_docstring n = Some s -> s <> EmptyString -> reported_docstring n = s.
Proof.
  unfold reported_docstring. intros -> Hs. simpl.
  destruct (String.eqb_spec s EmptyString); congruence.
Qed.

Lemma reported_docstring_nonempty n : reported_docstring n <> EmptyString.
Proof.
  unfold reported_docstring, or_default.
  destruct (ast.get_docstring n) as [s|]; [|done].
  destruct (String.eqb_spec s EmptyString); [done|done].
Qed.

Lemma class_entries_docstrings l :
  Forall2
    (fun c n =>
       class_docstring c = reported_docstring n
       /\ map decl_docstring (class_methods c)
          = map reported_docstring (List.filter is_FunctionDef (node_body n)))
    (omap class_entry l) (List.filter is_ClassDef l).
Proof.
  induction l as [|n l IH]; [constructor|].
  destruct n as [b|nm ln c b|nm ln c a b|ns|m ns|v|v|b]; simpl; try done.
  constructor; [|done]. split; [done|]. simpl.
  clear. induction b as [|x b IHb]; [done|].
  destruct x; simpl; try done. csimpl. by f_equal.
Qed.

Lemma function_entries_docstrings l :
  map decl_docstring (omap function_entry l)
  = map reported_docstring
      (List.filter
         (fun n => is_FunctionDef n && bool_decide (node_col_offset n = Some 0))
         l).
Proof.
  induction l as [|n l IH]; [done|].
  destruct n as [b|nm ln c b|nm ln c a b|ns|m ns|v|v|b]; simpl; try done.
  destruct (Z.eqb_spec c 0) as [->|Hc].
  - rewrite bool_decide_eq_true_2 by done. csimpl. by f_equal.
  - rewrite bool_decide_eq_false_2 by congruence. done.
Qed.

Example sample_report :
  let r := analyze_tree "sample.py" EmptyString (Module sample_body) in
  map decl_name (functions r) = ["top"]
  /\ map class_name (classes r) = ["K"]
  /\ map (fun c => map decl_name (class_methods c)) (classes r) = [["m1"; "m2"]]
  /\ imports r = [DirectImport "os"]
  /\ nodes_requiring_docstrings r = 7%nat
  /\ docstring_count r = 2%nat.
Proof. repeat split. Qed.

(** C2, as stated, fails: a declaration without a docstring and the same
    declaration with an empty docstring are reported alike. In the two
    sample files [ast.get_docstring] tells the class, the method and the
    function apart ([None] against the empty string), and the class and
    function lists of the two reports differ only in the lines. *)
Lemma C2_absent_and_empty_reported_alike :
  let r1 := analyze_tree "a.py" EmptyString (Module undocumented_body) in
  let r2 := analyze_tree "a.py" EmptyString (Module empty_docs_body) in
  map ast.get_docstring (List.filter is_def (preorder (Module undocumented_body)))
  = [None; None; None]
  /\ map ast.get_docstring (List.filter is_def (preorder (Module empty_docs_body)))
     = [Some EmptyString; Some EmptyString; Some EmptyString]
  /\ map class_docstring (classes r1) = ["No docstring"]
  /\ map class_docstring (classes r2) = ["No docstring"]
  /\ map (fun c => map decl_docstring (class_methods c)) (classes r1)
     = [["No docstring"]]
  /\ map (fun c => map decl_docstring (class_methods c)) (classes r2)
     = [["No docstring"]]
  /\ map decl_docstring (functions r1) = ["No docstring"]
  /\ map decl_docstring (functions r2) = ["No docstring"].
Proof. repeat split. Qed.

(** C2, amended. Every docstring field of the report (of a class, of a
    method, of a top-level function) is the value of
    [ast.get_docstring(node) or "No docstring"] for its node: the cleaned
    docstring when that is a non-empty string, and the sentinel
    [No docstring] both when the declaration has no docstring and when its
    docstring is empty. The field is never the empty string. *)
Theorem C2_docstring_field (path content : string) (tree : node) :
  let r := analyze_tree path content tree in
  Forall2
    (fun c n =>
       class_docstring c = reported_docstring n
       /\ map decl_docstring (class_methods c)
          = map reported_docstring (List.filter is_FunctionDef (node_body n)))
    (classes r) (List.filter is_ClassDef (ast.walk tree))
  /\ map decl_docstring (functions r)
     = map reported_docstring
         (List.filter
            (fun n => is_FunctionDef n && bool_decide (node_col_offset n = Some 0))
            (ast.walk tree))
  /\ (forall n,
        (ast.get_docstring n = None \/ ast.get_docstring n = Some EmptyString ->
         reported_docstring n = "No docstring")
        /\ (forall s, ast.get_docstring n = Some s -> s <> EmptyString ->
                      reported_docstring n = s)
        /\ reported_docstring n <> EmptyString).
Proof.
  intros r. unfold r. rewrite analyze_classes, analyze_functions.
  split; [apply class_entries_docstrings|].
  split; [apply function_entries_docstrings|].
  intros n. split; [apply reported_docstring_absent|].
  split; [apply reported_docstring_present|apply reported_docstring_nonempty].
Qed.

(** ** Line numbers and the order of the lists *)

Lemma sublist_omap {A B} (f : A -> option B) (l1 l2 : list A) :
  l1 `sublist_of` l2 -> omap f l1 `sublist_of` omap f l2.
Proof.
  induction 1 as [|x l1 l2 _ IH|x l1 l2 _ IH]; csimpl.
  - constructor.
  - destruct (f x); [by constructor|done].
  - destruct (f x); [by constructor|done].
Qed.

Lemma sublist_flat_map_elem {A B} (f : A -> list B) (x : A) (q : list A) :
  x ∈ q -> f x `sublist_of` flat_map f q.
Proof.
  induction q as [|y q IH]; intros Hx; [by apply elem_of_nil in Hx|].
  simpl. apply elem_of_cons in Hx as [->|Hx].
  - by apply sublist_inserts_r.
  - by apply sublist_inserts_l, IH.
Qed.

Lemma roots_sublist_preorder q : q `sublist_of` flat_map preorder q.
Proof.
  induction q as [|n q IH]; [constructor|].
  simpl. rewrite (preorder_unfold n). simpl. constructor.
  by apply sublist_inserts_l.
Qed.

Lemma children_sublist_preorder q :
  flat_map preorder (flat_map ast.iter_child_nodes q)
  `sublist_of` flat_map preorder q.
Proof.
  induction q as [|n q IH]; [constructor|].
  simpl. rewrite flat_map_app, (preorder_unfold n). simpl.
  apply sublist_cons. by apply sublist_app.
Qed.

(** The nodes of one depth, left to right, stand in the pre-order list in
    that order. *)
Lemma level_sublist_preorder k q :
  nodes_at_depth k q `sublist_of` flat_map preorder q.
Proof.
  revert q. induction k as [|k IH]; intros q; simpl.
  - apply roots_sublist_preorder.
  - etrans; [apply IH|apply children_sublist_preorder].
Qed.

Lemma subtree_sublist_preorder q n :
  n ∈ flat_map preorder q -> preorder n `sublist_of` flat_map preorder q.
Proof.
  revert n. apply descendants_ind.
  - intros n Hn. by apply sublist_flat_map_elem.
  - intros n c Hn Hc. etrans; [|apply Hn].
    rewrite (preorder_unfold n). apply sublist_cons.
    by apply sublist_flat_map_elem.
Qed.

Lemma preorder_forest_one t : flat_map preorder [t] = preorder t.
Proof. simpl. by rewrite app_nil_r. Qed.

Lemma StronglySorted_sublist {A} (R : A -> A -> Prop) (l1 l2 : list A) :
  l1 `sublist_of` l2 -> StronglySorted R l2 -> StronglySorted R l1.
Proof.
  induction 1 as [|x l1 l2 Hsub IH|x l1 l2 Hsub IH]; intros Hs.
  - constructor.
  - apply StronglySorted_inv in Hs as [Hs Hx]. constructor; [by apply IH|].
    rewrite Forall_forall in Hx |- *. intros y Hy.
    apply Hx. by apply (sublist_subseteq _ _ Hsub).
  - apply StronglySorted_inv in Hs as [Hs _]. by apply IH.
Qed.

Lemma nondecreasing_sorted l : nondecreasing l = true -> Sorted Z.le l.
Proof.
  induction l as [|x [|y l] IH]; intros H.
  - constructor.
  - repeat constructor.
  - simpl in H. apply andb_true_iff in H as [Hxy H].
    constructor; [by apply IH|]. constructor. lia.
Qed.

Lemma lines_ok_spec tree :
  lines_ok tree = true ->
  Forall (fun l => 1 <= l) (decl_linenos (preorder tree))
  /\ StronglySorted Z.le (decl_linenos (preorder tree)).
Proof.
  unfold lines_ok. intros H. apply andb_true_iff in H as [H1 H2]. split.
  - rewrite Forall_forall. rewrite forallb_forall in H1.
    intros l Hl. apply list_elem_of_In, H1 in Hl. lia.
  - apply Sorted_StronglySorted; [intros x y z; lia|].
    by apply nondecreasing_sorted.
Qed.

(** The lines of the entries built from a list of nodes are among the lines
    of its declarations, in the same order. *)
Lemma function_info_linenos l :
  map decl_lineno (omap function_info l) `sublist_of` decl_linenos l.
Proof.
  unfold decl_linenos.
  induction l as [|n l IH]; [constructor|].
  destruct n; csimpl; try done; by constructor.
Qed.

Lemma class_entry_linenos l :
  map class_lineno (omap class_entry l) `sublist_of` decl_linenos l.
Proof.
  unfold decl_linenos.
  induction l as [|n l IH]; [constructor|].
  destruct n; csimpl; try done; by constructor.
Qed.

Lemma level_order_concat h q :
  level_order h q = concat (map (fun k => nodes_at_depth k q) (seq 0 h)).
Proof.
  revert q. induction h as [|h IH]; intros q; [done|].
  simpl. f_equal. rewrite IH, <- seq_shift, map_map. done.
Qed.

Lemma omap_concat {A B} (f : A -> option B) (ls : list (list A)) :
  omap f (concat ls) = concat (map (omap f) ls).
Proof.
  induction ls as [|l ls IH]; [done|]. simpl. by rewrite omap_app, IH.
Qed.

Lemma walk_by_levels tree :
  ast.walk tree
  = concat (map (fun k => nodes_at_depth k [tree]) (seq 0 (ast.size tree))).
Proof.
  rewrite walk_bfs, (bfs_level_order (ast.size tree)), level_order_concat; [done|].
  rewrite forest_size_cons. unfold ast.forest_size. simpl. lia.
Qed.

(** The lines of the methods of a class of the tree, in the order of its
    method list, stand in that order among the lines of the tree. *)
Lemma method_linenos_sublist tree nm ln c b :
  ClassDef nm ln c b ∈ preorder tree ->
  map decl_lineno (omap function_info b) `sublist_of` decl_linenos (preorder tree).
Proof.
  intros Hn. etrans; [apply function_info_linenos|].
  apply sublist_omap. rewrite <- (preorder_forest_one tree) in Hn |- *.
  etrans; [|apply (subtree_sublist_preorder _ _ Hn)].
  rewrite preorder_unfold. simpl. apply sublist_cons, roots_sublist_preorder.
Qed.

Lemma class_of_report path content tree c :
  c ∈ classes (analyze_tree path content tree) ->
  exists nm ln col b,
    ClassDef nm ln col b ∈ preorder tree
    /\ class_lineno c = ln
    /\ class_methods c = omap function_info b.
Proof.
  rewrite analyze_classes. intros Hc.
  apply list_elem_of_omap in Hc as (n & Hn & Hc).
  rewrite walk_perm in Hn.
  destruct n as [b|nm ln col b|nm ln col a b|ns|m ns|v|v|b]; simpl in Hc;
    try discriminate.
  injection Hc as <-. by exists nm, ln, col, b.
Qed.

Lemma Forall_sublist_linenos (P : Z -> Prop) (l1 l2 : list Z) :
  l1 `sublist_of` l2 -> Forall P l2 -> Forall P l1.
Proof.
  intros Hsub H. rewrite Forall_forall in H |- *.
  intros x Hx. apply H. by apply (sublist_subseteq _ _ Hsub).
Qed.

(** C4, as stated, fails for the class list: in the sample file, whose
    positions are those the parser assigns, class [C] of line 4 is listed
    before class [B] of line 2, nested in [A]. *)
Lemma C4_class_list_not_in_source_order :
  let r := analyze_tree "n.py" EmptyString (Module nested_classes_body) in
  lines_ok (Module nested_classes_body) = true
  /\ forallb (columns_ok 0) nested_classes_body = true
  /\ map class_name (classes r) = ["A"; "C"; "B"]
  /\ map class_lineno (classes r) = [1; 4; 2]
  /\ nondecreasing (map class_lineno (classes r)) = false.
Proof. repeat split. Qed.

Lemma function_entry_linenos l :
  map decl_lineno (omap function_entry l) `sublist_of` decl_linenos l.
Proof.
  unfold decl_linenos.
  induction l as [|n l IH]; [constructor|].
  destruct n as [b|nm ln c b|nm ln c a b|ns|m ns|v|v|b]; csimpl; try done.
  - by constructor.
  - destruct (c =? 0); csimpl; by constructor.
Qed.

(** The function list is not in source order either when a method starts
    in column 0: in the sample file, whose lines follow the text, [g] of
    line 4 is listed before [m] of line 3. *)
Example function_list_not_in_source_order :
  let r := analyze_tree "c.py" EmptyString (Module continued_body) in
  lines_ok (Module continued_body) = true
  /\ forallb (columns_ok 0) continued_body = false
  /\ map decl_lineno (functions r) = [4; 3]
  /\ nondecreasing (map decl_lineno (functions r)) = false.
Proof. repeat split. Qed.

(** C4, amended. In a tree whose lines follow the text (they count from 1
    and a pre-order walk meets the declarations in the order of their lines),
    every line number of the report is at least 1 and the line numbers are
    non-decreasing along each class's method list. The class list and the
    top-level function list are in level order: the entries of nesting depth
    0, then those of depth 1, and so on, the line numbers non-decreasing
    among the entries of one depth, not across depths. When moreover the
    columns follow the nesting (a [def] is in column 0 exactly when it is a
    statement of the module body), the function list holds entries of depth
    0 only and its line numbers are non-decreasing along the whole list. *)
Theorem C4_line_numbers (path content : string) (body : list node) :
  lines_ok (Module body) = true ->
  let tree := Module body in
  let r := analyze_tree path content tree in
  Forall (fun c => 1 <= class_lineno c
                   /\ Forall (fun m => 1 <= decl_lineno m) (class_methods c))
    (classes r)
  /\ Forall (fun f => 1 <= decl_lineno f) (functions r)
  /\ Forall (fun c => Sorted Z.le (map decl_lineno (class_methods c))) (classes r)
  /\ classes r
     = concat (map (fun k => omap class_entry (nodes_at_depth k [tree]))
                 (seq 0 (ast.size tree)))
  /\ (forall k,
        Sorted Z.le (map class_lineno (omap class_entry (nodes_at_depth k [tree]))))
  /\ functions r
     = concat (map (fun k => omap function_entry (nodes_at_depth k [tree]))
                 (seq 0 (ast.size tree)))
  /\ (forall k,
        Sorted Z.le
          (map decl_lineno (omap function_entry (nodes_at_depth k [tree]))))
  /\ (forallb (columns_ok 0) body = true ->
      functions r = omap function_info body
      /\ Sorted Z.le (map decl_lineno (functions r))).
Proof.
  intros Hlines tree r.
  destruct (lines_ok_spec _ Hlines) as [Hpos Hsorted]. fold tree in Hpos, Hsorted.
  split; [|split; [|split; [|split; [|split; [|split; [|split]]]]]].
  - rewrite Forall_forall. intros c Hc.
    apply class_of_report in Hc as (nm & ln & col & b & Hn & Hln & Hm).
    split.
    + rewrite Forall_forall in Hpos. apply Hpos.
      apply list_elem_of_omap. exists (ClassDef nm ln col b). by subst.
    + rewrite Hm. apply Forall_map.
      apply (Forall_sublist_linenos _ _ _ (method_linenos_sublist _ _ _ _ _ Hn)).
      done.
  - rewrite Forall_forall. intros d Hd.
    apply function_of_report in Hd as (nm & l & a & b & Hn & ->).
    rewrite Forall_forall in Hpos. apply Hpos.
    apply list_elem_of_omap. by exists (FunctionDef nm l 0 a b).
  - rewrite Forall_forall. intros c Hc.
    apply class_of_report in Hc as (nm & ln & col & b & Hn & Hln & Hm).
    rewrite Hm. apply StronglySorted_Sorted.
    by apply (StronglySorted_sublist _ _ _ (method_linenos_sublist _ _ _ _ _ Hn)).
  - unfold r. by rewrite analyze_classes, walk_by_levels, omap_concat, map_map.
  - intros k. apply StronglySorted_Sorted.
    apply (StronglySorted_sublist _ _ (decl_linenos (preorder tree))); [|done].
    etrans; [apply class_entry_linenos|]. apply sublist_omap.
    rewrite <- (preorder_forest_one tree). apply level_sublist_preorder.
  - unfold r. by rewrite analyze_functions, walk_by_levels, omap_concat, map_map.
  - intros k. apply StronglySorted_Sorted.
    apply (StronglySorted_sublist _ _ (decl_linenos (preorder tree))); [|done].
    etrans; [apply function_entry_linenos|]. apply sublist_omap.
    rewrite <- (preorder_forest_one tree). apply level_sublist_preorder.
  - intros Hcols.
    assert (functions r = omap function_info body) as Hfun
      by apply (module_functions path content body Hcols).
    split; [done|]. rewrite Hfun. apply StronglySorted_Sorted.
    apply (StronglySorted_sublist _ _ (decl_linenos (preorder tree))); [|done].
    etrans; [apply function_info_linenos|]. apply sublist_omap.
    simpl. apply sublist_cons, roots_sublist_preorder.
Qed.

Lemma C4_witness :
  let tree := Module sample_body in
  let r := analyze_tree "sample.py" EmptyString tree in
  lines_ok tree = true
  /\ forallb (columns_ok 0) sample_body = true
  /\ Forall (fun c => 1 <= class_lineno c
                      /\ Forall (fun m => 1 <= decl_lineno m) (class_methods c))
       (classes r)
  /\ Forall (fun f => 1 <= decl_lineno f) (functions r)
  /\ Forall (fun c => Sorted Z.le (map decl_lineno (class_methods c))) (classes r)
  /\ classes r
     = concat (map (fun k => omap class_entry (nodes_at_depth k [tree]))
                 (seq 0 (ast.size tree)))
  /\ (forall k,
        Sorted Z.le (map class_lineno (omap class_entry (nodes_at_depth k [tree]))))
  /\ functions r
     = concat (map (fun k => omap function_entry (nodes_at_depth k [tree]))
                 (seq 0 (ast.size tree)))
  /\ (forall k,
        Sorted Z.le
          (map decl_lineno (omap function_entry (nodes_at_depth k [tree]))))
  /\ (forallb (columns_ok 0) sample_body = true ->
      functions r = omap function_info sample_body
      /\ Sorted Z.le (map decl_lineno (functions r))).
Proof.
  split; [reflexivity|]. split; [reflexivity|].
  apply (C4_line_numbers "sample.py" EmptyString sample_body); reflexivity.
Defined.


(** ** The target of [generate_docstring] *)

Lemma find_target_test tree object_name line_number :
  find_target tree object_name line_number
  = List.find (target_test object_name line_number) (ast.walk tree).
Proof.
  unfold find_target, target_test.
  destruct (given_name object_name); [done|].
  by destruct (given_line line_number).
Qed.

Lemma find_first {A} (p : A -> bool) (l : list A) (x : A) :
  List.find p l = Some x ->
  exists before after,
    l = before ++ x :: after /\ p x = true
    /\ forall y, y ∈ before -> p y = false.
Proof.
  induction l as [|y l IH]; [done|]. simpl.
  destruct (p y) eqn:Hy.
  - intros [= ->]. exists [], l. split; [done|]. split; [done|].
    intros z Hz. by apply elem_of_nil in Hz.
  - intros Hx. destruct (IH Hx) as (before & after & -> & Hpx & Hb).
    exists (y :: before), after. split; [done|]. split; [done|].
    intros z Hz. apply elem_of_cons in Hz as [->|Hz]; auto.
Qed.

Lemma find_none_iff {A} (p : A -> bool) (l : list A) :
  List.find p l = None <-> forall x, x ∈ l -> p x = false.
Proof.
  split.
  - intros H x Hx. apply (find_none p l H). by apply list_elem_of_In.
  - induction l as [|y l IH]; [done|]. intros H. simpl.
    rewrite (H y) by apply list_elem_of_here.
    apply IH. intros x Hx. apply H. by apply list_elem_of_further.
Qed.

(** C5, as stated, fails: the scan is not in pre-order. In the sample file
    the module and the class are documented; the first undocumented
    declaration in pre-order is the method [m] of line 4, and the target
    chosen is the function [g] of line 6. *)
Lemma C5_scan_is_not_preorder :
  find_target method_before_function None None = Some function_g
  /\ List.find undocumented (preorder method_before_function) = Some method_m.
Proof. split; reflexivity. Qed.

(** C5, amended. The scan of [generate_docstring] is in level order
    (breadth first): the module, then the statements of its body from first
    to last, then the nodes one level deeper, and so on. The target is the
    first node of that order that passes the test in force: the given name
    when a non-empty name is given, else the given line when a non-zero line
    is given, else being a documentable node (module, class, function)
    without a non-empty docstring. Every node before the target fails the
    test, and no target is found exactly when no node of the whole tree
    passes it. *)
Theorem C5_target_selection (tree : node) (object_name : option string)
    (line_number : option Z) :
  let order := level_order (ast.size tree) [tree] in
  let test := target_test object_name line_number in
  let target := find_target tree object_name line_number in
  target = List.find test order
  /\ (forall n, target = Some n ->
        exists before after,
          order = before ++ n :: after /\ test n = true
          /\ forall m, m ∈ before -> test m = false)
  /\ (target = None <-> forall n, n ∈ preorder tree -> test n = false).
Proof.
  intros order test target.
  assert (ast.walk tree = order) as Hwalk.
  { rewrite walk_bfs. apply bfs_level_order.
    rewrite forest_size_cons. unfold ast.forest_size. simpl. lia. }
  assert (target = List.find test order) as Ht.
  { unfold target. by rewrite find_target_test, Hwalk. }
  split; [done|]. split.
  - intros n Hn. apply find_first. by rewrite <- Ht.
  - rewrite Ht, find_none_iff, <- Hwalk.
    split; intros H n Hn; apply H; [by rewrite walk_perm|by rewrite <- walk_perm].
Qed.

Example target_by_name :
  find_target method_before_function (Some "m") (Some 6) = Some method_m.
Proof. reflexivity. Qed.

Example target_by_line :
  find_target method_before_function (Some EmptyString) (Some 6) = Some function_g.
Proof. reflexivity. Qed.

Example target_line_zero :
  find_target method_before_function None (Some 0) = Some function_g.
Proof. reflexivity. Qed.

(** ** Strings and paths *)

Lemma eqb_empty_false s : s <> EmptyString -> String.eqb s EmptyString = false.
Proof. intros H. by apply String.eqb_neq. Qed.

Lemma universal_newlines_id s :
  str.contains str.CR s = false -> str.universal_newlines s = s.
Proof.
  induction s as [|c r IH]; [done|].
  cbn [str.universal_newlines str.contains].
  destruct (Ascii.eqb_spec str.CR c) as [<-|Hc]; [done|]. intros Hr.
  destruct (Ascii.eqb_spec c str.CR) as [->|_]; [done|]. by rewrite IH.
Qed.

Lemma cut_last_sep_app p :
  p = fst (posixpath.cut_last_sep p) +:+ snd (posixpath.cut_last_sep p).
Proof.
  induction p as [|c r IH]; [done|]. simpl.
  destruct (posixpath.cut_last_sep r) as [h t]. simpl in IH.
  destruct (str.contains posixpath.sep r); simpl; [by rewrite IH at 1|].
  by destruct (Ascii.eqb c posixpath.sep).
Qed.

Lemma rstrip_char_length ch s :
  (String.length (str.rstrip_char ch s) <= String.length s)%nat.
Proof.
  induction s as [|c r IH]; simpl; [lia|].
  destruct (str.rstrip_char ch r); simpl in *.
  - destruct (Ascii.eqb c ch); simpl; lia.
  - lia.
Qed.

Lemma length_append s1 s2 :
  String.length (s1 +:+ s2) = (String.length s1 + String.length s2)%nat.
Proof. induction s1; simpl; auto. Qed.

Lemma split_dirname_basename p :
  posixpath.split p = (posixpath.dirname p, posixpath.basename p).
Proof.
  unfold posixpath.dirname, posixpath.basename, posixpath.split.
  destruct (posixpath.cut_last_sep p) as [h t]. by destruct (_ && _).
Qed.

(** The directory part is shorter than a path that has a final component. *)
Lemma dirname_shorter p :
  posixpath.basename p <> EmptyString ->
  (String.length (posixpath.dirname p) < String.length p)%nat.
Proof.
  intros Hb. pose proof (cut_last_sep_app p) as Hp.
  unfold posixpath.dirname, posixpath.basename, posixpath.split in *.
  destruct (posixpath.cut_last_sep p) as [h t]. simpl in *.
  assert (0 < String.length t)%nat by (destruct t; [done|simpl; lia]).
  apply (f_equal String.length) in Hp. rewrite length_append in Hp.
  destruct (_ && _); simpl; [|lia].
  pose proof (rstrip_char_length posixpath.sep h). lia.
Qed.

Lemma dirname_neq p :
  posixpath.basename p <> EmptyString -> posixpath.dirname p <> p.
Proof. intros Hb Heq. pose proof (dirname_shorter p Hb). rewrite Heq in *. lia. Qed.

Lemma basename_nonempty_path p :
  posixpath.basename p <> EmptyString -> p <> EmptyString.
Proof. by intros Hb ->. Qed.

(** ** The primitives of the filesystem *)

Ltac io_unfold :=
  unfold mbind, IO_bind, bind, try_except, read_fs, write_fs, ret, raise,
    of_outcome in *.

Lemma exists_true fs p e :
  p <> EmptyString -> fs !! p = Some e -> os_path.exists_ fs p = true.
Proof.
  intros Hp He. unfold os_path.exists_. rewrite eqb_empty_false by done.
  by rewrite bool_decide_eq_true_2.
Qed.


Lemma isdir_true fs p :
  os_path.isdir fs p = true <-> p <> EmptyString /\ fs !! p = Some Dir.
Proof.
  unfold os_path.isdir. rewrite andb_true_iff, negb_true_iff, bool_decide_eq_true.
  by rewrite String.eqb_neq.
Qed.

Lemma isdir_file fs p c : fs !! p = Some (File c) -> os_path.isdir fs p = false.
Proof.
  intros Hp. unfold os_path.isdir.
  rewrite bool_decide_eq_false_2; [apply andb_false_r|]. by rewrite Hp.
Qed.

Lemma open_read_file fs p c :
  fs !! p = Some (File c) ->
  os.open_read p fs = (Returned (str.universal_newlines c), fs).
Proof. intros Hp. unfold os.open_read. io_unfold. by rewrite Hp. Qed.

Lemma open_read_absent fs p :
  fs !! p = None -> os.open_read p fs = (Raised (os.absent_error fs p), fs).
Proof. intros Hp. unfold os.open_read. io_unfold. by rewrite Hp. Qed.

Lemma open_read_keeps fs p o fs' : os.open_read p fs = (o, fs') -> fs' = fs.
Proof.
  unfold os.open_read. io_unfold.
  destruct (fs !! p) as [[c|]|]; by intros [= _ <-].
Qed.

Lemma open_write_ok fs p c :
  posixpath.basename p <> EmptyString ->
  fs !! p <> Some Dir ->
  os.parent_ready fs p = true ->
  os.open_write p c fs = (Returned tt, <[p := File c]> fs).
Proof.
  intros Hb Hp Hr. unfold os.open_write. io_unfold.
  rewrite (eqb_empty_false p) by by apply basename_nonempty_path.
  rewrite (eqb_empty_false _ Hb), Hr.
  by destruct (fs !! p) as [[?|]|].
Qed.

Lemma open_write_inv fs p c u fs' :
  os.open_write p c fs = (Returned u, fs') ->
  fs' = <[p := File c]> fs
  /\ posixpath.basename p <> EmptyString
  /\ os.parent_ready fs p = true.
Proof.
  unfold os.open_write. io_unfold.
  destruct (String.eqb p EmptyString); [done|].
  destruct (String.eqb_spec (posixpath.basename p) EmptyString) as [|Hb]; [done|].
  destruct (os.parent_ready fs p) eqn:Hr;
    destruct (fs !! p) as [[?|]|]; try done; by intros [= _ <-].
Qed.




(** ** [create_file], [get_file], [delete_file] *)




Example create_in_missing_directories :
  let '(r, fs') := create_file "/proj/new/deep/x.txt" "X" project_fs in
  r = Returned (created_reply "/proj/new/deep/x.txt" false)
  /\ fs' !! "/proj/new" = Some Dir
  /\ fs' !! "/proj/new/deep" = Some Dir
  /\ fs' !! "/proj/new/deep/x.txt" = Some (File "X").
Proof. vm_compute. repeat split. Qed.


Lemma create_file_success_inv fs path content r fs1 :
  create_file path content fs = (Returned r, fs1) ->
  reports_success r = true ->
  exists fs0,
    fs1 = <[path := File content]> fs0
    /\ posixpath.basename path <> EmptyString
    /\ os.parent_ready fs0 path = true.
Proof.
  intros Hrun Hsucc. unfold create_file in Hrun. io_unfold.
  destruct (negb (String.eqb (posixpath.dirname path) EmptyString)
            && negb (os_path.exists_ fs (posixpath.dirname path))).
  - destruct (os.makedirs (posixpath.dirname path) fs) as [[[]|e] fs0].
    + destruct (os.open_write path content fs0) as [[u|e] fs2] eqn:Hw.
      * injection Hrun as <- <-. exists fs0. by apply open_write_inv in Hw.
      * injection Hrun as <- <-. discriminate Hsucc.
    + injection Hrun as <- <-. discriminate Hsucc.
  - destruct (os.open_write path content fs) as [[u|e] fs2] eqn:Hw.
    + injection Hrun as <- <-. exists fs. by apply open_write_inv in Hw.
    + injection Hrun as <- <-. discriminate Hsucc.
Qed.

Lemma get_file_reads fs path content :
  fs !! path = Some (File content) ->
  get_file path fs = (Returned (Raw (str.universal_newlines content)), fs).
Proof.
  intros Hfile. unfold get_file, get_file_content. io_unfold.
  by rewrite (open_read_file _ _ _ Hfile).
Qed.

Lemma delete_file_existing fs path content :
  path <> EmptyString ->
  fs !! path = Some (File content) ->
  delete_file path fs = (Returned (deleted_reply path), delete path fs).
Proof.
  intros Hp Hfile. unfold delete_file, os.remove. io_unfold.
  rewrite (exists_true _ _ _ Hp Hfile), (isdir_file _ _ _ Hfile). simpl.
  by rewrite Hfile.
Qed.

Lemma get_file_not_found fs path :
  fs !! path = None ->
  posixpath.dirname path = EmptyString
  \/ fs !! posixpath.dirname path = Some Dir ->
  get_file path fs = (Returned (Raw (not_found_text path)), fs).
Proof.
  intros Hnone Hparent. unfold get_file, get_file_content. io_unfold.
  rewrite (open_read_absent _ _ Hnone). unfold os.absent_error, not_found_text.
  destruct Hparent as [-> | ->]; [done|].
  by destruct (String.eqb _ _).
Qed.

(** C6, as stated, fails: a text written with a carriage return does not
    come back as it was written. [create_file] stores the text as it is and
    reports success; [get_file] reads in text mode with universal newlines
    and returns a line feed where the carriage return was. *)
Lemma C6_carriage_return_not_returned :
  let '(created, fs1) := create_file "notes.txt" text_with_cr ∅ in
  let '(read, _) := get_file "notes.txt" fs1 in
  created = Returned (created_reply "notes.txt" false)
  /\ fs1 !! "notes.txt" = Some (File text_with_cr)
  /\ read = Returned (Raw text_with_lf)
  /\ String.eqb text_with_lf text_with_cr = false.
Proof. vm_compute. repeat split. Qed.

(** C6, amended. When [create_file(path, X)] reports success, [get_file(path)]
    right after returns [X] with every carriage return (alone or before a
    line feed) read as a line feed, so exactly [X] when [X] holds no carriage
    return. [delete_file(path)] then succeeds and removes the file, and a
    [get_file(path)] after it returns no content but the text of the
    not-found error ([Error reading file: [Errno 2] No such file or
    directory: ...]). No call changes the filesystem except as said. *)
Theorem C6_round_trip (fs : filesystem) (path content : string) (r : reply)
    (fs1 : filesystem) :
  create_file path content fs = (Returned r, fs1) ->
  reports_success r = true ->
  get_file path fs1 = (Returned (Raw (str.universal_newlines content)), fs1)
  /\ (str.contains str.CR content = false ->
      get_file path fs1 = (Returned (Raw content), fs1))
  /\ delete_file path fs1 = (Returned (deleted_reply path), delete path fs1)
  /\ reports_success (deleted_reply path) = true
  /\ delete path fs1 !! path = None
  /\ get_file path (delete path fs1)
     = (Returned (Raw (not_found_text path)), delete path fs1).
Proof.
  intros Hrun Hsucc.
  destruct (create_file_success_inv _ _ _ _ _ Hrun Hsucc)
    as (fs0 & -> & Hb & Hready).
  assert (<[path := File content]> fs0 !! path = Some (File content)) as Hfile
    by apply lookup_insert_eq.
  split; [by apply get_file_reads|].
  split. { intros Hcr. rewrite <- (universal_newlines_id content Hcr) at 2.
           by apply get_file_reads. }
  split. { apply (delete_file_existing _ _ content); [|done].
           by apply basename_nonempty_path. }
  split; [done|]. split; [apply lookup_delete_eq|].
  apply get_file_not_found; [apply lookup_delete_eq|].
  unfold os.parent_ready in Hready. apply orb_true_iff in Hready as [H|H].
  - left. by apply String.eqb_eq.
  - right. apply isdir_true in H as [_ Hdir].
    pose proof (dirname_neq path Hb) as Hneq.
    rewrite lookup_delete_ne by done. by rewrite lookup_insert_ne.
Qed.

Lemma C6_witness :
  let fs1 := <["/proj/x.txt" := File "X"]> project_fs in
  create_file "/proj/x.txt" "X" project_fs
  = (Returned (created_reply "/proj/x.txt" false), fs1)
  /\ reports_success (created_reply "/proj/x.txt" false) = true
  /\ get_file "/proj/x.txt" fs1
     = (Returned (Raw (str.universal_newlines "X")), fs1)
  /\ (str.contains str.CR "X" = false ->
      get_file "/proj/x.txt" fs1 = (Returned (Raw "X"), fs1))
  /\ delete_file "/proj/x.txt" fs1
     = (Returned (deleted_reply "/proj/x.txt"), delete "/proj/x.txt" fs1)
  /\ reports_success (deleted_reply "/proj/x.txt") = true
  /\ delete "/proj/x.txt" fs1 !! "/proj/x.txt" = None
  /\ get_file "/proj/x.txt" (delete "/proj/x.txt" fs1)
     = (Returned (Raw (not_found_text "/proj/x.txt")), delete "/proj/x.txt" fs1).
Proof.
  intros fs1.
  assert (create_file "/proj/x.txt" "X" project_fs
          = (Returned (created_reply "/proj/x.txt" false), fs1)) as Hrun
    by reflexivity.
  split; [exact Hrun|]. split; [reflexivity|].
  exact (C6_round_trip project_fs "/proj/x.txt" "X" _ _ Hrun eq_refl).
Defined.

(** ** Failures stay inside the tools *)

Lemma returns_only_ret {A} (P : A -> Prop) (a : A) :
  P a -> returns_only P (ret a).
Proof. intros Ha fs b fs' [= <- _]. done. Qed.

Lemma returns_only_bind {A B} (P : B -> Prop) (m : IO A) (k : A -> IO B) :
  (forall x, returns_only P (k x)) -> returns_only P (x ← m; k x).
Proof.
  intros Hk fs b fs'. io_unfold.
  destruct (m fs) as [[a|e] fs1]; [apply Hk|done].
Qed.

Lemma returns_only_try {A} (P : A -> Prop) (m : IO A) (h : exn -> IO A) :
  returns_only P m -> (forall e, returns_only P (h e)) ->
  returns_only P (try_except m h).
Proof.
  intros Hm Hh fs b fs'. unfold try_except.
  destruct (m fs) as [[a|e] fs1] eqn:Hrun.
  - intros [= <- _]. by eapply Hm.
  - apply Hh.
Qed.

Lemma returns_only_if {A} (P : A -> Prop) (c : bool) (m1 m2 : IO A) :
  returns_only P m1 -> returns_only P m2 ->
  returns_only P (if c then m1 else m2).
Proof. by destruct c. Qed.

Lemma never_raises_ret {A} (a : A) : never_raises (ret a).
Proof. intros fs. by exists a, fs. Qed.

Lemma never_raises_try {A} (m : IO A) (h : exn -> IO A) :
  (forall e, never_raises (h e)) -> never_raises (try_except m h).
Proof.
  intros Hh fs. unfold try_except.
  destruct (m fs) as [[a|e] fs1]; [by exists a, fs1|apply Hh].
Qed.


(** A computation that never raises and returns only values in [P] returns
    a value in [P]. *)
Lemma returns_in {A} (P : A -> Prop) (m : IO A) :
  never_raises m -> returns_only P m ->
  forall fs, exists a fs', m fs = (Returned a, fs') /\ P a.
Proof.
  intros Hn Hr fs. destruct (Hn fs) as (a & fs' & Hrun).
  exists a, fs'. split; [done|]. by eapply Hr.
Qed.


Section ToolsNeverRaise.

Variable ast_parse : string -> outcome (list node).
Variable fnmatchcase : string -> string -> bool.
Variable getcwd : string.












End ToolsNeverRaise.



Example failures_of_the_tools :
  fst (delete_file "/proj/none.py" project_fs)
  = Returned (failure "File not found: /proj/none.py")
  /\ fst (create_file "/proj" "x" project_fs)
     = Returned (failure "[Errno 21] Is a directory: '/proj'")
  /\ fst (analyze_code parse_empty "/proj/none.py" project_fs)
     = Returned
         (Dumps (JObj [("error",
                         JStr "[Errno 2] No such file or directory: '/proj/none.py'");
                       ("file_path", JStr "/proj/none.py")]))
  /\ fst (list_files sample_fnmatch "/none" "*.py" project_fs)
     = Returned (Dumps (JObj [("error", JStr "Directory not found: /none")]))
  /\ fst (update_file "/none/x.py" "x" project_fs)
     = Returned
         (Dumps (JObj [("success", JBool false);
                       ("message", JStr "Failed to update file /none/x.py")])).
Proof. vm_compute. repeat split. Qed.

(** ** The analyzer and the filesystem *)

Section Analyzer.

Variable ast_parse : string -> outcome (list node).

Lemma analyze_python_file_reads fs path text :
  fs !! path = Some (File text) ->
  analyze_python_file ast_parse path fs
  = (Returned (analysis_of_text ast_parse path text), fs).
Proof.
  intros Hfile. unfold analyze_python_file, analysis_of_text. io_unfold.
  rewrite (open_read_file _ _ _ Hfile).
  by destruct (ast_parse (str.universal_newlines text)).
Qed.

Lemma analyze_python_file_keeps fs path o fs' :
  analyze_python_file ast_parse path fs = (o, fs') -> fs' = fs.
Proof.
  unfold analyze_python_file. io_unfold.
  destruct (os.open_read path fs) as [[c|e] fs1] eqn:Hr;
    apply open_read_keeps in Hr as ->.
  - destruct (ast_parse c); by intros [= _ <-].
  - by intros [= _ <-].
Qed.

Lemma analyze_code_keeps fs path o fs' :
  analyze_code ast_parse path fs = (o, fs') -> fs' = fs.
Proof.
  unfold analyze_code. destruct (negb _); [by intros [= _ <-]|]. io_unfold.
  destruct (analyze_python_file ast_parse path fs) as [[a|e] fs1] eqn:Hr;
    apply analyze_python_file_keeps in Hr as ->; by intros [= _ <-].
Qed.

End Analyzer.

(** ** The coverage reported for a file *)

(** C1, as stated, fails: a documentation string that is empty counts for
    nothing. In the sample file the module, the class, the method and the
    function each open with a documentation string, an empty one; all four
    documentable nodes carry one, and the coverage reported is 0, not 100. *)
Theorem C1_empty_docstrings_count_for_nothing :
  let tree := Module all_empty_docs_body in
  let fs : filesystem := {[ "e.py" := File all_empty_docs_text ]} in
  forallb opens_with_string (List.filter is_documentable (preorder tree)) = true
  /\ length (List.filter is_documentable (preorder tree)) = 4%nat
  /\ exists r,
       analyze_code (parse_as all_empty_docs_body) "e.py" fs
       = (Returned (Dumps (report_json r)), fs)
       /\ nodes_requiring_docstrings r = 4%nat
       /\ docstring_count r = 0%nat
       /\ docstring_coverage r = Qc_of_Z 0
       /\ docstring_coverage r <> Qc_of_Z 100.
Proof.
  split; [reflexivity|]. split; [reflexivity|].
  exists (analyze_tree "e.py" all_empty_docs_text (Module all_empty_docs_body)).
  split; [vm_compute; reflexivity|]. split; [reflexivity|]. split; [reflexivity|].
  assert (docstring_coverage
            (analyze_tree "e.py" all_empty_docs_text (Module all_empty_docs_body))
          = Qc_of_Z 0) as -> by (apply Qc_is_canon; vm_compute; reflexivity).
  split; [done|]. intros H. apply (f_equal this) in H. discriminate.
Qed.

(** C1, amended. For a Python source file that is read and parsed,
    [analyze_code] replies with a report in which
    [nodes_requiring_docstrings] is the number of documentable nodes of the
    tree, the module, every [class] statement and every [def] statement at
    any depth, each once (an [async def] is a node of another kind and is
    not counted); the module is always one of them, so the count is at least
    1 and the guard for a count of 0, which yields 0, never applies.
    [docstring_count] is the number of those nodes whose body opens with a
    string literal that [inspect.cleandoc] leaves non-empty: an empty
    documentation string counts for nothing. [docstring_coverage] is the
    [float] [(docstring_count / nodes_requiring_docstrings) * 100], the
    quotient and the product each rounded to the nearest binary64: it lies
    between 0 and 100, within [2 ^ -45] of the exact quotient times 100, and
    is exactly 0 when [docstring_count] is 0 and exactly 100 when the two
    counts are equal. *)
Theorem C1_docstring_coverage (ast_parse : string -> outcome (list node))
    (fs : filesystem) (path text : string) (body : list node) :
  str.endswith path ".py" = true ->
  fs !! path = Some (File text) ->
  ast_parse (str.universal_newlines text) = Returned body ->
  let tree := Module body in
  let total := count_nodes is_documentable tree in
  let count := count_nodes (fun n => is_documentable n && documented n) tree in
  let exact :=
    (Qc_of_Z (Z.of_nat count) / Qc_of_Z (Z.of_nat total) * Qc_of_Z 100)%Qc in
  exists r,
    analyze_code ast_parse path fs = (Returned (Dumps (report_json r)), fs)
    /\ nodes_requiring_docstrings r = total
    /\ docstring_count r = count
    /\ (0 < total)%nat
    /\ (count <= total)%nat
    /\ docstring_coverage r
       = float.mul (float.truediv (Z.of_nat count) (Z.of_nat total)) (Qc_of_Z 100)
    /\ (exact - coverage_tolerance <= docstring_coverage r
        <= exact + coverage_tolerance)%Qc
    /\ (Qc_of_Z 0 <= docstring_coverage r <= Qc_of_Z 100)%Qc
    /\ (count = 0%nat -> docstring_coverage r = Qc_of_Z 0)
    /\ (count = total -> docstring_coverage r = Qc_of_Z 100)
    /\ (forall d, coverage d 0 = Qc_of_Z 0)
    /\ (forall n,
          is_documentable n = true
          <-> (exists b, n = Module b)
              \/ (exists nm l c b, n = ClassDef nm l c b)
              \/ (exists nm l c a b, n = FunctionDef nm l c a b))
    /\ (forall n,
          documented n = true
          <-> exists doc rest,
                node_body n = Expr (Constant (Str doc)) :: rest
                /\ inspect.cleandoc doc <> EmptyString).
Proof.
  intros Hpy Hfile Hparse tree total count exact.
  exists (analyze_tree path (str.universal_newlines text) tree).
  destruct (analyze_tree_counts path (str.universal_newlines text) body)
    as (Ht & Hc & Hcov & Hpos & Hle).
  fold tree total count in Ht, Hc, Hcov, Hpos, Hle.
  destruct (coverage_spec count total Hle Hpos) as [Hrange Hnear].
  fold exact in Hnear. rewrite Hcov.
  split.
  { unfold analyze_code. rewrite Hpy. cbn [negb]. io_unfold.
    rewrite (analyze_python_file_reads ast_parse fs path text Hfile).
    unfold analysis_of_text. by rewrite Hparse. }
  split; [done|]. split; [done|]. split; [done|]. split; [done|].
  split.
  { unfold coverage. by destruct (Nat.ltb_spec 0 total); [|lia]. }
  split; [done|]. split; [done|].
  split; [intros ->; apply coverage_none|].
  split; [intros ->; by apply coverage_all|].
  split; [apply coverage_guard|].
  split; [apply is_documentable_spec|apply documented_spec].
Qed.

Lemma C1_witness :
  let ast_parse := parse_as sample_body in
  let fs : filesystem := {[ "s.py" := File "import os" ]} in
  let tree := Module sample_body in
  let total := count_nodes is_documentable tree in
  let count := count_nodes (fun n => is_documentable n && documented n) tree in
  let exact :=
    (Qc_of_Z (Z.of_nat count) / Qc_of_Z (Z.of_nat total) * Qc_of_Z 100)%Qc in
  exists r,
    analyze_code ast_parse "s.py" fs = (Returned (Dumps (report_json r)), fs)
    /\ nodes_requiring_docstrings r = total
    /\ docstring_count r = count
    /\ (0 < total)%nat
    /\ (count <= total)%nat
    /\ docstring_coverage r
       = float.mul (float.truediv (Z.of_nat count) (Z.of_nat total)) (Qc_of_Z 100)
    /\ (exact - coverage_tolerance <= docstring_coverage r
        <= exact + coverage_tolerance)%Qc
    /\ (Qc_of_Z 0 <= docstring_coverage r <= Qc_of_Z 100)%Qc
    /\ (count = 0%nat -> docstring_coverage r = Qc_of_Z 0)
    /\ (count = total -> docstring_coverage r = Qc_of_Z 100)
    /\ (forall d, coverage d 0 = Qc_of_Z 0)
    /\ (forall n,
          is_documentable n = true
          <-> (exists b, n = Module b)
              \/ (exists nm l c b, n = ClassDef nm l c b)
              \/ (exists nm l c a b, n = FunctionDef nm l c a b))
    /\ (forall n,
          documented n = true
          <-> exists doc rest,
                node_body n = Expr (Constant (Str doc)) :: rest
                /\ inspect.cleandoc doc <> EmptyString).
Proof.
  apply (C1_docstring_coverage (parse_as sample_body)
           {[ "s.py" := File "import os" ]} "s.py" "import os" sample_body);
    reflexivity.
Defined.

(** The sample file: seven documentable nodes, two of them documented; the
    coverage is the [float] Python prints as 28.57142857142857. *)
Example sample_coverage :
  let r := analyze_tree "s.py" EmptyString (Module sample_body) in
  nodes_requiring_docstrings r = 7%nat
  /\ docstring_count r = 2%nat
  /\ docstring_coverage r = Q2Qc (2010535547933257 # 70368744177664).
Proof. repeat split. apply Qc_is_canon. vm_compute. reflexivity. Qed.

(** C9, as stated, fails: the analyzer is handed a path, not a text, and
    reads the file itself. With the same argument its result differs with
    the filesystem: an error value when nothing is at the path, a report
    when a file (here an empty one) is there. *)
Lemma C9_analyzer_reads_the_file :
  fst (analyze_python_file parse_empty "m.py" ∅)
  = Returned
      (AnalysisError "[Errno 2] No such file or directory: 'm.py'" "m.py")
  /\ match fst (analyze_python_file parse_empty "m.py"
                  {[ "m.py" := File EmptyString ]}) with
     | Returned (Analysed r) =>
         file_path r = "m.py" /\ line_count r = 0%nat
         /\ classes r = [] /\ functions r = [] /\ imports r = []
         /\ nodes_requiring_docstrings r = 1%nat /\ docstring_count r = 0%nat
     | _ => False
     end.
Proof. vm_compute. repeat split. Qed.

(** C9, amended. [analyze_python_file] takes a path and reads the file
    there itself, once, and writes nothing: the filesystem after the
    analysis is the one before it. Its result is a function of the path and
    of the text stored at the path alone, so analyzing twice with the file
    unchanged, or in any other filesystem with that text at that path,
    gives the same reply. *)
Theorem C9_analysis_is_a_function_of_the_text
    (ast_parse : string -> outcome (list node)) (path : string)
    (fs : filesystem) :
  (forall o fs',
     analyze_code ast_parse path fs = (o, fs') ->
     fs' = fs /\ analyze_code ast_parse path fs' = (o, fs'))
  /\ (forall text,
        fs !! path = Some (File text) ->
        analyze_python_file ast_parse path fs
        = (Returned (analysis_of_text ast_parse path text), fs)
        /\ (str.endswith path ".py" = true ->
            analyze_code ast_parse path fs
            = (Returned (Dumps (analysis_json (analysis_of_text ast_parse path text))),
               fs))
        /\ forall fs2, fs2 !! path = Some (File text) ->
             fst (analyze_code ast_parse path fs2)
             = fst (analyze_code ast_parse path fs)).
Proof.
  split.
  - intros o fs' Hrun. pose proof (analyze_code_keeps _ _ _ _ _ Hrun) as ->.
    done.
  - intros text Hfile.
    split; [by apply analyze_python_file_reads|]. split.
    + intros Hpy. unfold analyze_code. rewrite Hpy. simpl. io_unfold.
      by rewrite (analyze_python_file_reads _ _ _ _ Hfile).
    + intros fs2 Hfile2. unfold analyze_code.
      destruct (negb _); [done|]. io_unfold.
      by rewrite !(analyze_python_file_reads _ _ _ text).
Qed.

(** ** [find_files] without recursion *)

Lemma append_nil s : EmptyString +:+ s = s.
Proof. reflexivity. Qed.

Lemma append_cons c h s : String c h +:+ s = String c (h +:+ s).
Proof. reflexivity. Qed.

Lemma contains_app_sep h p :
  str.contains posixpath.sep (h +:+ String posixpath.sep p) = true.
Proof.
  induction h as [|c h IH].
  - rewrite append_nil. cbn [str.contains]. by rewrite Ascii.eqb_refl.
  - rewrite append_cons. cbn [str.contains].
    by destruct (Ascii.eqb posixpath.sep c).
Qed.

Lemma cut_last_sep_join h p :
  str.contains posixpath.sep p = false ->
  posixpath.cut_last_sep (h +:+ String posixpath.sep p)
  = (h +:+ String posixpath.sep EmptyString, p).
Proof.
  intros Hp. induction h as [|c h IH].
  - rewrite !append_nil. cbn [posixpath.cut_last_sep].
    destruct (posixpath.cut_last_sep p). by rewrite Hp, Ascii.eqb_refl.
  - rewrite !append_cons. cbn [posixpath.cut_last_sep].
    by rewrite IH, contains_app_sep.
Qed.

Lemma basename_no_sep k :
  str.contains posixpath.sep (posixpath.basename k) = false.
Proof.
  unfold posixpath.basename. induction k as [|c r IH]; [done|].
  cbn [posixpath.cut_last_sep].
  destruct (posixpath.cut_last_sep r) as [h t]. cbn [snd] in IH.
  destruct (str.contains posixpath.sep r) eqn:Hr; [done|].
  destruct (Ascii.eqb_spec c posixpath.sep) as [->|Hc]; cbn [snd]; [done|].
  cbn [str.contains]. rewrite Hr.
  by destruct (Ascii.eqb_spec posixpath.sep c) as [<-|_].
Qed.

Lemma all_char_app_sep d :
  d <> EmptyString -> str.endswith d "/" = false ->
  str.all_char posixpath.sep (d +:+ "/") = false.
Proof.
  induction d as [|c r IH]; [done|]. intros _ Hend.
  cbn [str.endswith] in Hend. apply orb_false_iff in Hend as [Heq Hend].
  rewrite append_cons. cbn [str.all_char].
  destruct r as [|c' r'].
  - destruct (Ascii.eqb_spec c posixpath.sep) as [->|_]; [done|done].
  - rewrite IH by done. apply andb_false_r.
Qed.

Lemma rstrip_app_sep d :
  d <> EmptyString -> str.endswith d "/" = false ->
  str.rstrip_char posixpath.sep (d +:+ "/") = d.
Proof.
  induction d as [|c r IH]; [done|]. intros _ Hend.
  cbn [str.endswith] in Hend. apply orb_false_iff in Hend as [Heq Hend].
  rewrite append_cons. cbn [str.rstrip_char].
  destruct r as [|c' r'].
  - rewrite append_nil. cbn [str.rstrip_char]. rewrite Ascii.eqb_refl.
    destruct (Ascii.eqb_spec c posixpath.sep) as [->|_]; [done|done].
  - rewrite IH by done. done.
Qed.

(** Splitting [d/x] gives [d] and [x] back when [d] is a plain directory
    name and [x] holds no separator. *)
Lemma split_join d x :
  d <> EmptyString -> str.endswith d "/" = false ->
  str.contains posixpath.sep x = false ->
  posixpath.join d x = d +:+ String posixpath.sep x
  /\ posixpath.split (d +:+ String posixpath.sep x) = (d, x).
Proof.
  intros Hd Hend Hx. split.
  - unfold posixpath.join.
    assert (str.startswith x "/" = false) as ->.
    { destruct x as [|c x]; [done|]. cbn [str.contains] in Hx.
      destruct (Ascii.eqb_spec posixpath.sep c) as [Heq|Hc]; [done|].
      unfold str.startswith. cbn [String.prefix].
      by destruct (ascii_dec "/" c). }
    rewrite (eqb_empty_false d Hd), Hend. cbn [orb].
    first [reflexivity
          | clear; induction d as [|c d IH]; [reflexivity|];
            rewrite !append_cons; by f_equal].
  - unfold posixpath.split. rewrite (cut_last_sep_join d x Hx).
    change (d +:+ String posixpath.sep EmptyString) with (d +:+ "/").
    rewrite (all_char_app_sep d Hd Hend), (rstrip_app_sep d Hd Hend).
    assert (String.eqb (d +:+ "/") EmptyString = false) as ->.
    { by destruct d. }
    done.
Qed.

Lemma has_magic_app s1 s2 :
  glob.has_magic (s1 +:+ s2) = glob.has_magic s1 || glob.has_magic s2.
Proof.
  induction s1 as [|c s1 IH]; [done|].
  rewrite append_cons. cbn [glob.has_magic]. rewrite IH. by rewrite orb_assoc.
Qed.

Lemma listdir_names fs d dironly n :
  n ∈ glob._listdir fs d dironly ->
  n <> EmptyString /\ str.contains posixpath.sep n = false.
Proof.
  unfold glob._listdir. intros Hn.
  apply list_elem_of_omap in Hn as ([k e] & _ & Hk).
  destruct (negb (String.eqb (posixpath.basename k) EmptyString)) eqn:Hne;
    simpl in Hk; [|done].
  destruct (_ && _); [|done]. injection Hk as <-.
  split; [|apply basename_no_sep].
  apply negb_true_iff in Hne. by apply String.eqb_neq.
Qed.

Lemma endswith_cons c r suffix :
  str.endswith (String c r) suffix
  = String.eqb (String c r) suffix || str.endswith r suffix.
Proof. reflexivity. Qed.

Lemma no_trailing_sep d :
  d <> EmptyString -> str.endswith d "/" = false ->
  str.all_char posixpath.sep d = false /\ str.rstrip_char posixpath.sep d = d.
Proof.
  induction d as [|c r IH]; [done|]. intros _ Hend.
  cbn [str.endswith] in Hend. apply orb_false_iff in Hend as [Heq Hend].
  cbn [str.all_char str.rstrip_char].
  destruct r as [|c' r'].
  - cbn [str.rstrip_char str.all_char].
    destruct (Ascii.eqb_spec c posixpath.sep) as [->|_]; [done|done].
  - destruct IH as [-> ->]; [done|done|]. by rewrite andb_false_r.
Qed.

Lemma trailing_sep_split d :
  str.endswith d "/" = true -> exists d', d = d' +:+ "/".
Proof.
  induction d as [|c r IH]; [done|].
  cbn [str.endswith]. intros [Heq|Hend]%orb_true_iff.
  - apply String.eqb_eq in Heq as ->. by exists EmptyString.
  - destruct (IH Hend) as [d' ->]. by exists (String c d').
Qed.

Lemma rstrip_all_char s :
  str.all_char posixpath.sep s = true ->
  str.rstrip_char posixpath.sep s = EmptyString.
Proof.
  induction s as [|c r IH]; [done|]. cbn [str.all_char str.rstrip_char].
  intros [Hc Hr]%andb_true_iff. by rewrite (IH Hr), Hc.
Qed.

Lemma rstrip_nonempty s :
  str.all_char posixpath.sep s = false ->
  str.rstrip_char posixpath.sep s <> EmptyString.
Proof.
  induction s as [|c r IH]; [done|]. cbn [str.all_char str.rstrip_char].
  intros Hs. destruct (str.rstrip_char posixpath.sep r) eqn:Hr; [|done].
  destruct (Ascii.eqb c posixpath.sep); [|done].
  destruct (str.all_char posixpath.sep r); [done|]. by destruct IH.
Qed.

(** What [rstrip] leaves of a string that is not made of slashes does not
    end in a slash. *)
Lemma rstrip_no_trailing s :
  str.all_char posixpath.sep s = false ->
  str.endswith (str.rstrip_char posixpath.sep s) "/" = false.
Proof.
  induction s as [|c r IH]; [done|]. cbn [str.all_char str.rstrip_char].
  intros Hs. destruct (str.rstrip_char posixpath.sep r) as [|c' r'] eqn:Hr.
  - destruct (Ascii.eqb_spec c posixpath.sep) as [->|Hc].
    + destruct (str.all_char posixpath.sep r) eqn:Hall; [done|].
      by destruct (rstrip_nonempty r Hall).
    + rewrite endswith_cons. apply orb_false_iff. split; [|done].
      apply String.eqb_neq. by intros [= ->].
  - destruct (str.all_char posixpath.sep r) eqn:Hall.
    + by rewrite (rstrip_all_char r Hall) in Hr.
    + rewrite endswith_cons, (IH eq_refl). by rewrite orb_false_r.
Qed.

(** A directory part is made of slashes only, or does not end in one. *)
Lemma dirname_shape q :
  str.all_char posixpath.sep (posixpath.dirname q) = true
  \/ str.endswith (posixpath.dirname q) "/" = false.
Proof.
  unfold posixpath.dirname, posixpath.split.
  destruct (posixpath.cut_last_sep q) as [h t].
  destruct (String.eqb_spec h EmptyString) as [->|Hh]; [by left|].
  destruct (str.all_char posixpath.sep h) eqn:Hall; cbn [negb andb fst].
  - by left.
  - right. by apply rstrip_no_trailing.
Qed.

Lemma ancestors_shape fuel p a :
  a ∈ ancestors_fuel fuel p ->
  str.all_char posixpath.sep a = true \/ str.endswith a "/" = false.
Proof.
  revert p. induction fuel as [|fuel IH]; intros p Ha.
  - by apply elem_of_nil in Ha.
  - cbn [ancestors_fuel] in Ha. destruct (_ || _); [by apply elem_of_nil in Ha|].
    apply elem_of_cons in Ha as [->|Ha]; [apply dirname_shape|by eapply IH].
Qed.

Lemma append_assoc_one d x :
  (d +:+ "/") +:+ x = d +:+ String posixpath.sep x.
Proof.
  induction d as [|c r IH]; [done|]. rewrite !append_cons. by f_equal.
Qed.

(** The paths of the entries of a directory: joining [d] with a name that
    holds no separator and splitting again gives the name back, under [d]
    without its trailing slashes. *)
Lemma split_join_name d x :
  d <> EmptyString ->
  str.contains posixpath.sep x = false ->
  posixpath.split (posixpath.join d x) = (without_trailing_sep d, x)
  /\ glob.has_magic (posixpath.join d x) = glob.has_magic d || glob.has_magic x
  /\ posixpath.join d x <> EmptyString.
Proof.
  intros Hd Hx. destruct (str.endswith d "/") eqn:Hend.
  - assert (posixpath.join d x = d +:+ x) as ->.
    { unfold posixpath.join.
      assert (str.startswith x "/" = false) as ->.
      { destruct x as [|c x]; [done|]. cbn [str.contains] in Hx.
        destruct (Ascii.eqb_spec posixpath.sep c) as [Heq|Hc]; [done|].
        unfold str.startswith. cbn [String.prefix].
        by destruct (ascii_dec "/" c). }
      by rewrite Hend, orb_true_r. }
    destruct (trailing_sep_split d Hend) as [d' ->].
    split; [|split].
    + unfold posixpath.split, without_trailing_sep.
      rewrite append_assoc_one, (cut_last_sep_join d' x Hx).
      change (d' +:+ String posixpath.sep EmptyString) with (d' +:+ "/").
      assert (String.eqb (d' +:+ "/") EmptyString = false) as ->
        by by destruct d'.
      by destruct (str.all_char posixpath.sep (d' +:+ "/")).
    + apply has_magic_app.
    + by destruct d'.
  - destruct (split_join d x Hd Hend Hx) as [-> Hs].
    destruct (no_trailing_sep d Hd Hend) as [Hall Hstrip].
    split; [|split].
    + unfold without_trailing_sep. by rewrite Hs, Hall, Hstrip.
    + rewrite has_magic_app. cbn [glob.has_magic glob.is_magic_char].
      by rewrite orb_false_l.
    + by destruct d.
Qed.

Lemma without_trailing_sep_nonempty d :
  d <> EmptyString -> without_trailing_sep d <> EmptyString.
Proof.
  intros Hd. unfold without_trailing_sep.
  destruct (str.all_char posixpath.sep d) eqn:Hall; [done|].
  by apply rstrip_nonempty.
Qed.

Lemma without_trailing_sep_idem d :
  d <> EmptyString ->
  without_trailing_sep (without_trailing_sep d) = without_trailing_sep d.
Proof.
  intros Hd. unfold without_trailing_sep at 2.
  destruct (str.all_char posixpath.sep d) eqn:Hall.
  - done.
  - pose proof (rstrip_no_trailing d Hall) as Hno.
    destruct (no_trailing_sep _ (rstrip_nonempty d Hall) Hno) as [Hall' Hs].
    unfold without_trailing_sep. rewrite Hall', Hall. exact Hs.
Qed.

Lemma without_trailing_sep_magic d :
  glob.has_magic d = false -> glob.has_magic (without_trailing_sep d) = false.
Proof.
  intros Hmagic. unfold without_trailing_sep.
  destruct (str.all_char posixpath.sep d); [done|].
  induction d as [|c r IH]; [done|].
  cbn [glob.has_magic] in Hmagic. apply orb_false_iff in Hmagic as [Hc Hr].
  cbn [str.rstrip_char]. destruct (str.rstrip_char posixpath.sep r) eqn:Hs.
  - destruct (Ascii.eqb c posixpath.sep); [done|].
    cbn [glob.has_magic]. by rewrite Hc.
  - cbn [glob.has_magic]. rewrite Hc. by apply IH.
Qed.

(** Without recursion, a pattern that holds no separator is matched in the
    directory itself: every match is the directory joined with one name. *)
Lemma glob_in_directory fnmatchcase fs d pattern m :
  d <> EmptyString ->
  glob.has_magic d = false ->
  str.contains posixpath.sep pattern = false ->
  m ∈ glob.glob fnmatchcase fs (posixpath.join d pattern) false ->
  posixpath.dirname m = without_trailing_sep d.
Proof.
  intros Hd Hmagic Hpat.
  destruct (split_join_name d pattern Hd Hpat) as (Hsplit & Hmag & Hne).
  rewrite Hmagic, orb_false_l in Hmag.
  pose proof (without_trailing_sep_nonempty d Hd) as Hd'.
  pose proof (without_trailing_sep_magic d Hmagic) as Hmagic'.
  assert (forall n, n ∈ glob._listdir fs (without_trailing_sep d) false ->
                    posixpath.dirname (posixpath.join (without_trailing_sep d) n)
                    = without_trailing_sep d) as Hnames.
  { intros n Hn. apply listdir_names in Hn as [_ Hsep].
    destruct (split_join_name _ n Hd' Hsep) as (Hs & _ & _).
    unfold posixpath.dirname. rewrite Hs. cbn [fst].
    by apply without_trailing_sep_idem. }
  unfold glob.glob. rewrite (eqb_empty_false _ Hne). cbn [orb andb].
  generalize (String.length (posixpath.join d pattern)). intros fuel.
  destruct fuel; cbn [glob._iglob]; rewrite Hsplit, Hmag;
    destruct (glob.has_magic pattern) eqn:Hp; cbn [negb];
    rewrite ?(eqb_empty_false _ Hd'), ?Hmagic', ?andb_false_r; cbn [andb].
  all: try (destruct (negb (String.eqb pattern EmptyString));
            [destruct (glob._lexists _ _)|destruct (os_path.isdir _ _)];
            intros Hm; try (by apply elem_of_nil in Hm);
            apply list_elem_of_singleton in Hm as ->;
            unfold posixpath.dirname; by rewrite Hsplit).
  all: simpl; rewrite app_nil_r; intros Hm;
    apply list_elem_of_fmap in Hm as (n & -> & Hn);
    unfold glob._glob1 in Hn;
    apply list_elem_of_In, filter_In in Hn as [Hn _];
    apply Hnames;
    destruct (glob._ishidden pattern);
      [by apply list_elem_of_In
      |apply filter_In in Hn as [Hn _]; by apply list_elem_of_In].
Qed.

Lemma find_files_matches_inv fnmatchcase getcwd d p rec fs r fs' ms :
  find_files fnmatchcase getcwd d p rec fs = (Returned r, fs') ->
  field "matches" r = Some (JList ms) ->
  os_path.isdir fs d = true
  /\ ms = map JStr (find_matches fnmatchcase fs d p rec).
Proof.
  unfold find_files. io_unfold.
  destruct (os_path.isdir fs d); cbn [negb].
  - destruct (relative_matches getcwd d _) as [rel|e].
    + intros [= <- _] [= <-]. done.
    + intros [= <- _] [=].
  - intros [= <- _] [=].
Qed.

(** C8, as stated, fails: the pattern may hold a separator. In the sample
    project, [find_files] without recursion and with the pattern [sub/b.py]
    returns the file [b.py] of the subdirectory [sub]; no call of the matcher
    is involved (the one passed matches nothing). *)
Lemma C8_pattern_with_separator_reaches_subdirectory :
  fst (find_files (fun _ _ => false) "/" "/proj" "sub/b.py" false project_fs)
  = Returned
      (Dumps (JObj [("success", JBool true); ("pattern", JStr "sub/b.py");
                    ("recursive", JBool false);
                    ("matches", JList [JStr "/proj/sub/b.py"]);
                    ("relative_matches", JList [JStr "sub/b.py"]);
                    ("count", JInt 1)]))
  /\ in_nested_subdirectory "/proj" "/proj/sub/b.py" = true.
Proof. split; vm_compute; reflexivity. Qed.

Example find_files_samples :
  field "matches"
    (Dumps (JObj [("matches", JList [JStr "/proj/sub/b.py"])]))
  = Some (JList [JStr "/proj/sub/b.py"])
  /\ (forall r, fst (find_files sample_fnmatch "/" "/proj" "*/*.py" false project_fs)
                = Returned r ->
                field "matches" r = Some (JList [JStr "/proj/sub/b.py"]))
  /\ (forall r, fst (find_files sample_fnmatch "/" "/proj" "*.py" false project_fs)
                = Returned r ->
                field "matches" r = Some (JList [JStr "/proj/a.py"]))
  /\ (forall r, fst (find_files sample_fnmatch "/" "/proj" "*.py" true project_fs)
                = Returned r ->
                field "matches" r
                = Some (JList [JStr "/proj/a.py"; JStr "/proj/sub/b.py"])).
Proof.
  split; [reflexivity|].
  split; [|split]; vm_compute; by intros r [= <-].
Qed.

Lemma not_nested_in_own_directory directory m :
  directory <> EmptyString ->
  posixpath.dirname m = without_trailing_sep directory ->
  in_nested_subdirectory directory m = false.
Proof.
  intros Hd Hm. unfold in_nested_subdirectory. rewrite Hm.
  unfold without_trailing_sep.
  destruct (str.all_char posixpath.sep directory) eqn:Hall.
  - by rewrite String.eqb_refl.
  - destruct (str.endswith directory "/") eqn:Hend.
    + rewrite bool_decide_eq_false_2; [apply andb_false_r|].
      intros Hin. apply ancestors_shape in Hin as [H|H]; congruence.
    + destruct (no_trailing_sep directory Hd Hend) as [_ ->].
      by rewrite String.eqb_refl.
Qed.

Example magic_in_the_directory_name :
  let fs : filesystem :=
    list_to_map [("/", Dir); ("/*", Dir); ("/proj", Dir);
                 ("/proj/a.py", File EmptyString)] in
  forall r, fst (find_files sample_fnmatch "/" "/*" "a.py" false fs) = Returned r ->
            field "matches" r = Some (JList [JStr "/proj/a.py"]).
Proof. vm_compute. by intros r [= <-]. Qed.

(** C8, amended. For a directory whose name holds no glob character and a
    pattern that holds no path separator, every match [find_files] returns
    with [recursive=false] is the directory joined with one name: the match
    lies in the directory itself, none in a nested subdirectory. (A pattern
    with a separator, such as [sub/b.py] or [*/*.py], is matched below the
    directory, and a glob character in the name of the directory is read as
    a pattern.) *)
Theorem C8_non_recursive_matches (fnmatchcase : string -> string -> bool)
    (getcwd : string) (fs : filesystem) (directory pattern : string)
    (r : reply) (fs' : filesystem) (ms : list json) :
  glob.has_magic directory = false ->
  str.contains posixpath.sep pattern = false ->
  find_files fnmatchcase getcwd directory pattern false fs = (Returned r, fs') ->
  field "matches" r = Some (JList ms) ->
  forall j, j ∈ ms ->
    exists m, j = JStr m
              /\ posixpath.dirname m = without_trailing_sep directory
              /\ in_nested_subdirectory directory m = false.
Proof.
  intros Hmagic Hpat Hrun Hms j Hj.
  destruct (find_files_matches_inv _ _ _ _ _ _ _ _ _ Hrun Hms) as [Hdir ->].
  apply isdir_true in Hdir as [Hd _].
  apply list_elem_of_fmap in Hj as (m & -> & Hm).
  exists m. split; [done|].
  assert (posixpath.dirname m = without_trailing_sep directory) as Hdirname
    by by apply (glob_in_directory fnmatchcase fs directory pattern m).
  split; [done|]. by apply not_nested_in_own_directory.
Qed.

Lemma C8_witness :
  glob.has_magic "/proj" = false
  /\ str.contains posixpath.sep "*.py" = false
  /\ forall j, j ∈ [JStr "/proj/a.py"] ->
       exists m, j = JStr m
                 /\ posixpath.dirname m = without_trailing_sep "/proj"
                 /\ in_nested_subdirectory "/proj" m = false.
Proof.
  split; [reflexivity|]. split; [reflexivity|].
  apply (C8_non_recursive_matches sample_fnmatch "/" project_fs "/proj" "*.py"
           (Dumps (JObj [("success", JBool true); ("pattern", JStr "*.py");
                         ("recursive", JBool false);
                         ("matches", JList [JStr "/proj/a.py"]);
                         ("relative_matches", JList [JStr "a.py"]);
                         ("count", JInt 1)]))
           project_fs [JStr "/proj/a.py"]); reflexivity.
Defined.

(** * Further properties of the server *)

(** ** The report covers the whole tree *)

Lemma flat_map_length_sum {A B} (f : A -> list B) (l : list A) :
  length (flat_map f l) = list_sum (map (fun x => length (f x)) l).
Proof.
  induction l as [|x l IH]; [done|].
  cbn [flat_map map list_sum]. by rewrite length_app, IH.
Qed.

Lemma import_entries_length n : length (import_entries n) = imported_names n.
Proof. destruct n; cbn; by rewrite ?length_map. Qed.

(** X1. The import list of the report holds one entry for every name
    imported by every [import] and [from ... import] statement of the tree,
    at any depth (also inside functions, classes and compound statements):
    it is a rearrangement of the entries read off the tree in pre-order, and
    its length is the sum of the numbers of names of the import statements. *)
Theorem imports_cover_the_tree (path content : string) (tree : node) :
  let r := analyze_tree path content tree in
  Permutation (imports r) (flat_map import_entries (preorder tree))
  /\ length (imports r) = list_sum (map imported_names (preorder tree)).
Proof.
  cbv zeta. rewrite analyze_imports.
  assert (Permutation (flat_map import_entries (ast.walk tree))
            (flat_map import_entries (preorder tree))) as Hperm.
  { apply Permutation_flat_map, walk_perm. }
  split; [exact Hperm|].
  rewrite (Permutation_length Hperm), flat_map_length_sum.
  f_equal. apply map_ext. intros n. apply import_entries_length.
Qed.

Lemma class_entries_length l :
  length (omap class_entry l) = length (List.filter is_ClassDef l).
Proof.
  induction l as [|n l IH]; [done|].
  destruct n; csimpl; cbn [List.filter is_ClassDef]; by rewrite ?IH.
Qed.

(** X2. The class list of the report holds exactly one entry for every
    [class] statement of the tree, at any depth: a class nested in a class or
    in a function is listed like a class of the module, with its own methods.
    The list is a rearrangement of the entries read off the tree in
    pre-order. *)
Theorem classes_cover_the_tree (path content : string) (tree : node) :
  let r := analyze_tree path content tree in
  Permutation (classes r) (omap class_entry (preorder tree))
  /\ length (classes r) = count_nodes is_ClassDef tree
  /\ (forall nm ln col b,
        ClassDef nm ln col b ∈ preorder tree ->
        mkClass nm ln (omap function_info b)
          (reported_docstring (ClassDef nm ln col b)) ∈ classes r).
Proof.
  cbv zeta. rewrite analyze_classes.
  assert (Permutation (omap class_entry (ast.walk tree))
            (omap class_entry (preorder tree))) as Hperm.
  { apply omap_Permutation, walk_perm. }
  split; [exact Hperm|]. split.
  - rewrite class_entries_length. apply walk_count.
  - intros nm ln col b Hin. rewrite Hperm.
    apply list_elem_of_omap. exists (ClassDef nm ln col b). by split.
Qed.

(** ** The target and the text of [generate_docstring] *)

Lemma target_is_documentable tree object_name line_number t :
  find_target tree object_name line_number = Some t -> is_documentable t = true.
Proof.
  rewrite find_target_test. intros Hfind.
  apply find_some in Hfind as [_ Htest]. revert Htest.
  unfold target_test, has_name, has_lineno, undocumented, is_def, is_documentable.
  destruct (given_name object_name); [|destruct (given_line line_number)];
    intros [H _]%andb_true_iff; rewrite ?H; try done;
    by destruct (is_FunctionDef t), (is_ClassDef t).
Qed.

Lemma suggestion_of_documentable path t :
  is_documentable t = true -> reports_success (suggestion path (Some t)) = true.
Proof. by destruct t. Qed.

Section Docstrings.

Variable ast_parse : string -> outcome (list node).

Lemma generate_docstring_reads fs path text body object_name line_number :
  fs !! path = Some (File text) ->
  ast_parse (str.universal_newlines text) = Returned body ->
  generate_docstring ast_parse path object_name line_number fs
  = (Returned (suggestion path (find_target (Module body) object_name line_number)),
     fs).
Proof.
  intros Hfile Hparse. unfold generate_docstring. io_unfold.
  rewrite (open_read_file _ _ _ Hfile). simpl. by rewrite Hparse.
Qed.

End Docstrings.

(** X3. When neither a name nor a line is given (each absent, empty or
    zero) and the module has no docstring, [generate_docstring] suggests the
    docstring of the module, whatever undocumented classes and functions the
    file holds: the walk starts at the module. The reply names the node
    type [module] and line 1. *)
Theorem module_is_the_default_target
    (ast_parse : string -> outcome (list node)) (fs : filesystem)
    (path text : string) (body : list node) (object_name : option string)
    (line_number : option Z) :
  fs !! path = Some (File text) ->
  ast_parse (str.universal_newlines text) = Returned body ->
  given_name object_name = None ->
  given_line line_number = None ->
  documented (Module body) = false ->
  generate_docstring ast_parse path object_name line_number fs
  = (Returned (module_reply path), fs).
Proof.
  intros Hfile Hparse Hname Hline Hdoc.
  rewrite (generate_docstring_reads _ _ _ _ _ _ _ Hfile Hparse).
  unfold find_target. rewrite Hname, Hline, walk_module.
  cbn [find]. unfold undocumented. cbn [is_documentable is_FunctionDef is_ClassDef is_Module orb andb].
  unfold documented in Hdoc. by rewrite Hdoc.
Qed.

Lemma module_is_the_default_target_witness :
  generate_docstring (parse_as undocumented_body) "k.py" (Some EmptyString) (Some 0)
    {[ "k.py" := File "class K: ..." ]}
  = (Returned (module_reply "k.py"), {[ "k.py" := File "class K: ..." ]}).
Proof.
  apply (module_is_the_default_target (parse_as undocumented_body)
           {[ "k.py" := File "class K: ..." ]} "k.py" "class K: ..."
           undocumented_body (Some EmptyString) (Some 0)); reflexivity.
Defined.

(** X4. For a file that is read and parsed, the reply of
    [generate_docstring] follows the target alone: a target that is found is
    a module, a class or a function and the reply reports success, and when
    none is found the reply is the one for no suitable target. The reply for
    an unsupported node type is never given. *)
Theorem docstring_reply_follows_the_target
    (ast_parse : string -> outcome (list node)) (fs : filesystem)
    (path text : string) (body : list node) (object_name : option string)
    (line_number : option Z) :
  fs !! path = Some (File text) ->
  ast_parse (str.universal_newlines text) = Returned body ->
  exists r,
    generate_docstring ast_parse path object_name line_number fs = (Returned r, fs)
    /\ (forall t, find_target (Module body) object_name line_number = Some t ->
                  is_documentable t = true /\ reports_success r = true)
    /\ (find_target (Module body) object_name line_number = None ->
        r = no_target_reply)
    /\ field "message" r
       <> Some (JStr "Unsupported node type for docstring generation").
Proof.
  intros Hfile Hparse.
  rewrite (generate_docstring_reads _ _ _ _ _ _ _ Hfile Hparse).
  eexists. split; [reflexivity|].
  destruct (find_target (Module body) object_name line_number) as [t|] eqn:Hfind.
  - pose proof (target_is_documentable _ _ _ _ Hfind) as Hdoc.
    split; [|split; [done|]].
    + intros t' [= <-]. split; [done|]. by apply suggestion_of_documentable.
    + by destruct t.
  - split; [done|]. split; [done|]. done.
Qed.

Lemma docstring_reply_follows_the_target_witness :
  exists r,
    generate_docstring (parse_as sample_body) "s.py" (Some "m2") None
      {[ "s.py" := File "import os" ]}
    = (Returned r, {[ "s.py" := File "import os" ]})
    /\ (forall t, find_target (Module sample_body) (Some "m2") None = Some t ->
                  is_documentable t = true /\ reports_success r = true)
    /\ (find_target (Module sample_body) (Some "m2") None = None ->
        r = no_target_reply)
    /\ field "message" r
       <> Some (JStr "Unsupported node type for docstring generation").
Proof.
  apply (docstring_reply_follows_the_target (parse_as sample_body)
           {[ "s.py" := File "import os" ]} "s.py" "import os" sample_body
           (Some "m2") None); reflexivity.
Defined.

Lemma count_char_app c s1 s2 :
  count_char c (s1 +:+ s2) = (count_char c s1 + count_char c s2)%nat.
Proof.
  induction s1 as [|d s1 IH]; [done|].
  rewrite append_cons. cbn [count_char]. rewrite IH. lia.
Qed.

Lemma count_char_absent c s : str.contains c s = false -> count_char c s = O.
Proof.
  induction s as [|d s IH]; [done|]. cbn [str.contains count_char].
  rewrite Ascii.eqb_sym. destruct (Ascii.eqb d c); [done|]. intros H. by rewrite IH.
Qed.

Lemma split_length c s : length (str.split c s) = S (count_char c s).
Proof.
  induction s as [|d s IH]; [done|]. cbn [str.split count_char].
  destruct (Ascii.eqb d c).
  - cbn [length]. by rewrite IH.
  - destruct (str.split c s); cbn [length] in *; lia.
Qed.

Lemma param_lines_count (args : list string) :
  Forall (fun a => str.contains str.LF a = false) args ->
  count_char str.LF
    (String.concat EmptyString
       (map (fun a => "    " +:+ a +:+ ": Description of " +:+ a +:+ NL) args))
  = length args.
Proof.
  induction 1 as [|a args Ha _ IH]; [done|].
  cbn [map length]. rewrite <- IH.
  assert (forall x l, String.concat EmptyString (x :: l)
                      = x +:+ String.concat EmptyString l) as Hconcat.
  { intros x [|y l]; cbn [String.concat]; [|done].
    induction x as [|c x IHx]; [done|]. rewrite append_cons. by f_equal. }
  rewrite Hconcat, !count_char_app, (count_char_absent _ _ Ha).
  reflexivity.
Qed.

(** X5. The text suggested for a function is made of the name of the
    [FunctionDef] found and of its [node.args.args] alone, the parameters
    that can be passed by position or by keyword. Under a line [Args:] it
    has one line per name of [node.args.args] other than [self]; the other
    fields of [node.args] (positional-only and keyword-only parameters,
    [*args], [**kwargs]) are not read, so such parameters get no line. There
    is no parameter section at all when [node.args.args] holds no name other
    than [self]: seven lines then, and eight plus the number of these names
    otherwise. Names are identifiers and hold no line feed. *)
Theorem function_docstring_lines (name : string) (args_args : list string) :
  str.contains str.LF name = false ->
  Forall (fun a => str.contains str.LF a = false) args_args ->
  text_lines (function_docstring name args_args)
  = match documented_args args_args with
    | [] => 7%nat
    | _ :: _ => (8 + length (documented_args args_args))%nat
    end
  /\ (forall a, a ∈ documented_args args_args <-> a ∈ args_args /\ a <> "self")
  /\ (forall file_path lineno col_offset body,
        field "suggested_docstring"
          (suggestion file_path
             (Some (FunctionDef name lineno col_offset args_args body)))
        = Some (JStr (function_docstring name args_args))).
Proof.
  intros Hname Hparams. split; [|split].
  - unfold text_lines, function_docstring. rewrite split_length.
    fold (documented_args args_args).
    assert (Forall (fun a => str.contains str.LF a = false)
              (documented_args args_args)) as Hargs.
    { apply Forall_forall. intros a Ha.
      apply list_elem_of_In, filter_In in Ha as [Ha _].
      by apply (proj1 (Forall_forall _ _) Hparams), list_elem_of_In. }
    destruct (documented_args args_args) as [|a args] eqn:Hdoc.
    + rewrite !count_char_app, (count_char_absent _ _ Hname). reflexivity.
    + rewrite !count_char_app, (count_char_absent _ _ Hname).
      rewrite (param_lines_count _ Hargs). cbn [length].
      change (count_char str.LF TRIPLE) with O.
      change (count_char str.LF NL) with 1%nat.
      change (count_char str.LF "Args:") with O.
      change (count_char str.LF "Returns:") with O.
      change (count_char str.LF "    Description of return value") with O.
      lia.
  - intros a. unfold documented_args.
    rewrite list_elem_of_In, filter_In, <- list_elem_of_In, negb_true_iff.
    by rewrite String.eqb_neq.
  - reflexivity.
Qed.

Lemma function_docstring_lines_witness :
  text_lines (function_docstring "m" ["self"; "a"; "b"])
  = match documented_args ["self"; "a"; "b"] with
    | [] => 7%nat
    | _ :: _ => (8 + length (documented_args ["self"; "a"; "b"]))%nat
    end
  /\ (forall a, a ∈ documented_args ["self"; "a"; "b"]
                <-> a ∈ ["self"; "a"; "b"] /\ a <> "self")
  /\ (forall file_path lineno col_offset body,
        field "suggested_docstring"
          (suggestion file_path
             (Some (FunctionDef "m" lineno col_offset ["self"; "a"; "b"] body)))
        = Some (JStr (function_docstring "m" ["self"; "a"; "b"]))).
Proof.
  apply (function_docstring_lines "m" ["self"; "a"; "b"]); [reflexivity|].
  repeat constructor.
Defined.

(** A function [g] whose one parameter is keyword-only (it stands after a
    bare star in the parameter list) has an empty [node.args.args]: the text
    has no parameter section. *)
Example keyword_only_parameters_get_no_line :
  function_docstring "g" []
  = TRIPLE +:+ NL +:+ "g" +:+ NL +:+ NL +:+ NL +:+ "Returns:" +:+ NL
    +:+ "    Description of return value" +:+ NL +:+ TRIPLE.
Proof. reflexivity. Qed.

(** ** What the writing tools change *)

Lemma only_adds_refl fs : only_adds_directories fs fs.
Proof. intros k. by left. Qed.

Lemma only_adds_trans fs1 fs2 fs3 :
  only_adds_directories fs1 fs2 -> only_adds_directories fs2 fs3 ->
  only_adds_directories fs1 fs3.
Proof.
  intros H12 H23 k. destruct (H12 k) as [H1|[H1 H1']], (H23 k) as [H2|[H2 H2']].
  - left. congruence.
  - right. split; congruence.
  - right. split; congruence.
  - congruence.
Qed.

Lemma only_adds_insert fs p :
  fs !! p = None -> only_adds_directories fs (<[p := Dir]> fs).
Proof.
  intros Hp k. destruct (decide (k = p)) as [->|Hk].
  - right. by rewrite lookup_insert_eq.
  - left. by rewrite lookup_insert_ne.
Qed.

Lemma mkdir_adds p fs o fs' :
  os.mkdir p fs = (o, fs') -> only_adds_directories fs fs'.
Proof.
  unfold os.mkdir. io_unfold. destruct (fs !! p) eqn:Hp.
  - intros [= _ <-]. apply only_adds_refl.
  - destruct (os.parent_ready fs p); intros [= _ <-];
      [by apply only_adds_insert|apply only_adds_refl].
Qed.

Lemma mkdir_exist_ok_adds p fs o fs' :
  os.mkdir_exist_ok p fs = (o, fs') -> only_adds_directories fs fs'.
Proof.
  unfold os.mkdir_exist_ok, try_except.
  destruct (os.mkdir p fs) as [[u|e] fs1] eqn:Hmk.
  - intros [= _ <-]. by eapply mkdir_adds.
  - io_unfold. destruct (_ && _); intros [= _ <-]; by eapply mkdir_adds.
Qed.

Lemma mkdir_last_adds exist_ok p fs o fs' :
  mkdir_last exist_ok p fs = (o, fs') -> only_adds_directories fs fs'.
Proof.
  destruct exist_ok; [apply mkdir_exist_ok_adds|apply mkdir_adds].
Qed.

(** [os.makedirs] removes and overwrites nothing, whatever its outcome. *)
Lemma os_makedirs_fuel_adds exist_ok fuel :
  forall name fs o fs',
    os_makedirs_fuel exist_ok fuel name fs = (o, fs') ->
    only_adds_directories fs fs'.
Proof.
  induction fuel as [|fuel IH]; intros name fs o fs'; [apply mkdir_last_adds|].
  cbn [os_makedirs_fuel].
  destruct (posixpath.split name) as [head tail].
  assert (forall head tail : string,
            (fs1 ← read_fs;
             if negb (String.eqb head EmptyString)
                && negb (String.eqb tail EmptyString)
                && negb (os_path.exists_ fs1 head)
             then
               try_except (os_makedirs_fuel exist_ok fuel head)
                 (fun e => match e with
                           | FileExistsError _ => ret tt
                           | _ => raise e
                           end);;
               if String.eqb tail "." then ret tt else mkdir_last exist_ok name
             else mkdir_last exist_ok name) fs = (o, fs') ->
            only_adds_directories fs fs') as Hbody.
  { clear head tail. intros head tail. io_unfold.
    destruct (_ && _); [|apply mkdir_last_adds].
    destruct (os_makedirs_fuel exist_ok fuel head fs) as [[u|e] fs1] eqn:Hrec;
      pose proof (IH _ _ _ _ Hrec) as H1.
    - destruct (String.eqb tail ".").
      + by intros [= _ <-].
      + intros H2%mkdir_last_adds. by eapply only_adds_trans.
    - destruct e; try (by intros [= _ <-]).
      destruct (String.eqb tail ".").
      + by intros [= _ <-].
      + intros H2%mkdir_last_adds. by eapply only_adds_trans. }
  destruct (String.eqb tail EmptyString); [|apply Hbody].
  destruct (posixpath.split head) as [head' tail']. apply Hbody.
Qed.

Lemma os_makedirs_fuel_exist_ok fuel :
  forall name fs,
    os_makedirs_fuel true fuel name fs = os.makedirs_fuel fuel name fs.
Proof.
  induction fuel as [|fuel IH]; intros name fs; [done|].
  cbn [os_makedirs_fuel os.makedirs_fuel].
  destruct (posixpath.split name) as [head tail].
  destruct (String.eqb tail EmptyString);
    [destruct (posixpath.split head) as [head' tail']|];
    io_unfold; destruct (_ && _); try done; by rewrite IH.
Qed.

Lemma makedirs_adds name fs o fs' :
  os.makedirs name fs = (o, fs') -> only_adds_directories fs fs'.
Proof.
  unfold os.makedirs. rewrite <- os_makedirs_fuel_exist_ok.
  apply os_makedirs_fuel_adds.
Qed.

Lemma os_makedirs_adds name exist_ok fs o fs' :
  os_makedirs name exist_ok fs = (o, fs') -> only_adds_directories fs fs'.
Proof.
  unfold os_makedirs. destruct (String.eqb name EmptyString).
  - intros [= _ <-]. apply only_adds_refl.
  - apply os_makedirs_fuel_adds.
Qed.

(** For a name that is not empty, [os.makedirs] with [exist_ok=True] is the
    function [create_directory] and [create_file] call. *)
Lemma os_makedirs_exist_ok name fs :
  name <> EmptyString -> os_makedirs name true fs = os.makedirs name fs.
Proof.
  intros Hne. unfold os_makedirs, os.makedirs.
  rewrite (eqb_empty_false _ Hne). apply os_makedirs_fuel_exist_ok.
Qed.

Lemma open_write_changes p c fs o fs' :
  os.open_write p c fs = (o, fs') -> fs' = fs \/ fs' = <[p := File c]> fs.
Proof.
  unfold os.open_write. io_unfold.
  destruct (String.eqb p EmptyString); [intros [= _ <-]; by left|].
  destruct (String.eqb (posixpath.basename p) EmptyString);
    [intros [= _ <-]; by left|].
  destruct (fs !! p) as [[?|]|], (os.parent_ready fs p);
    intros [= _ <-]; (by left) || by right.
Qed.

(** X6. What the four writing tools can change, whatever their outcome.
    [delete_file] leaves the filesystem as it is or removes the one regular
    file at its path; [update_file] leaves it as it is or writes the one file
    at its path; [create_directory] only adds directories; [create_file]
    only adds directories and then, at most, writes the one file at its path.
    No other entry is removed or overwritten. *)
Theorem writing_tools_keep_the_rest (fs : filesystem) (path content : string) :
  (snd (delete_file path fs) = fs
   \/ (exists c, fs !! path = Some (File c))
      /\ snd (delete_file path fs) = delete path fs)
  /\ (snd (update_file path content fs) = fs
      \/ snd (update_file path content fs) = <[path := File content]> fs)
  /\ only_adds_directories fs (snd (create_directory path fs))
  /\ (exists fs1,
        only_adds_directories fs fs1
        /\ (snd (create_file path content fs) = fs1
            \/ snd (create_file path content fs) = <[path := File content]> fs1)).
Proof.
  split; [|split; [|split]].
  - unfold delete_file, os.remove. io_unfold.
    destruct (os_path.exists_ fs path); cbn [negb]; [|by left].
    destruct (os_path.isdir fs path); [by left|].
    destruct (fs !! path) as [[c|]|] eqn:Hp; cbn; [|by left|by left].
    right. split; [by exists c|done].
  - unfold update_file, write_file_content. io_unfold.
    destruct (os.open_write path content fs) as [[u|e] fs1] eqn:Hw;
      apply open_write_changes in Hw as [->| ->]; cbn; by (left + right).
  - unfold create_directory. io_unfold.
    destruct (os.makedirs path fs) as [[u|e] fs1] eqn:Hmk;
      apply makedirs_adds in Hmk; exact Hmk.
  - unfold create_file. io_unfold.
    destruct (_ && _).
    + destruct (os.makedirs (posixpath.dirname path) fs) as [[u|e] fs1] eqn:Hmk;
        pose proof (makedirs_adds _ _ _ _ Hmk) as Hadds; exists fs1;
        (split; [done|]); cbn [snd]; [|by left].
      destruct (os.open_write path content fs1) as [[u'|e] fs2] eqn:Hw;
        apply open_write_changes in Hw as [->| ->]; cbn; by (left + right).
    + exists fs. split; [apply only_adds_refl|].
      destruct (os.open_write path content fs) as [[u'|e] fs2] eqn:Hw;
        apply open_write_changes in Hw as [->| ->]; cbn; by (left + right).
Qed.

(** ** [update_file], [create_directory] and [create_file] at the edges *)





(** X8. In a directory that exists, [update_file] writes the file whether
    or not it was there before (it creates a missing file), and [get_file]
    right after returns the text with every carriage return read as a line
    feed: the text itself when it holds no carriage return. *)
Theorem update_file_round_trip (fs : filesystem) (path content : string) :
  posixpath.basename path <> EmptyString ->
  fs !! path <> Some Dir ->
  os.parent_ready fs path = true ->
  let fs1 := <[path := File content]> fs in
  update_file path content fs = (Returned (updated_reply path), fs1)
  /\ get_file path fs1 = (Returned (Raw (str.universal_newlines content)), fs1)
  /\ (str.contains str.CR content = false ->
      get_file path fs1 = (Returned (Raw content), fs1)).
Proof.
  intros Hb Hdir Hready fs1.
  assert (get_file path fs1
          = (Returned (Raw (str.universal_newlines content)), fs1)) as Hget.
  { apply get_file_reads. unfold fs1. by rewrite lookup_insert_eq. }
  split; [|split; [done|]].
  - unfold update_file, write_file_content. io_unfold.
    by rewrite (open_write_ok _ _ _ Hb Hdir Hready).
  - intros Hcr. by rewrite Hget, (universal_newlines_id _ Hcr).
Qed.

Lemma update_file_round_trip_witness :
  let fs1 := <["/proj/new.txt" := File "X"]> project_fs in
  update_file "/proj/new.txt" "X" project_fs
  = (Returned (updated_reply "/proj/new.txt"), fs1)
  /\ get_file "/proj/new.txt" fs1
     = (Returned (Raw (str.universal_newlines "X")), fs1)
  /\ (str.contains str.CR "X" = false ->
      get_file "/proj/new.txt" fs1 = (Returned (Raw "X"), fs1)).
Proof.
  apply (update_file_round_trip project_fs "/proj/new.txt" "X").
  - discriminate.
  - discriminate.
  - reflexivity.
Defined.

Lemma makedirs_at_an_entry fs path :
  posixpath.basename path <> EmptyString ->
  posixpath.dirname path = EmptyString
  \/ os_path.exists_ fs (posixpath.dirname path) = true ->
  os.makedirs path fs = os.mkdir_exist_ok path fs.
Proof.
  intros Hb Hparent. unfold os.makedirs.
  destruct (String.length path) as [|fuel]; [done|].
  cbn [os.makedirs_fuel]. rewrite split_dirname_basename, (eqb_empty_false _ Hb).
  io_unfold. destruct Hparent as [-> | ->]; [done|by rewrite andb_false_r].
Qed.

(** X9. [create_directory] on a path that is taken, in a directory that
    exists. On a directory it reports success and changes nothing (a second
    call does no harm); on a regular file it reports failure with the text of
    the error 17, file exists, and changes nothing. *)
Theorem create_directory_on_an_entry (fs : filesystem) (path : string) :
  posixpath.basename path <> EmptyString ->
  posixpath.dirname path = EmptyString
  \/ os_path.exists_ fs (posixpath.dirname path) = true ->
  (fs !! path = Some Dir ->
   create_directory path fs = (Returned (directory_reply path), fs))
  /\ (forall c, fs !! path = Some (File c) ->
        create_directory path fs
        = (Returned (failure ("[Errno 17] File exists: " +:+ quoted path)), fs)).
Proof.
  intros Hb Hparent.
  assert (path <> EmptyString) as Hp by by apply basename_nonempty_path.
  split; [intros Hdir|intros c Hfile];
    unfold create_directory, try_except, mbind, IO_bind, bind;
    rewrite (makedirs_at_an_entry _ _ Hb Hparent);
    unfold os.mkdir_exist_ok, os.mkdir; io_unfold.
  - rewrite Hdir. cbn [is_OSError andb].
    by rewrite (proj2 (isdir_true fs path) (conj Hp Hdir)).
  - rewrite Hfile. cbn [is_OSError andb].
    by rewrite (isdir_file _ _ _ Hfile).
Qed.

Lemma create_directory_on_an_entry_witness :
  (project_fs !! "/proj/sub" = Some Dir ->
   create_directory "/proj/sub" project_fs
   = (Returned (directory_reply "/proj/sub"), project_fs))
  /\ (forall c, project_fs !! "/proj/a.py" = Some (File c) ->
        create_directory "/proj/a.py" project_fs
        = (Returned (failure ("[Errno 17] File exists: " +:+ quoted "/proj/a.py")),
           project_fs)).
Proof.
  split.
  - apply (create_directory_on_an_entry project_fs "/proj/sub");
      [discriminate|right; reflexivity].
  - apply (create_directory_on_an_entry project_fs "/proj/a.py");
      [discriminate|right; reflexivity].
Defined.




(** ** The fields of [find_files] *)

Lemma relative_matches_each getcwd directory matches relative :
  relative_matches getcwd directory matches = Returned relative ->
  Forall2 (fun m rel => os_path.relpath getcwd m directory = Returned rel)
    matches relative.
Proof.
  revert relative. induction matches as [|m ms IH]; intros relative.
  - intros [= <-]. constructor.
  - cbn [relative_matches].
    destruct (os_path.relpath getcwd m directory) as [r|e] eqn:Hrel; [|done].
    destruct (relative_matches getcwd directory ms) as [rs|e]; [|done].
    intros [= <-]. constructor; [done|by apply IH].
Qed.

(** X11. In a successful reply of [find_files] the three result fields
    agree: [relative_matches] holds, in the same order, the path of each
    entry of [matches] relative to the directory, so both lists have the same
    length, and [count] is that length. The filesystem is not changed. *)
Theorem find_files_fields_agree (fnmatchcase : string -> string -> bool)
    (getcwd : string) (fs : filesystem) (directory pattern : string)
    (recursive : bool) (r : reply) (fs' : filesystem) :
  find_files fnmatchcase getcwd directory pattern recursive fs = (Returned r, fs') ->
  reports_success r = true ->
  exists relative,
    let matches := find_matches fnmatchcase fs directory pattern recursive in
    field "matches" r = Some (JList (map JStr matches))
    /\ field "relative_matches" r = Some (JList (map JStr relative))
    /\ Forall2 (fun m rel => os_path.relpath getcwd m directory = Returned rel)
         matches relative
    /\ length relative = length matches
    /\ field "count" r = Some (JInt (Z.of_nat (length matches)))
    /\ fs' = fs.
Proof.
  unfold find_files. io_unfold.
  destruct (os_path.isdir fs directory); cbn [negb]; [|by intros [= <- _]].
  destruct (relative_matches getcwd directory _) as [rel|e] eqn:Hrel;
    [|by intros [= <- _]].
  intros [= <- <-] _. exists rel. cbv zeta.
  pose proof (relative_matches_each _ _ _ _ Hrel) as Heach.
  split; [done|]. split; [done|]. split; [done|].
  split; [symmetry; by eapply Forall2_length|done].
Qed.

Lemma find_files_fields_agree_witness :
  exists relative,
    let matches := find_matches sample_fnmatch project_fs "/proj" "*.py" true in
    field "matches"
      (Dumps (JObj [("success", JBool true); ("pattern", JStr "*.py");
                    ("recursive", JBool true);
                    ("matches", JList [JStr "/proj/a.py"; JStr "/proj/sub/b.py"]);
                    ("relative_matches", JList [JStr "a.py"; JStr "sub/b.py"]);
                    ("count", JInt 2)]))
    = Some (JList (map JStr matches))
    /\ field "relative_matches"
         (Dumps (JObj [("success", JBool true); ("pattern", JStr "*.py");
                       ("recursive", JBool true);
                       ("matches", JList [JStr "/proj/a.py"; JStr "/proj/sub/b.py"]);
                       ("relative_matches", JList [JStr "a.py"; JStr "sub/b.py"]);
                       ("count", JInt 2)]))
       = Some (JList (map JStr relative))
    /\ Forall2 (fun m rel => os_path.relpath "/" m "/proj" = Returned rel)
         matches relative
    /\ length relative = length matches
    /\ field "count"
         (Dumps (JObj [("success", JBool true); ("pattern", JStr "*.py");
                       ("recursive", JBool true);
                       ("matches", JList [JStr "/proj/a.py"; JStr "/proj/sub/b.py"]);
                       ("relative_matches", JList [JStr "a.py"; JStr "sub/b.py"]);
                       ("count", JInt 2)]))
       = Some (JInt (Z.of_nat (length matches)))
    /\ project_fs = project_fs.
Proof.
  apply (find_files_fields_agree sample_fnmatch "/" project_fs "/proj" "*.py" true
           (Dumps (JObj [("success", JBool true); ("pattern", JStr "*.py");
                         ("recursive", JBool true);
                         ("matches", JList [JStr "/proj/a.py"; JStr "/proj/sub/b.py"]);
                         ("relative_matches", JList [JStr "a.py"; JStr "sub/b.py"]);
                         ("count", JInt 2)]))
           project_fs); [vm_compute|]; reflexivity.
Defined.

(** ** The file and the directory variants of the tools *)

Lemma isdir_exists fs p : os_path.isdir fs p = true -> os_path.exists_ fs p = true.
Proof. intros [Hp Hd]%isdir_true. by eapply exists_true. Qed.

Section Variants.

Variable os_rmdir : string -> IO unit.
Variable shutil_rmtree : string -> IO unit.
Variable shutil_copy2 : string -> string -> IO unit.
Variable shutil_copytree : string -> string -> IO unit.
Variable shutil_move : string -> string -> IO unit.
Variable os_rename : string -> string -> IO unit.

Lemma file_tools_on_a_directory fs source other :
  os_path.isdir fs source = true ->
  delete_file source fs
  = (Returned (failure ("Path is a directory, use delete_directory instead: "
                        +:+ source)), fs)
  /\ copy_file shutil_copy2 source other fs
     = (Returned (failure ("Source is a directory, use copy_directory instead: "
                           +:+ source)), fs)
  /\ move_file shutil_move source other fs
     = (Returned (failure ("Source is a directory, use move_directory instead: "
                           +:+ source)), fs)
  /\ rename_file os_rename source other fs
     = (Returned (failure ("Source is a directory, use rename_directory instead: "
                           +:+ source)), fs).
Proof.
  intros Hdir. pose proof (isdir_exists _ _ Hdir) as Hex.
  unfold delete_file, copy_file, move_file, rename_file. io_unfold.
  by rewrite Hex, Hdir.
Qed.

Lemma directory_tools_on_a_file fs source other recursive c :
  source <> EmptyString ->
  fs !! source = Some (File c) ->
  delete_directory os_rmdir shutil_rmtree source recursive fs
  = (Returned (failure ("Path is not a directory: " +:+ source)), fs)
  /\ copy_directory shutil_copytree source other fs
     = (Returned (failure ("Source is not a directory: " +:+ source)), fs)
  /\ move_directory shutil_move source other fs
     = (Returned (failure ("Source is not a directory: " +:+ source)), fs)
  /\ rename_directory os_rename source other fs
     = (Returned (failure ("Source is not a directory: " +:+ source)), fs).
Proof.
  intros Hne Hfile.
  unfold delete_directory, copy_directory, move_directory, rename_directory.
  io_unfold.
  by rewrite (exists_true _ _ _ Hne Hfile), (isdir_file _ _ _ Hfile).
Qed.

End Variants.

(** X12. The file and the directory variants of delete, copy, move and
    rename refuse each other's entries. On a directory the four file tools
    reply with a failure that names the directory tool to use; on a regular
    file the four directory tools reply that the path is not a directory. In
    both cases the filesystem is left as it is and no library call is made,
    whatever the library calls would do. *)
Theorem variants_refuse_the_other_kind
    (os_rmdir shutil_rmtree : string -> IO unit)
    (shutil_copy2 shutil_copytree shutil_move os_rename : string -> string -> IO unit)
    (fs : filesystem) (source other : string) (recursive : bool) :
  (os_path.isdir fs source = true ->
   delete_file source fs
   = (Returned (failure ("Path is a directory, use delete_directory instead: "
                         +:+ source)), fs)
   /\ copy_file shutil_copy2 source other fs
      = (Returned (failure ("Source is a directory, use copy_directory instead: "
                            +:+ source)), fs)
   /\ move_file shutil_move source other fs
      = (Returned (failure ("Source is a directory, use move_directory instead: "
                            +:+ source)), fs)
   /\ rename_file os_rename source other fs
      = (Returned (failure ("Source is a directory, use rename_directory instead: "
                            +:+ source)), fs))
  /\ (forall c,
        source <> EmptyString ->
        fs !! source = Some (File c) ->
        delete_directory os_rmdir shutil_rmtree source recursive fs
        = (Returned (failure ("Path is not a directory: " +:+ source)), fs)
        /\ copy_directory shutil_copytree source other fs
           = (Returned (failure ("Source is not a directory: " +:+ source)), fs)
        /\ move_directory shutil_move source other fs
           = (Returned (failure ("Source is not a directory: " +:+ source)), fs)
        /\ rename_directory os_rename source other fs
           = (Returned (failure ("Source is not a directory: " +:+ source)), fs)).
Proof.
  split.
  - apply file_tools_on_a_directory.
  - intros c. apply directory_tools_on_a_file.
Qed.

(** X13. A source at which nothing is found: each of the eight tools
    replies with its own not-found failure, the filesystem is left as it is
    and no library call is made. The empty path counts as missing. *)
Theorem missing_source_is_reported
    (os_rmdir shutil_rmtree : string -> IO unit)
    (shutil_copy2 shutil_copytree shutil_move os_rename : string -> string -> IO unit)
    (fs : filesystem) (source other : string) (recursive : bool) :
  os_path.exists_ fs source = false ->
  delete_file source fs = (Returned (failure ("File not found: " +:+ source)), fs)
  /\ delete_directory os_rmdir shutil_rmtree source recursive fs
     = (Returned (failure ("Directory not found: " +:+ source)), fs)
  /\ copy_file shutil_copy2 source other fs
     = (Returned (failure ("Source file not found: " +:+ source)), fs)
  /\ copy_directory shutil_copytree source other fs
     = (Returned (failure ("Source directory not found: " +:+ source)), fs)
  /\ move_file shutil_move source other fs
     = (Returned (failure ("Source file not found: " +:+ source)), fs)
  /\ move_directory shutil_move source other fs
     = (Returned (failure ("Source directory not found: " +:+ source)), fs)
  /\ rename_file os_rename source other fs
     = (Returned (failure ("Source file not found: " +:+ source)), fs)
  /\ rename_directory os_rename source other fs
     = (Returned (failure ("Source directory not found: " +:+ source)), fs).
Proof.
  intros Hex.
  unfold delete_file, delete_directory, copy_file, copy_directory, move_file,
    move_directory, rename_file, rename_directory.
  io_unfold. by rewrite Hex.
Qed.

Lemma missing_source_is_reported_witness :
  delete_file "/proj/none" project_fs
  = (Returned (failure ("File not found: " +:+ "/proj/none")), project_fs)
  /\ delete_directory call_ok1 call_ok1 "/proj/none" true project_fs
     = (Returned (failure ("Directory not found: " +:+ "/proj/none")), project_fs)
  /\ copy_file call_ok "/proj/none" "/proj/x" project_fs
     = (Returned (failure ("Source file not found: " +:+ "/proj/none")), project_fs)
  /\ copy_directory call_ok "/proj/none" "/proj/x" project_fs
     = (Returned (failure ("Source directory not found: " +:+ "/proj/none")),
        project_fs)
  /\ move_file call_ok "/proj/none" "/proj/x" project_fs
     = (Returned (failure ("Source file not found: " +:+ "/proj/none")), project_fs)
  /\ move_directory call_ok "/proj/none" "/proj/x" project_fs
     = (Returned (failure ("Source directory not found: " +:+ "/proj/none")),
        project_fs)
  /\ rename_file call_ok "/proj/none" "/proj/x" project_fs
     = (Returned (failure ("Source file not found: " +:+ "/proj/none")), project_fs)
  /\ rename_directory call_ok "/proj/none" "/proj/x" project_fs
     = (Returned (failure ("Source directory not found: " +:+ "/proj/none")),
        project_fs).
Proof.
  apply (missing_source_is_reported call_ok1 call_ok1 call_ok call_ok call_ok
           call_ok project_fs "/proj/none" "/proj/x" true).
  reflexivity.
Defined.

Lemma variants_refuse_the_other_kind_witness :
  (delete_file "/proj/sub" project_fs
   = (Returned (failure ("Path is a directory, use delete_directory instead: "
                         +:+ "/proj/sub")), project_fs)
   /\ copy_file call_ok "/proj/sub" "/x" project_fs
      = (Returned (failure ("Source is a directory, use copy_directory instead: "
                            +:+ "/proj/sub")), project_fs)
   /\ move_file call_ok "/proj/sub" "/x" project_fs
      = (Returned (failure ("Source is a directory, use move_directory instead: "
                            +:+ "/proj/sub")), project_fs)
   /\ rename_file call_ok "/proj/sub" "/x" project_fs
      = (Returned (failure ("Source is a directory, use rename_directory instead: "
                            +:+ "/proj/sub")), project_fs))
  /\ (delete_directory call_ok1 call_ok1 "/proj/a.py" true project_fs
      = (Returned (failure ("Path is not a directory: " +:+ "/proj/a.py")),
         project_fs)
      /\ copy_directory call_ok "/proj/a.py" "/x" project_fs
         = (Returned (failure ("Source is not a directory: " +:+ "/proj/a.py")),
            project_fs)
      /\ move_directory call_ok "/proj/a.py" "/x" project_fs
         = (Returned (failure ("Source is not a directory: " +:+ "/proj/a.py")),
            project_fs)
      /\ rename_directory call_ok "/proj/a.py" "/x" project_fs
         = (Returned (failure ("Source is not a directory: " +:+ "/proj/a.py")),
            project_fs)).
Proof.
  split.
  - apply (proj1 (variants_refuse_the_other_kind call_ok1 call_ok1 call_ok call_ok
                    call_ok call_ok project_fs "/proj/sub" "/x" true)).
    reflexivity.
  - apply (proj2 (variants_refuse_the_other_kind call_ok1 call_ok1 call_ok call_ok
                    call_ok call_ok project_fs "/proj/a.py" "/x" true)
             "import os"); [discriminate|reflexivity].
Defined.

(** X14. [copy_directory] to a destination with no directory part (a bare
    name in the working directory) always fails: the parent of the
    destination is the empty path, which does not exist, so [os.makedirs] is
    called on the empty path and raises. The reply holds the text of the
    error 2 on the empty path, nothing is copied and the filesystem is left
    as it is. [move_directory], which tests the parent for emptiness first,
    hands the same arguments to [shutil.move]. *)
Theorem copy_directory_needs_a_directory_part
    (shutil_copytree shutil_move : string -> string -> IO unit)
    (fs : filesystem) (source destination : string) :
  os_path.isdir fs source = true ->
  posixpath.dirname destination = EmptyString ->
  copy_directory shutil_copytree source destination fs
  = (Returned (failure ("[Errno 2] No such file or directory: "
                        +:+ quoted EmptyString)), fs)
  /\ move_directory shutil_move source destination fs
     = reply_of_call (directory_moved_reply source destination)
         (shutil_move source destination fs).
Proof.
  intros Hdir Hbare. pose proof (isdir_exists _ _ Hdir) as Hex.
  unfold copy_directory, move_directory. io_unfold.
  rewrite Hex, Hdir, Hbare. cbn. split; [done|].
  by destruct (shutil_move source destination fs) as [[u|e] fs1].
Qed.

Lemma copy_directory_needs_a_directory_part_witness :
  copy_directory call_ok "/proj/sub" "backup" project_fs
  = (Returned (failure ("[Errno 2] No such file or directory: "
                        +:+ quoted EmptyString)), project_fs)
  /\ move_directory call_ok "/proj/sub" "backup" project_fs
     = reply_of_call (directory_moved_reply "/proj/sub" "backup")
         (call_ok "/proj/sub" "backup" project_fs).
Proof.
  apply (copy_directory_needs_a_directory_part call_ok call_ok project_fs
           "/proj/sub" "backup"); reflexivity.
Defined.






(** ** No exception leaves the other tools *)

Ltac reply_shape :=
  repeat first
    [ by apply returns_only_ret
    | apply returns_only_try; [|intros ?]
    | apply returns_only_if
    | apply returns_only_bind; intros ? ].

Ltac caught := apply never_raises_try; intros ?; apply never_raises_ret.

Section OtherTools.

Variable fnmatchcase : string -> string -> bool.
Variable getcwd : string.
Variable re_search : string -> string -> outcome bool.
Variable subprocess_run : list string -> IO CompletedProcess.
Variable os_rmdir : string -> IO unit.
Variable shutil_rmtree : string -> IO unit.
Variable shutil_copy2 : string -> string -> IO unit.
Variable shutil_copytree : string -> string -> IO unit.
Variable shutil_move : string -> string -> IO unit.
Variable os_rename : string -> string -> IO unit.

Lemma delete_directory_shape p recursive :
  forall fs, exists r fs',
    delete_directory os_rmdir shutil_rmtree p recursive fs = (Returned r, fs')
    /\ (reports_success r || reports_failure r) = true.
Proof. apply returns_in; [caught|reply_shape]. Qed.

Lemma copy_file_shape s d :
  forall fs, exists r fs',
    copy_file shutil_copy2 s d fs = (Returned r, fs')
    /\ (reports_success r || reports_failure r) = true.
Proof. apply returns_in; [caught|reply_shape]. Qed.

Lemma copy_directory_shape s d :
  forall fs, exists r fs',
    copy_directory shutil_copytree s d fs = (Returned r, fs')
    /\ (reports_success r || reports_failure r) = true.
Proof. apply returns_in; [caught|reply_shape]. Qed.

Lemma move_file_shape s d :
  forall fs, exists r fs',
    move_file shutil_move s d fs = (Returned r, fs')
    /\ (reports_success r || reports_failure r) = true.
Proof. apply returns_in; [caught|reply_shape]. Qed.

Lemma move_directory_shape s d :
  forall fs, exists r fs',
    move_directory shutil_move s d fs = (Returned r, fs')
    /\ (reports_success r || reports_failure r) = true.
Proof. apply returns_in; [caught|reply_shape]. Qed.

Lemma rename_file_shape s n :
  forall fs, exists r fs',
    rename_file os_rename s n fs = (Returned r, fs')
    /\ (reports_success r || reports_failure r) = true.
Proof. apply returns_in; [caught|reply_shape]. Qed.

Lemma rename_directory_shape s n :
  forall fs, exists r fs',
    rename_directory os_rename s n fs = (Returned r, fs')
    /\ (reports_success r || reports_failure r) = true.
Proof. apply returns_in; [caught|reply_shape]. Qed.

Lemma search_in_files_shape d p fp :
  forall fs, exists r fs',
    search_in_files fnmatchcase re_search d p fp fs = (Returned r, fs')
    /\ (reports_success r || reports_failure r) = true.
Proof. apply returns_in; [caught|reply_shape]. Qed.

Lemma run_tests_shape d p :
  forall fs, exists r fs',
    run_tests subprocess_run d p fs = (Returned r, fs')
    /\ (has_field "returncode" r || bare_error r) = true.
Proof. apply returns_in; [caught|reply_shape]. Qed.

Lemma lint_code_shape p :
  forall fs, exists r fs',
    lint_code subprocess_run p fs = (Returned r, fs')
    /\ (has_field "returncode" r || bare_error r) = true.
Proof. apply returns_in; [caught|reply_shape]. Qed.

Lemma update_readme_shape d sections :
  forall fs, exists r fs',
    update_readme getcwd d sections fs = (Returned r, fs')
    /\ (reports_success r || structured_error r || bare_error r) = true.
Proof. apply returns_in; [caught|reply_shape]. Qed.

End OtherTools.

(** X16. No exception leaves any of the other tools, whatever the library
    calls, the subprocess and the regular-expression search do: each returns
    a reply for every input and filesystem state. The delete, copy, move and
    rename tools and [search_in_files] reply with a record whose success
    indicator is true, or false beside a text under [error]; [run_tests] and
    [lint_code] with the record of the run, or a record with a text under
    [error] and no success indicator; and [update_readme] with a success
    record, a failure record with a message, or a bare [error] record. Each
    of these tools wraps its whole body in a [try] that catches
    [Exception]. *)
Theorem other_tools_never_raise
    (fnmatchcase : string -> string -> bool) (getcwd : string)
    (re_search : string -> string -> outcome bool)
    (subprocess_run : list string -> IO CompletedProcess)
    (os_rmdir shutil_rmtree : string -> IO unit)
    (shutil_copy2 shutil_copytree shutil_move os_rename : string -> string -> IO unit)
    (fs : filesystem) :
  (forall p recursive, exists r fs',
     delete_directory os_rmdir shutil_rmtree p recursive fs = (Returned r, fs')
     /\ (reports_success r || reports_failure r) = true)
  /\ (forall s d, exists r fs',
        copy_file shutil_copy2 s d fs = (Returned r, fs')
        /\ (reports_success r || reports_failure r) = true)
  /\ (forall s d, exists r fs',
        copy_directory shutil_copytree s d fs = (Returned r, fs')
        /\ (reports_success r || reports_failure r) = true)
  /\ (forall s d, exists r fs',
        move_file shutil_move s d fs = (Returned r, fs')
        /\ (reports_success r || reports_failure r) = true)
  /\ (forall s d, exists r fs',
        move_directory shutil_move s d fs = (Returned r, fs')
        /\ (reports_success r || reports_failure r) = true)
  /\ (forall s n, exists r fs',
        rename_file os_rename s n fs = (Returned r, fs')
        /\ (reports_success r || reports_failure r) = true)
  /\ (forall s n, exists r fs',
        rename_directory os_rename s n fs = (Returned r, fs')
        /\ (reports_success r || reports_failure r) = true)
  /\ (forall d p fp, exists r fs',
        search_in_files fnmatchcase re_search d p fp fs = (Returned r, fs')
        /\ (reports_success r || reports_failure r) = true)
  /\ (forall d p, exists r fs',
        run_tests subprocess_run d p fs = (Returned r, fs')
        /\ (has_field "returncode" r || bare_error r) = true)
  /\ (forall p, exists r fs',
        lint_code subprocess_run p fs = (Returned r, fs')
        /\ (has_field "returncode" r || bare_error r) = true)
  /\ (forall d sections, exists r fs',
        update_readme getcwd d sections fs = (Returned r, fs')
        /\ (reports_success r || structured_error r || bare_error r) = true).
Proof.
  repeat split; intros.
  - apply delete_directory_shape.
  - apply copy_file_shape.
  - apply copy_directory_shape.
  - apply move_file_shape.
  - apply move_directory_shape.
  - apply rename_file_shape.
  - apply rename_directory_shape.
  - apply search_in_files_shape.
  - apply run_tests_shape.
  - apply lint_code_shape.
  - apply update_readme_shape.
Qed.

(** ** The project tree *)

Lemma no_sep_not_absolute x :
  str.contains posixpath.sep x = false -> str.startswith x "/" = false.
Proof.
  destruct x as [|c x]; [done|]. cbn [str.contains].
  destruct (Ascii.eqb_spec posixpath.sep c) as [Heq|Hc]; [done|]. intros _.
  unfold str.startswith. cbn [String.prefix]. by destruct (ascii_dec "/" c).
Qed.

Lemma join_length a b :
  str.contains posixpath.sep b = false ->
  (String.length a + String.length b <= String.length (posixpath.join a b))%nat.
Proof.
  intros Hb. unfold posixpath.join. rewrite (no_sep_not_absolute _ Hb).
  destruct (_ || _); rewrite !length_append; cbn [String.length]; lia.
Qed.

Lemma basename_join d x :
  d <> EmptyString -> str.contains posixpath.sep x = false ->
  posixpath.basename (posixpath.join d x) = x.
Proof.
  intros Hd Hx. destruct (split_join_name d x Hd Hx) as (Hsplit & _ & _).
  rewrite split_dirname_basename in Hsplit. by injection Hsplit.
Qed.

Lemma listdir_entry fs d dironly n :
  n ∈ glob._listdir fs d dironly -> is_Some (fs !! posixpath.join d n).
Proof.
  unfold glob._listdir. intros Hn.
  apply list_elem_of_omap in Hn as ([k e] & Hk & Hn).
  apply elem_of_map_to_list in Hk.
  destruct (negb (String.eqb (posixpath.basename k) EmptyString)); [|done].
  destruct (String.eqb_spec (posixpath.join d (posixpath.basename k)) k)
    as [Heq|]; [|done].
  cbn [andb] in Hn. destruct (_ || _); [|done]. injection Hn as <-.
  rewrite Heq. by exists e.
Qed.

Lemma longest_path_bound fs k :
  is_Some (fs !! k) -> (String.length k <= longest_path fs)%nat.
Proof.
  intros [e He]. unfold longest_path. apply max_list_elem_of_le.
  apply list_elem_of_fmap. exists (k, e). split; [done|].
  by apply elem_of_map_to_list.
Qed.

(** An entry of a directory lies at a longer path, which the longest path
    bounds. *)
Lemma listdir_deeper fs d dironly n :
  n ∈ glob._listdir fs d dironly ->
  (String.length d < String.length (posixpath.join d n) <= longest_path fs)%nat.
Proof.
  intros Hn. pose proof (listdir_entry _ _ _ _ Hn) as Hentry.
  apply listdir_names in Hn as [Hne Hsep].
  pose proof (join_length d n Hsep) as Hlen.
  split; [|by apply longest_path_bound].
  destruct n; [done|]. cbn [String.length] in Hlen. lia.
Qed.

Lemma os_listdir_returned fs path items :
  os_listdir fs path = Returned items ->
  path <> EmptyString /\ fs !! path = Some Dir
  /\ items = glob._listdir fs path false.
Proof.
  unfold os_listdir. destruct (String.eqb_spec path EmptyString) as [|Hne]; [done|].
  destruct (fs !! path) as [[c|]|]; try done. by intros [= <-].
Qed.

Lemma sorted_elem x l : x ∈ sorted l <-> x ∈ l.
Proof. unfold sorted. by rewrite merge_sort_Permutation. Qed.

Lemma name_le_total : Total name_le.
Proof. intros a b. apply String.leb_total. Qed.

Lemma names_sorted_spec l : Sorted name_le l -> names_sorted l = true.
Proof.
  induction 1 as [|a l Hs IH Hhd]; [done|].
  destruct l as [|b l]; [done|].
  change (names_sorted (a :: b :: l))
    with (String.leb a b && names_sorted (b :: l)).
  apply HdRel_inv in Hhd. unfold name_le in Hhd. by rewrite Hhd, IH.
Qed.

Lemma sorted_names_sorted l : names_sorted (sorted l) = true.
Proof. apply names_sorted_spec, Sorted_merge_sort, name_le_total. Qed.

Lemma outcome_map_each {A B} (f : A -> outcome B) l ys :
  outcome_map f l = Returned ys -> Forall2 (fun x y => f x = Returned y) l ys.
Proof.
  revert ys. induction l as [|x l IH]; intros ys.
  - intros [= <-]. constructor.
  - cbn [outcome_map]. destruct (f x) as [y|e] eqn:Hx; [|done].
    destruct (outcome_map f l) as [ys'|e]; [|done].
    intros [= <-]. constructor; [done|by apply IH].
Qed.

Lemma Forall2_impl_in {A B} (P Q : A -> B -> Prop) (l : list A) (k : list B) :
  Forall2 P l k -> (forall x y, x ∈ l -> P x y -> Q x y) -> Forall2 Q l k.
Proof.
  induction 1 as [|x y l k Hxy _ IH]; intros HPQ; constructor.
  - apply HPQ; [apply list_elem_of_here|done].
  - apply IH. intros x' y' Hx'. apply HPQ. by apply list_elem_of_further.
Qed.

Lemma tree_ok_name t :
  tree_ok t = true -> tree_name t = posixpath.basename (tree_path t).
Proof.
  destruct t as [n p l|n p l cs]; cbn [tree_ok tree_name tree_path].
  - by intros ->%String.eqb_eq.
  - intros [[Hn _]%andb_true_iff _]%andb_true_iff. by apply String.eqb_eq.
Qed.

(** The entries [build_tree] descends into. *)
Lemma listed_entries fs path x :
  path <> EmptyString ->
  x ∈ sorted (List.filter listed (glob._listdir fs path false)) ->
  listed x = true
  /\ x ∈ glob._listdir fs path false
  /\ posixpath.basename (posixpath.join path x) = x.
Proof.
  intros Hne Hx. apply sorted_elem, list_elem_of_In, filter_In in Hx as [Hx Hl].
  apply list_elem_of_In in Hx. split; [done|]. split; [done|].
  apply basename_join; [done|]. by apply listdir_names in Hx as [_ ?].
Qed.

Lemma build_tree_layout text depth :
  forall fs path level t,
    build_tree text depth fs path level = Returned t ->
    tree_ok t = true /\ tree_path t = path /\ tree_level t = level.
Proof.
  induction depth as [|depth IH]; intros fs path level t; cbn [build_tree];
    [done|].
  destruct (os_path_isfile fs path);
    [intros [= <-]; cbn; by rewrite String.eqb_refl|].
  destruct (os_listdir fs path) as [items|e] eqn:Hitems; [|done].
  apply os_listdir_returned in Hitems as (Hne & Hdir & ->).
  destruct (outcome_map _ _) as [children|e] eqn:Hmap; [|done].
  intros [= <-]. split; [|done].
  apply outcome_map_each in Hmap.
  assert (Forall2
            (fun x c => tree_ok c = true /\ tree_level c = level + 1
                        /\ tree_path c = posixpath.join path x
                        /\ tree_name c = x /\ listed x = true)
            (sorted (List.filter listed (glob._listdir fs path false)))
            children) as Hall.
  { eapply Forall2_impl_in; [exact Hmap|].
    intros x c Hx Hc. destruct (IH _ _ _ _ Hc) as (Hok & Hpath & Hlevel).
    destruct (listed_entries fs path x Hne Hx) as (Hl & _ & Hbase).
    split; [done|]. split; [done|]. split; [done|]. split; [|done].
    by rewrite (tree_ok_name _ Hok), Hpath. }
  cbn [tree_ok]. rewrite String.eqb_refl. cbn [andb].
  assert (map tree_name children
          = sorted (List.filter listed (glob._listdir fs path false))) as ->.
  { clear Hmap. induction Hall as [|x c xs cs (_ & _ & _ & Hn & _) _ IHall];
      [done|]. cbn [map]. by rewrite Hn, IHall. }
  rewrite sorted_names_sorted. cbn [andb].
  clear Hmap. induction Hall as [|x c xs cs (Hok & Hlv & Hp & Hn & Hl) _ IHall];
    [done|].
  cbn [forallb]. rewrite IHall, Hok, Hlv, Hp, Hn, Hl, Z.eqb_refl, String.eqb_refl.
  done.
Qed.

(** At the longest path there is nothing below. *)
Lemma no_entries_at_the_bottom fs path :
  (longest_path fs <= String.length path)%nat ->
  glob._listdir fs path false = [].
Proof.
  intros Hlong. destruct (glob._listdir fs path false) as [|x l] eqn:Hl; [done|].
  assert (x ∈ glob._listdir fs path false) as Hx
    by (rewrite Hl; apply list_elem_of_here).
  apply listdir_deeper in Hx. lia.
Qed.

Lemma isfile_of_file fs path c :
  path <> EmptyString -> fs !! path = Some (File c) ->
  os_path_isfile fs path = true.
Proof.
  intros Hne Hfile. unfold os_path_isfile.
  by rewrite (eqb_empty_false _ Hne), Hfile.
Qed.

(** The children of a directory node are the entries listed, in order. *)
Lemma build_tree_children text depth fs path level n p l children :
  build_tree text depth fs path level = Returned (DirNode n p l children) ->
  map tree_name children
  = sorted (List.filter listed (glob._listdir fs path false)).
Proof.
  destruct depth as [|depth]; cbn [build_tree]; [done|].
  destruct (os_path_isfile fs path); [done|].
  destruct (os_listdir fs path) as [items|e] eqn:Hitems; [|done].
  apply os_listdir_returned in Hitems as (Hne & Hdir & ->).
  destruct (outcome_map _ _) as [cs|e] eqn:Hmap; [|done].
  intros [= _ _ _ <-]. apply outcome_map_each in Hmap.
  assert (Forall2 (fun x c => tree_name c = x)
            (sorted (List.filter listed (glob._listdir fs path false))) cs)
    as Hall.
  { eapply Forall2_impl_in; [exact Hmap|]. intros x c Hx Hc.
    destruct (build_tree_layout _ _ _ _ _ _ Hc) as (Hok & Hpath & _).
    destruct (listed_entries fs path x Hne Hx) as (_ & _ & Hbase).
    by rewrite (tree_ok_name _ Hok), Hpath. }
  clear Hmap. induction Hall as [|x c xs cs' Hn _ IHall]; [done|].
  cbn [map]. by rewrite Hn, IHall.
Qed.

(** A loop over calls that each return when [l] levels are enough for
    their result, and raise [e] otherwise, returns when [l] levels are
    enough for all the results, and raises [e] otherwise. *)
Lemma outcome_map_limited {A B} (f : A -> outcome B) (g : B -> nat) (e : exn)
    (l : nat) (xs : list A) (ts : list B) :
  Forall2 (fun x t => f x = if (g t <=? l)%nat then Returned t else Raised e)
    xs ts ->
  outcome_map f xs
  = if (max_list (map g ts) <=? l)%nat then Returned ts else Raised e.
Proof.
  induction 1 as [|x t xs ts Hx _ IH]; [done|].
  cbn [outcome_map map].
  change (max_list (g t :: map g ts)) with (Nat.max (g t) (max_list (map g ts))).
  rewrite Hx, IH.
  destruct (Nat.leb_spec (g t) l) as [Ht|Ht];
    destruct (Nat.leb_spec (max_list (map g ts)) l) as [Hts|Hts];
    destruct (Nat.leb_spec (Nat.max (g t) (max_list (map g ts))) l) as [Hm|Hm];
    try done; lia.
Qed.

Lemma Forall2_choice {A B} (P : A -> B -> Prop) (xs : list A) :
  (forall x, x ∈ xs -> exists t, P x t) -> exists ts, Forall2 P xs ts.
Proof.
  induction xs as [|x xs IH]; intros H; [by exists []|].
  destruct (H x) as [t Ht]; [apply list_elem_of_here|].
  destruct IH as [ts Hts].
  { intros y Hy. apply H. by apply list_elem_of_further. }
  exists (t :: ts). by constructor.
Qed.

(** Every entry of the filesystem has its tree, which [build_tree] returns
    when the recursion may go as deep as the tree, and in place of which it
    raises [RecursionError] when it may not. *)
Lemma build_tree_limit text n :
  forall fs path level,
    path <> EmptyString -> is_Some (fs !! path) ->
    (longest_path fs <= n + String.length path)%nat ->
    exists t, forall depth,
      build_tree text depth fs path level
      = if (tree_depth t <=? depth)%nat then Returned t
        else Raised (RecursionError text).
Proof.
  induction n as [|n IH]; intros fs path level Hne [e He] Hlong.
  all: destruct e as [c|];
    [exists (FileNode (posixpath.basename path) path level);
     intros [|depth]; cbn [build_tree tree_depth]; [done|];
     by rewrite (isfile_of_file _ _ _ Hne He)|].
  all: assert (os_path_isfile fs path = false) as Hfile
    by (unfold os_path_isfile; rewrite He; apply andb_false_r).
  all: assert (os_listdir fs path = Returned (glob._listdir fs path false))
    as Hlist by (unfold os_listdir; by rewrite (eqb_empty_false _ Hne), He).
  all: assert (forall x,
      x ∈ sorted (List.filter listed (glob._listdir fs path false)) ->
      exists t, forall depth,
        build_tree text depth fs (posixpath.join path x) (level + 1)
        = if (tree_depth t <=? depth)%nat then Returned t
          else Raised (RecursionError text)) as Heach.
  { intros x Hx. rewrite (no_entries_at_the_bottom fs path) in Hx by lia.
    by apply elem_of_nil in Hx. }
  2: { intros x Hx. destruct (listed_entries fs path x Hne Hx) as (_ & Hin & _).
       pose proof (listdir_deeper _ _ _ _ Hin) as Hdeep.
       apply IH; [|by eapply listdir_entry|lia].
       apply listdir_names in Hin as [_ Hsep].
       by destruct (split_join_name path x Hne Hsep) as (_ & _ & ?). }
  all: apply Forall2_choice in Heach as [ts Hts];
    exists (DirNode (posixpath.basename path) path level ts);
    intros [|depth]; cbn [build_tree tree_depth]; [done|];
    rewrite Hfile, Hlist;
    rewrite (outcome_map_limited _ tree_depth (RecursionError text)
               depth _ ts);
    [|eapply Forall2_impl; [exact Hts|]; intros x t Ht; apply Ht];
    change (S (max_list (map tree_depth ts)) <=? S depth)%nat
      with (max_list (map tree_depth ts) <=? depth)%nat;
    by destruct (_ <=? _)%nat.
Qed.

(** A tree of [d] levels makes a value that nests [2 * d] deep, or one
    less: a dict and the list of its children per directory, a dict for a
    file. *)
Lemma tree_json_depth_bound n :
  forall t, (tree_depth t <= n)%nat ->
            (2 * tree_depth t - 1 <= json_depth (tree_json t)
             <= 2 * tree_depth t)%nat.
Proof.
  induction n as [|n IH]; intros [nm p l|nm p l children] Ht;
    cbn [tree_depth] in Ht; try lia.
  - cbn. lia.
  - assert (json_depth (tree_json (DirNode nm p l children))
            = S (S (max_list (map json_depth (map tree_json children))))) as ->.
    { cbn [tree_json json_depth map]. simpl max_list. lia. }
    cbn [tree_depth].
    assert (Forall (fun c => (2 * tree_depth c - 1 <= json_depth (tree_json c)
                              <= 2 * tree_depth c)%nat) children) as Hall.
    { apply Forall_forall. intros c Hc. apply IH.
      assert (tree_depth c <= max_list (map tree_depth children))%nat; [|lia].
      apply max_list_elem_of_le, list_elem_of_fmap. by exists c. }
    clear Ht IH. induction Hall as [|c cs Hc _ IHcs]; [cbn; lia|].
    cbn [map].
    change (max_list (tree_depth c :: map tree_depth cs))
      with (Nat.max (tree_depth c) (max_list (map tree_depth cs))).
    change (max_list (json_depth (tree_json c)
                        :: map json_depth (map tree_json cs)))
      with (Nat.max (json_depth (tree_json c))
              (max_list (map json_depth (map tree_json cs)))).
    lia.
Qed.

Lemma tree_json_depth t :
  (2 * tree_depth t - 1 <= json_depth (tree_json t) <= 2 * tree_depth t)%nat.
Proof. by apply (tree_json_depth_bound (tree_depth t)). Qed.

(** X17. The layout of the tree [get_project_structure] returns. The root
    is at the directory asked for, on level 0. Every node is named by the
    last component of its path; the children of a directory are one level
    below it, at the directory's path joined with their name, listed in the
    order of their names (code point by code point); and no node below the
    root is hidden (a name that starts with a dot) or a [__pycache__]. *)
Theorem project_tree_layout (recursion_limit : nat) (recursion_text : string)
    (fs : filesystem) (directory : string) (t : tree) :
  get_project_structure recursion_limit recursion_text directory fs
  = (Returned (Structure t), fs) ->
  tree_ok t = true /\ tree_path t = directory /\ tree_level t = 0.
Proof.
  unfold get_project_structure. io_unfold.
  destruct (build_tree recursion_text recursion_limit fs directory 0)
    as [t'|e] eqn:Hbuild; [|done].
  intros [= <-]. by eapply build_tree_layout.
Qed.

Lemma project_tree_layout_witness :
  tree_ok tree_of_p = true /\ tree_path tree_of_p = "/p"
  /\ tree_level tree_of_p = 0.
Proof.
  apply (project_tree_layout 1000 "maximum recursion depth exceeded" tree_fs
           "/p" tree_of_p).
  vm_compute. reflexivity.
Defined.

(** X18. [get_project_tree] on a directory, in a filesystem whose
    directories can all be listed. The directory has its tree: a directory
    node named by the last component of the path given (the empty name when
    the path ends in a slash), whose children are the entries of the
    directory that are neither hidden nor a [__pycache__], each once, in the
    order of their names. [build_tree] returns it when the interpreter lets
    the recursion go as deep as the tree has levels, and raises
    [RecursionError] otherwise, which [get_project_structure] turns into an
    error record with the text of the exception. The tool then hands the
    tree, or the error record, to [json.dumps], with no [try] around it: the
    reply is the tree when the interpreter can also encode a value that
    nests as deep as the tree's (twice the levels of the tree, or one less),
    and [RecursionError] leaves the tool when it cannot. The filesystem is
    not changed. *)
Theorem project_tree_of_a_directory (recursion_limit : nat)
    (recursion_text : string) (dumps_limit : nat)
    (fs : filesystem) (directory : string) :
  os_path.isdir fs directory = true ->
  let tool := get_project_tree recursion_limit recursion_text dumps_limit in
  exists children,
    let t := DirNode (posixpath.basename directory) directory 0 children in
    map tree_name children
    = sorted (List.filter listed (glob._listdir fs directory false))
    /\ tree_ok t = true
    /\ (forall depth,
          build_tree recursion_text depth fs directory 0
          = if (tree_depth t <=? depth)%nat then Returned t
            else Raised (RecursionError recursion_text))
    /\ get_project_structure recursion_limit recursion_text directory fs
       = (Returned (if (tree_depth t <=? recursion_limit)%nat then Structure t
                    else StructureError recursion_text), fs)
    /\ tool directory fs
       = (json_dumps dumps_limit
            (if (tree_depth t <=? recursion_limit)%nat then tree_json t
             else JObj [("error", JStr recursion_text)]), fs)
    /\ (2 * tree_depth t - 1 <= json_depth (tree_json t) <= 2 * tree_depth t)%nat
    /\ ((tree_depth t <= recursion_limit)%nat ->
        (json_depth (tree_json t) <= dumps_limit)%nat ->
        tool directory fs = (Returned (Dumps (tree_json t)), fs))
    /\ ((tree_depth t <= recursion_limit)%nat ->
        (dumps_limit < json_depth (tree_json t))%nat ->
        tool directory fs = (Raised (RecursionError RECURSION_IN_DUMPS), fs))
    /\ ((recursion_limit < tree_depth t)%nat -> (1 <= dumps_limit)%nat ->
        tool directory fs
        = (Returned (Dumps (JObj [("error", JStr recursion_text)])), fs)).
Proof.
  intros Hdir tool. pose proof Hdir as [Hne Hentry]%isdir_true.
  destruct (build_tree_limit recursion_text (longest_path fs) fs directory 0 Hne)
    as [t Ht]; [by eexists|lia|].
  assert (build_tree recursion_text (tree_depth t) fs directory 0 = Returned t)
    as Hbuild.
  { rewrite Ht. by rewrite Nat.leb_refl. }
  assert (exists children,
            t = DirNode (posixpath.basename directory) directory 0 children)
    as [children ->].
  { revert Hbuild. destruct (tree_depth t) as [|d]; cbn [build_tree]; [done|].
    unfold os_path_isfile, os_listdir.
    rewrite Hentry, (eqb_empty_false _ Hne). cbn [negb andb].
    destruct (outcome_map _ _); [|done]. intros [= <-]. by eexists. }
  exists children. cbv zeta.
  set (t := DirNode (posixpath.basename directory) directory 0 children) in *.
  assert (get_project_structure recursion_limit recursion_text directory fs
          = (Returned (if (tree_depth t <=? recursion_limit)%nat then Structure t
                       else StructureError recursion_text), fs)) as Hstruct.
  { unfold get_project_structure. io_unfold. rewrite Ht.
    by destruct (_ <=? _)%nat. }
  assert (tool directory fs
          = (json_dumps dumps_limit
               (if (tree_depth t <=? recursion_limit)%nat then tree_json t
                else JObj [("error", JStr recursion_text)]), fs)) as Htool.
  { unfold tool, get_project_tree. io_unfold. rewrite Hdir. cbn [negb].
    rewrite Hstruct. unfold of_outcome. by destruct (_ <=? _)%nat. }
  split; [by eapply build_tree_children|].
  split; [by eapply build_tree_layout|].
  split; [done|]. split; [done|]. split; [done|].
  split; [apply tree_json_depth|].
  split; [|split].
  - intros Hdepth Hjson. rewrite Htool. unfold json_dumps.
    destruct (Nat.leb_spec (tree_depth t) recursion_limit); [|lia].
    by destruct (Nat.leb_spec (json_depth (tree_json t)) dumps_limit); [|lia].
  - intros Hdepth Hjson. rewrite Htool. unfold json_dumps.
    destruct (Nat.leb_spec (tree_depth t) recursion_limit); [|lia].
    by destruct (Nat.leb_spec (json_depth (tree_json t)) dumps_limit); [lia|].
  - intros Hdepth Hjson. rewrite Htool. unfold json_dumps.
    destruct (Nat.leb_spec (tree_depth t) recursion_limit); [lia|].
    change (json_depth (JObj [("error", JStr recursion_text)])) with 1%nat.
    by destruct (Nat.leb_spec 1 dumps_limit); [|lia].
Qed.

Lemma project_tree_of_a_directory_witness :
  let text := "maximum recursion depth exceeded" in
  let tool := get_project_tree 1000 text 500 in
  exists children,
    let t := DirNode (posixpath.basename "/p") "/p" 0 children in
    map tree_name children
    = sorted (List.filter listed (glob._listdir tree_fs "/p" false))
    /\ tree_ok t = true
    /\ (forall depth,
          build_tree text depth tree_fs "/p" 0
          = if (tree_depth t <=? depth)%nat then Returned t
            else Raised (RecursionError text))
    /\ get_project_structure 1000 text "/p" tree_fs
       = (Returned (if (tree_depth t <=? 1000)%nat then Structure t
                    else StructureError text), tree_fs)
    /\ tool "/p" tree_fs
       = (json_dumps 500
            (if (tree_depth t <=? 1000)%nat then tree_json t
             else JObj [("error", JStr text)]), tree_fs)
    /\ (2 * tree_depth t - 1 <= json_depth (tree_json t) <= 2 * tree_depth t)%nat
    /\ ((tree_depth t <= 1000)%nat ->
        (json_depth (tree_json t) <= 500)%nat ->
        tool "/p" tree_fs = (Returned (Dumps (tree_json t)), tree_fs))
    /\ ((tree_depth t <= 1000)%nat ->
        (500 < json_depth (tree_json t))%nat ->
        tool "/p" tree_fs = (Raised (RecursionError RECURSION_IN_DUMPS), tree_fs))
    /\ ((1000 < tree_depth t)%nat -> (1 <= 500)%nat ->
        tool "/p" tree_fs
        = (Returned (Dumps (JObj [("error", JStr text)])), tree_fs)).
Proof.
  apply (project_tree_of_a_directory 1000 "maximum recursion depth exceeded"
           500 tree_fs "/p").
  reflexivity.
Defined.

(** The sample directory, three levels deep: with room for three nested
    calls and for a value that nests five deep the reply is the tree; with
    room for two calls it is the error record of [get_project_structure];
    and with room for a value that nests four deep [RecursionError] leaves
    the tool. *)
Example project_tree_sample :
  let text := "maximum recursion depth exceeded" in
  get_project_structure 3 text "/p" tree_fs
  = (Returned (Structure tree_of_p), tree_fs)
  /\ sorted ["b.py"; "sub"; "a.py"; "Z"] = ["Z"; "a.py"; "b.py"; "sub"]
  /\ tree_depth tree_of_p = 3%nat
  /\ json_depth (tree_json tree_of_p) = 5%nat
  /\ get_project_tree 3 text 5 "/p" tree_fs
     = (Returned (Dumps (tree_json tree_of_p)), tree_fs)
  /\ get_project_tree 2 text 5 "/p" tree_fs
     = (Returned (Dumps (JObj [("error", JStr text)])), tree_fs)
  /\ get_project_tree 3 text 4 "/p" tree_fs
     = (Raised (RecursionError RECURSION_IN_DUMPS), tree_fs).
Proof. repeat split; vm_compute; reflexivity. Qed.

(** ** [search_in_files] *)

Section Search.

Variable fnmatchcase : string -> string -> bool.
Variable re_search : string -> string -> outcome bool.

Lemma matching_lines_spec pattern lines :
  forall i ms,
    matching_lines re_search pattern i lines = Returned ms ->
    Forall (fun m => i < fst m
                     /\ lines !! Z.to_nat (fst m - i - 1) = Some (snd m)
                     /\ re_search pattern (snd m) = Returned true) ms
    /\ (forall idx line,
          lines !! idx = Some line -> re_search pattern line = Returned true ->
          (i + Z.of_nat idx + 1, line) ∈ ms)
    /\ StronglySorted Z.lt (map fst ms).
Proof.
  induction lines as [|line rest IH]; intros i ms.
  - intros [= <-]. split; [constructor|]. split; [|constructor].
    intros idx l Hl. by rewrite lookup_nil in Hl.
  - cbn [matching_lines].
    destruct (re_search pattern line) as [hit|e] eqn:Hhit; [|done].
    destruct (matching_lines re_search pattern (i + 1) rest) as [ms'|e] eqn:Hrest;
      [|done].
    destruct (IH _ _ Hrest) as (Hsound & Hcomplete & Hsorted).
    assert (Forall (fun m => i < fst m
                             /\ (line :: rest) !! Z.to_nat (fst m - i - 1)
                                = Some (snd m)
                             /\ re_search pattern (snd m) = Returned true) ms')
      as Hsound'.
    { eapply Forall_impl; [exact Hsound|]. intros [n l] (Hn & Hl & Hr).
      cbn [fst snd] in *. split; [lia|]. split; [|done].
      replace (Z.to_nat (n - i - 1)) with (S (Z.to_nat (n - (i + 1) - 1))) by lia.
      done. }
    assert (Forall (Z.lt (i + 1)) (map fst ms')) as Hbelow.
    { apply Forall_fmap. eapply Forall_impl; [exact Hsound|].
      intros m (Hn & _). exact Hn. }
    intros [= <-]. split; [|split].
    + destruct hit; [|done]. constructor; [|done]. cbn [fst snd].
      split; [lia|]. split; [|done].
      by replace (Z.to_nat (i + 1 - i - 1)) with O by lia.
    + intros idx l Hl Hr. destruct idx as [|idx].
      * injection Hl as <-. rewrite Hhit in Hr. injection Hr as ->.
        replace (i + Z.of_nat 0 + 1) with (i + 1) by lia. apply list_elem_of_here.
      * cbn in Hl. pose proof (Hcomplete idx l Hl Hr) as Hin.
        replace (i + Z.of_nat (S idx) + 1) with (i + 1 + Z.of_nat idx + 1) by lia.
        destruct hit; [by apply list_elem_of_further|done].
    + destruct hit; [|done]. cbn [map fst]. by constructor.
Qed.

Lemma matching_lines_matches pattern lines ms :
  matching_lines re_search pattern 0 lines = Returned ms ->
  matches_of_lines re_search pattern lines ms.
Proof.
  intros Hms. destruct (matching_lines_spec _ _ _ _ Hms) as (Hs & Hc & Hsorted).
  split; [|split; [|done]].
  - eapply Forall_impl; [exact Hs|]. intros [n l] (Hn & Hl & Hr).
    cbn [fst snd] in *. split; [lia|]. split; [|done].
    by replace (n - 1) with (n - 0 - 1) by lia.
  - intros idx l Hl Hr. by apply (Hc idx l Hl Hr).
Qed.

Lemma open_read_returned fs p text fs' :
  os.open_read p fs = (Returned text, fs') ->
  fs' = fs /\ exists c, fs !! p = Some (File c) /\ text = str.universal_newlines c.
Proof.
  unfold os.open_read. io_unfold.
  destruct (fs !! p) as [[c|]|]; try done. intros [= <- <-]. split; [done|].
  by exists c.
Qed.

(** One file adds nothing, or one entry with the matches of its lines. *)
Lemma search_file_spec pattern path fs :
  exists res,
    search_file re_search pattern path fs = (Returned res, fs)
    /\ (res = []
        \/ exists c ms,
             res = [(path, ms)] /\ ms <> []
             /\ fs !! path = Some (File c)
             /\ matches_of_lines re_search pattern
                  (str.splitlines (str.universal_newlines c)) ms).
Proof.
  unfold search_file. io_unfold.
  destruct (os.open_read path fs) as [[text|e] fs1] eqn:Hread.
  - apply open_read_returned in Hread as (-> & c & Hfile & ->).
    destruct (matching_lines re_search pattern 0 _) as [ms|e] eqn:Hms;
      [|eexists; split; [reflexivity|by left]].
    destruct ms as [|m ms]; [eexists; split; [reflexivity|by left]|].
    eexists. split; [reflexivity|]. right. exists c, (m :: ms).
    split; [done|]. split; [done|]. split; [done|].
    by apply matching_lines_matches.
  - apply open_read_keeps in Hread as ->. eexists. split; [reflexivity|by left].
Qed.

Lemma search_files_spec pattern file_pattern root files fs :
  root <> EmptyString ->
  (forall f, f ∈ files -> f ∈ glob._listdir fs root false) ->
  exists res,
    search_files fnmatchcase re_search pattern file_pattern root files fs
    = (Returned res, fs)
    /\ Forall (found_in fnmatchcase re_search fs pattern file_pattern) res.
Proof.
  intros Hroot. induction files as [|f files IH]; intros Hfiles.
  - exists []. by split.
  - cbn [search_files]. io_unfold.
    destruct IH as (more & Hmore & Hall).
    { intros g Hg. apply Hfiles. by apply list_elem_of_further. }
    destruct (fnmatchcase f file_pattern) eqn:Hmatch; cbn [negb].
    + destruct (search_file_spec pattern (posixpath.join root f) fs)
        as (found & -> & Hfound).
      rewrite Hmore. exists (found ++ more). split; [done|].
      apply Forall_app. split; [|done].
      destruct Hfound as [-> |(c & ms & -> & Hne & Hfile & Hms)]; [constructor|].
      constructor; [|constructor]. split; [done|]. cbn [fst snd]. split.
      * rewrite basename_join; [done|done|].
        assert (f ∈ glob._listdir fs root false) as Hf
          by (apply Hfiles; apply list_elem_of_here).
        by apply listdir_names in Hf as [_ ?].
      * by exists c.
    + rewrite Hmore. by exists more.
Qed.

Lemma os_walk_triples fuel :
  forall fs top root dirs files,
    (root, dirs, files) ∈ os_walk fuel fs top ->
    root <> EmptyString
    /\ forall f, f ∈ files -> f ∈ glob._listdir fs root false.
Proof.
  induction fuel as [|fuel IH]; intros fs top root dirs files; cbn [os_walk];
    destruct (os_listdir fs top) as [names|e] eqn:Hnames;
    try (by intros ?%elem_of_nil);
    apply os_listdir_returned in Hnames as (Hne & _ & ->);
    intros [Hhere|Hin]%elem_of_cons.
  - injection Hhere as -> _ ->. split; [done|].
    intros f Hf. by apply list_elem_of_In, filter_In in Hf as [?%list_elem_of_In _].
  - by apply elem_of_nil in Hin.
  - injection Hhere as -> _ ->. split; [done|].
    intros f Hf. by apply list_elem_of_In, filter_In in Hf as [?%list_elem_of_In _].
  - apply list_elem_of_In, in_flat_map in Hin as (d & _ & Hin).
    apply list_elem_of_In in Hin. exact (IH _ _ _ _ _ Hin).
Qed.

Lemma search_walk_spec pattern file_pattern walked fs :
  (forall root dirs files, (root, dirs, files) ∈ walked ->
     root <> EmptyString
     /\ forall f, f ∈ files -> f ∈ glob._listdir fs root false) ->
  exists res,
    search_walk fnmatchcase re_search pattern file_pattern walked fs
    = (Returned res, fs)
    /\ Forall (found_in fnmatchcase re_search fs pattern file_pattern) res.
Proof.
  induction walked as [|[[root dirs] files] walked IH]; intros Hwalked.
  - exists []. by split.
  - cbn [search_walk]. io_unfold.
    destruct (Hwalked root dirs files) as [Hroot Hfiles]; [apply list_elem_of_here|].
    destruct (search_files_spec pattern file_pattern root files fs Hroot Hfiles)
      as (found & -> & Hfound).
    destruct IH as (more & -> & Hmore).
    { intros r d f Hin. apply (Hwalked r d f). by apply list_elem_of_further. }
    exists (found ++ more). split; [done|]. apply Forall_app. by split.
Qed.

Lemma search_in_files_results directory pattern file_pattern fs :
  os_path.isdir fs directory = true ->
  exists results,
    search_in_files fnmatchcase re_search directory pattern file_pattern fs
    = (Returned (search_reply pattern file_pattern results), fs)
    /\ Forall (found_in fnmatchcase re_search fs pattern file_pattern) results.
Proof.
  intros Hdir. unfold search_in_files. io_unfold. rewrite Hdir. cbn [negb].
  destruct (search_walk_spec pattern file_pattern
              (os_walk (longest_path fs) fs directory) fs)
    as (results & -> & Hall).
  { intros root dirs files. apply os_walk_triples. }
  by exists results.
Qed.

(** A search that raises on every line finds nothing in any file. *)
Lemma search_file_of_a_bad_pattern pattern path fs :
  (forall line, exists e, re_search pattern line = Raised e) ->
  search_file re_search pattern path fs = (Returned [], fs).
Proof.
  intros Hbad. unfold search_file. io_unfold.
  destruct (os.open_read path fs) as [[text|e] fs1] eqn:Hread;
    pose proof (open_read_keeps _ _ _ _ Hread) as ->; [|done].
  destruct (str.splitlines text) as [|line rest]; [done|].
  cbn [matching_lines]. by destruct (Hbad line) as [e ->].
Qed.

Lemma search_walk_of_a_bad_pattern pattern file_pattern walked fs :
  (forall line, exists e, re_search pattern line = Raised e) ->
  search_walk fnmatchcase re_search pattern file_pattern walked fs
  = (Returned [], fs).
Proof.
  intros Hbad. induction walked as [|[[root dirs] files] walked IH]; [done|].
  cbn [search_walk]. io_unfold.
  assert (search_files fnmatchcase re_search pattern file_pattern root files fs
          = (Returned [], fs)) as ->.
  { induction files as [|f files IHf]; [done|]. cbn [search_files]. io_unfold.
    destruct (negb (fnmatchcase f file_pattern));
      rewrite ?(search_file_of_a_bad_pattern _ _ _ Hbad), IHf; done. }
  by rewrite IH.
Qed.

End Search.

(** X19. What a successful reply of [search_in_files] holds. The
    filesystem is not changed. Every entry of [results] names a regular file
    whose own name matches the file pattern and holds at least one match;
    each match is a line of the text read from the file (split as
    [str.splitlines] splits it) that the search accepts, under its number
    counted from 1; every line of the file that the search accepts is among
    the matches; the matches come by increasing line number; and [count] is
    the total number of matches. *)
Theorem search_results_are_matching_lines
    (fnmatchcase : string -> string -> bool)
    (re_search : string -> string -> outcome bool)
    (fs : filesystem) (directory pattern file_pattern : string)
    (r : reply) (fs' : filesystem) :
  search_in_files fnmatchcase re_search directory pattern file_pattern fs
  = (Returned r, fs') ->
  reports_success r = true ->
  fs' = fs
  /\ exists results,
       r = search_reply pattern file_pattern results
       /\ field "count" r
          = Some (JInt (Z.of_nat (list_sum (map (fun e => length (snd e)) results))))
       /\ Forall (found_in fnmatchcase re_search fs pattern file_pattern) results.
Proof.
  intros Hrun Hok.
  destruct (os_path.isdir fs directory) eqn:Hdir.
  - destruct (search_in_files_results fnmatchcase re_search directory pattern
                file_pattern fs Hdir) as (results & Hres & Hall).
    rewrite Hres in Hrun. injection Hrun as <- <-. split; [done|].
    by exists results.
  - revert Hrun. unfold search_in_files. io_unfold. rewrite Hdir. cbn [negb].
    intros [= <- _]. done.
Qed.

Lemma search_results_are_matching_lines_witness :
  tree_fs = tree_fs
  /\ exists results,
       search_reply "b" "*.py" [("/p/b.py", [(1, "b")])]
       = search_reply "b" "*.py" results
       /\ field "count" (search_reply "b" "*.py" [("/p/b.py", [(1, "b")])])
          = Some (JInt (Z.of_nat (list_sum (map (fun e => length (snd e)) results))))
       /\ Forall (found_in sample_fnmatch search_char tree_fs "b" "*.py") results.
Proof.
  apply (search_results_are_matching_lines sample_fnmatch search_char tree_fs
           "/p" "b" "*.py" (search_reply "b" "*.py" [("/p/b.py", [(1, "b")])])
           tree_fs); [vm_compute|]; reflexivity.
Defined.

(** X20. A pattern that does not compile is not reported. When the search
    raises on every line it is given, [search_in_files] on a directory
    replies with success, no result and a count of 0: the exception is caught
    with the errors of reading, file by file, and only logged. *)
Theorem bad_pattern_is_not_reported
    (fnmatchcase : string -> string -> bool)
    (re_search : string -> string -> outcome bool)
    (fs : filesystem) (directory pattern file_pattern : string) :
  (forall line, exists e, re_search pattern line = Raised e) ->
  os_path.isdir fs directory = true ->
  search_in_files fnmatchcase re_search directory pattern file_pattern fs
  = (Returned (search_reply pattern file_pattern []), fs)
  /\ reports_success (search_reply pattern file_pattern []) = true
  /\ field "count" (search_reply pattern file_pattern []) = Some (JInt 0).
Proof.
  intros Hbad Hdir. split; [|done].
  unfold search_in_files. io_unfold. rewrite Hdir. cbn [negb].
  by rewrite (search_walk_of_a_bad_pattern fnmatchcase re_search _ _ _ _ Hbad).
Qed.

Lemma bad_pattern_is_not_reported_witness :
  search_in_files sample_fnmatch search_fails "/p" "[" "*.py" tree_fs
  = (Returned (search_reply "[" "*.py" []), tree_fs)
  /\ reports_success (search_reply "[" "*.py" []) = true
  /\ field "count" (search_reply "[" "*.py" []) = Some (JInt 0).
Proof.
  apply (bad_pattern_is_not_reported sample_fnmatch search_fails tree_fs "/p"
           "[" "*.py").
  - intros line. by eexists.
  - reflexivity.
Defined.

Example search_sample :
  fst (search_in_files sample_fnmatch search_char "/p" "c" "*.py" tree_fs)
  = Returned (search_reply "c" "*.py" [("/p/sub/c.py", [(1, "c")])]).
Proof. vm_compute. reflexivity. Qed.

(** The walk of a directory does not depend on the bound of its depth, from
    the bound [search_in_files] gives it on. *)
Lemma os_walk_fuel f1 :
  forall f2 fs top,
    (longest_path fs <= f1 + String.length top)%nat ->
    (longest_path fs <= f2 + String.length top)%nat ->
    os_walk f1 fs top = os_walk f2 fs top.
Proof.
  assert (forall (f g : string -> list (string * list string * list string)) l,
            (forall x, x ∈ l -> f x = g x) -> flat_map f l = flat_map g l) as Hext.
  { intros f g l. induction l as [|x l IHl]; intros Hfg; [done|].
    cbn [flat_map]. rewrite (Hfg x) by apply list_elem_of_here.
    rewrite IHl; [done|]. intros y Hy. apply Hfg. by apply list_elem_of_further. }
  induction f1 as [|f1 IH]; intros f2 fs top H1 H2;
    destruct f2 as [|f2]; cbn [os_walk]; try done;
    destruct (os_listdir fs top) as [names|e] eqn:Hnames; try done;
    apply os_listdir_returned in Hnames as (Hne & Hdir & ->).
  - by rewrite (no_entries_at_the_bottom fs top) by lia.
  - by rewrite (no_entries_at_the_bottom fs top) by lia.
  - f_equal. apply Hext. intros d Hd.
    apply list_elem_of_In, filter_In in Hd as [Hd%list_elem_of_In _].
    apply listdir_deeper in Hd. apply IH; lia.
Qed.

(** ** [update_readme] *)

Lemma contains_app c a b :
  str.contains c (a +:+ b) = str.contains c a || str.contains c b.
Proof.
  induction a as [|d a IH]; [done|]. rewrite append_cons. cbn [str.contains].
  by destruct (Ascii.eqb c d).
Qed.

(** A text that was read holds no carriage return. *)
Lemma universal_newlines_no_cr s :
  str.contains str.CR (str.universal_newlines s) = false.
Proof.
  assert (forall n s, (String.length s <= n)%nat ->
                      str.contains str.CR (str.universal_newlines s) = false)
    as Hlen; [|by apply (Hlen (String.length s))].
  clear s. induction n as [|n IH]; intros s Hs.
  - destruct s; [done|cbn [String.length] in Hs; lia].
  - destruct s as [|c r]; [done|]. cbn [String.length] in Hs.
    cbn [str.universal_newlines].
    destruct (Ascii.eqb_spec c str.CR) as [->|Hc].
    + destruct r as [|d r']; [done|]. cbn [String.length] in Hs.
      destruct (Ascii.eqb d str.LF); cbn [str.contains];
        change (Ascii.eqb str.CR str.LF) with false; cbv iota;
        apply IH; cbn [String.length]; lia.
    + cbn [str.contains]. rewrite Ascii.eqb_sym.
      destruct (Ascii.eqb_spec c str.CR) as [|_]; [done|]. apply IH. lia.
Qed.

Lemma universal_newlines_twice s :
  str.universal_newlines (str.universal_newlines s) = str.universal_newlines s.
Proof. apply universal_newlines_id, universal_newlines_no_cr. Qed.

Lemma universal_newlines_nonempty s :
  s <> EmptyString -> str.universal_newlines s <> EmptyString.
Proof.
  destruct s as [|c r]; [done|]. intros _. cbn [str.universal_newlines].
  destruct (Ascii.eqb c str.CR); [|done].
  destruct r as [|d r']; [done|]. by destruct (Ascii.eqb d str.LF).
Qed.

Lemma get_file_content_reads fs path content :
  fs !! path = Some (File content) ->
  get_file_content path fs = (Returned (str.universal_newlines content), fs).
Proof.
  intros Hfile. unfold get_file_content, try_except.
  by rewrite (open_read_file _ _ _ Hfile).
Qed.

(** The README of a directory whose path does not end in a slash: its
    path names a file in that directory. *)
Lemma readme_path_ready fs project_dir :
  os_path.isdir fs project_dir = true ->
  str.endswith project_dir "/" = false ->
  let readme := posixpath.join project_dir DEFAULT_README_PATH in
  readme <> EmptyString
  /\ posixpath.basename readme <> EmptyString
  /\ os.parent_ready fs readme = true.
Proof.
  intros Hdir Hend readme. pose proof Hdir as [Hne Hd]%isdir_true.
  destruct (split_join_name project_dir DEFAULT_README_PATH Hne eq_refl)
    as (Hsplit & _ & Hreadme).
  destruct (no_trailing_sep project_dir Hne Hend) as [Hall Hstrip].
  unfold without_trailing_sep in Hsplit. rewrite Hall, Hstrip in Hsplit.
  split; [done|]. split.
  - unfold readme. by rewrite basename_join.
  - unfold os.parent_ready, posixpath.dirname, readme. rewrite Hsplit. cbn [fst].
    by rewrite Hdir, orb_true_r.
Qed.

Lemma write_file_content_ok fs p c :
  posixpath.basename p <> EmptyString ->
  fs !! p <> Some Dir ->
  os.parent_ready fs p = true ->
  write_file_content p c fs = (Returned true, <[p := File c]> fs).
Proof.
  intros Hb Hp Hr. unfold write_file_content. io_unfold.
  by rewrite (open_write_ok _ _ _ Hb Hp Hr).
Qed.

(** X21. [update_readme] with no README to keep. In a directory (whose
    path does not end in a slash) where nothing is at [README.md], the
    template is written under the name of the directory (the last component
    of its absolute path) and the reply says [created_new]; where an empty
    README is there, the same template is written over it and the reply says
    it was not new; where [README.md] is a directory, nothing is written and
    the reply reports failure. The sections asked for are not read in any of
    the three cases. *)
Theorem update_readme_writes_the_template (getcwd : string) (fs : filesystem)
    (project_dir : string) (sections : option (list string)) :
  os_path.isdir fs project_dir = true ->
  str.endswith project_dir "/" = false ->
  let readme := posixpath.join project_dir DEFAULT_README_PATH in
  let text :=
    readme_template (posixpath.basename (os_path.abspath getcwd project_dir)) in
  (fs !! readme = None ->
   update_readme getcwd project_dir sections fs
   = (Returned (readme_reply true readme), <[readme := File text]> fs))
  /\ (fs !! readme = Some (File EmptyString) ->
      update_readme getcwd project_dir sections fs
      = (Returned (readme_reply false readme), <[readme := File text]> fs))
  /\ (fs !! readme = Some Dir ->
      update_readme getcwd project_dir sections fs
      = (Returned readme_failed_reply, fs)).
Proof.
  intros Hdir Hend readme text.
  destruct (readme_path_ready fs project_dir Hdir Hend) as (Hne & Hb & Hready).
  fold readme in Hne, Hb, Hready.
  split; [|split]; intros Hreadme; unfold update_readme; io_unfold;
    rewrite Hdir; cbn [negb]; fold readme; unfold os_path_isfile;
    rewrite Hreadme, (eqb_empty_false _ Hne); cbn [negb andb orb].
  - fold text. rewrite (write_file_content_ok fs readme text Hb); [done| |done].
    by rewrite Hreadme.
  - rewrite (get_file_content_reads _ _ _ Hreadme).
    cbn [str.universal_newlines String.eqb orb]. fold text.
    rewrite (write_file_content_ok fs readme text Hb); [done| |done].
    by rewrite Hreadme.
  - fold text. unfold write_file_content, os.open_write. io_unfold.
    by rewrite (eqb_empty_false _ Hne), (eqb_empty_false _ Hb), Hreadme.
Qed.

Lemma update_readme_writes_the_template_witness :
  let readme := posixpath.join "/proj" DEFAULT_README_PATH in
  let text := readme_template (posixpath.basename (os_path.abspath "/" "/proj")) in
  (project_fs !! readme = None ->
   update_readme "/" "/proj" (Some ["Usage"]) project_fs
   = (Returned (readme_reply true readme), <[readme := File text]> project_fs))
  /\ (project_fs !! readme = Some (File EmptyString) ->
      update_readme "/" "/proj" (Some ["Usage"]) project_fs
      = (Returned (readme_reply false readme), <[readme := File text]> project_fs))
  /\ (project_fs !! readme = Some Dir ->
      update_readme "/" "/proj" (Some ["Usage"]) project_fs
      = (Returned readme_failed_reply, project_fs)).
Proof.
  apply (update_readme_writes_the_template "/" project_fs "/proj" (Some ["Usage"]));
    reflexivity.
Defined.

Lemma update_readme_existing getcwd fs project_dir sections content :
  os_path.isdir fs project_dir = true ->
  str.endswith project_dir "/" = false ->
  let readme := posixpath.join project_dir DEFAULT_README_PATH in
  fs !! readme = Some (File content) ->
  content <> EmptyString ->
  update_readme getcwd project_dir sections fs
  = (Returned (readme_reply false readme),
     <[readme := File (readme_update (str.universal_newlines content) sections)]> fs).
Proof.
  intros Hdir Hend readme Hreadme Hcontent.
  destruct (readme_path_ready fs project_dir Hdir Hend) as (Hne & Hb & Hready).
  fold readme in Hne, Hb, Hready.
  unfold update_readme. io_unfold. rewrite Hdir. cbn [negb]. fold readme.
  unfold os_path_isfile. rewrite Hreadme, (eqb_empty_false _ Hne).
  cbn [negb andb orb]. rewrite (get_file_content_reads _ _ _ Hreadme).
  rewrite (eqb_empty_false _ (universal_newlines_nonempty _ Hcontent)).
  fold (readme_update (str.universal_newlines content) sections).
  rewrite (write_file_content_ok fs readme _ Hb); [done| |done].
  by rewrite Hreadme.
Qed.

Lemma prefix_append a b : String.prefix a (a +:+ b) = true.
Proof.
  induction a as [|c a IH]; [by destruct b|]. rewrite append_cons.
  cbn [String.prefix]. by destruct (ascii_dec c c).
Qed.

Lemma prefix_refl a : String.prefix a a = true.
Proof.
  induction a as [|c a IH]; [done|]. cbn [String.prefix].
  by destruct (ascii_dec c c).
Qed.

(** X22. [update_readme] over a README that holds a text. The text is
    read (with every carriage return as a line feed) and written back; with
    no section asked for ([None] or an empty list) nothing is added, and
    otherwise the note is appended, with one line per section asked for. The
    text read is kept as the head of the new text, and the reply says the
    README was not new. *)
Theorem update_readme_keeps_the_text (getcwd : string) (fs : filesystem)
    (project_dir : string) (sections : option (list string)) (content : string) :
  os_path.isdir fs project_dir = true ->
  str.endswith project_dir "/" = false ->
  let readme := posixpath.join project_dir DEFAULT_README_PATH in
  let old := str.universal_newlines content in
  fs !! readme = Some (File content) ->
  content <> EmptyString ->
  update_readme getcwd project_dir sections fs
  = (Returned (readme_reply false readme),
     <[readme := File (readme_update old sections)]> fs)
  /\ str.startswith (readme_update old sections) old = true
  /\ (given_sections sections = [] -> readme_update old sections = old)
  /\ (Forall (fun s => str.contains str.LF s = false) (given_sections sections) ->
      given_sections sections <> [] ->
      count_char str.LF (readme_update old sections)
      = (count_char str.LF old + 6 + length (given_sections sections))%nat).
Proof.
  intros Hdir Hend readme old Hreadme Hcontent.
  split; [by apply update_readme_existing|]. split; [|split].
  - unfold readme_update, str.startswith.
    destruct (given_sections sections); [apply prefix_refl|apply prefix_append].
  - unfold readme_update. by intros ->.
  - intros Hnames Hsome. unfold readme_update.
    destruct (given_sections sections) as [|s l] eqn:Hs; [done|].
    unfold updates_needed. rewrite !count_char_app.
    assert (count_char str.LF
              (String.concat EmptyString (map (fun s => "- " +:+ s +:+ NL) (s :: l)))
            = length (s :: l)) as ->.
    { clear Hs Hsome. induction Hnames as [|x xs Hx _ IH]; [done|].
      cbn [map length]. rewrite <- IH.
      assert (forall y ys, String.concat EmptyString (y :: ys)
                           = y +:+ String.concat EmptyString ys) as Hconcat.
      { intros y [|z ys]; cbn [String.concat]; [|done].
        induction y as [|c y IHy]; [done|]. rewrite append_cons. by f_equal. }
      rewrite Hconcat, !count_char_app, (count_char_absent _ _ Hx). reflexivity. }
    change (count_char str.LF NL) with 1%nat.
    change (count_char str.LF "## Updates Needed") with O.
    change (count_char str.LF "The following sections need to be updated:") with O.
    lia.
Qed.

Lemma update_readme_keeps_the_text_witness :
  let fs : filesystem := <["/proj/README.md" := File text_with_cr]> project_fs in
  let readme := posixpath.join "/proj" DEFAULT_README_PATH in
  let old := str.universal_newlines text_with_cr in
  update_readme "/" "/proj" (Some ["Usage"; "License"]) fs
  = (Returned (readme_reply false readme),
     <[readme := File (readme_update old (Some ["Usage"; "License"]))]> fs)
  /\ str.startswith (readme_update old (Some ["Usage"; "License"])) old = true
  /\ (given_sections (Some ["Usage"; "License"]) = [] ->
      readme_update old (Some ["Usage"; "License"]) = old)
  /\ (Forall (fun s => str.contains str.LF s = false)
        (given_sections (Some ["Usage"; "License"])) ->
      given_sections (Some ["Usage"; "License"]) <> [] ->
      count_char str.LF (readme_update old (Some ["Usage"; "License"]))
      = (count_char str.LF old + 6
         + length (given_sections (Some ["Usage"; "License"])))%nat).
Proof.
  apply (update_readme_keeps_the_text "/"
           (<["/proj/README.md" := File text_with_cr]> project_fs) "/proj"
           (Some ["Usage"; "License"]) text_with_cr).
  - reflexivity.
  - reflexivity.
  - reflexivity.
  - discriminate.
Defined.

Lemma updates_needed_no_cr sections :
  Forall (fun s => str.contains str.CR s = false) sections ->
  str.contains str.CR (updates_needed sections) = false.
Proof.
  intros Hnames. unfold updates_needed. rewrite !contains_app.
  assert (str.contains str.CR
            (String.concat EmptyString (map (fun s => "- " +:+ s +:+ NL) sections))
          = false) as ->; [|reflexivity].
  induction Hnames as [|x xs Hx _ IH]; [done|]. cbn [map].
  assert (forall y ys, String.concat EmptyString (y :: ys)
                       = y +:+ String.concat EmptyString ys) as Hconcat.
  { intros y [|z ys]; cbn [String.concat]; [|done].
    induction y as [|c y IHy]; [done|]. rewrite append_cons. by f_equal. }
  by rewrite Hconcat, !contains_app, Hx, IH.
Qed.

Lemma readme_update_stable old sections :
  str.contains str.CR old = false ->
  Forall (fun s => str.contains str.CR s = false) (given_sections sections) ->
  old <> EmptyString ->
  str.universal_newlines (readme_update old sections) = readme_update old sections
  /\ readme_update old sections <> EmptyString.
Proof.
  intros Hold Hnames Hne. unfold readme_update.
  destruct (given_sections sections) as [|s l] eqn:Hs.
  - split; [by apply universal_newlines_id|done].
  - split.
    + apply universal_newlines_id. rewrite contains_app, Hold.
      by rewrite (updates_needed_no_cr _ Hnames).
    + by destruct old.
Qed.

(** X23. [update_readme] called twice over a README that holds a text.
    The second call reads what the first wrote and appends the note again:
    with sections asked for the README ends with two notes, and with none the
    second call leaves the filesystem as the first left it. *)
Theorem update_readme_twice (getcwd : string) (fs : filesystem)
    (project_dir : string) (sections : option (list string)) (content : string) :
  os_path.isdir fs project_dir = true ->
  str.endswith project_dir "/" = false ->
  let readme := posixpath.join project_dir DEFAULT_README_PATH in
  let old := str.universal_newlines content in
  fs !! readme = Some (File content) ->
  content <> EmptyString ->
  Forall (fun s => str.contains str.CR s = false) (given_sections sections) ->
  exists fs1,
    update_readme getcwd project_dir sections fs
    = (Returned (readme_reply false readme), fs1)
    /\ fs1 !! readme = Some (File (readme_update old sections))
    /\ update_readme getcwd project_dir sections fs1
       = (Returned (readme_reply false readme),
          <[readme := File (readme_update (readme_update old sections) sections)]>
            fs1)
    /\ (given_sections sections = [] ->
        update_readme getcwd project_dir sections fs1
        = (Returned (readme_reply false readme), fs1)).
Proof.
  intros Hdir Hend readme old Hreadme Hcontent Hnames.
  pose proof (update_readme_existing getcwd fs project_dir sections content
                Hdir Hend Hreadme Hcontent) as Hfirst.
  fold readme old in Hfirst.
  set (fs1 := <[readme := File (readme_update old sections)]> fs) in *.
  exists fs1. split; [done|].
  assert (fs1 !! readme = Some (File (readme_update old sections))) as Hreadme1
    by (unfold fs1; by rewrite lookup_insert_eq).
  split; [done|].
  destruct (readme_update_stable old sections (universal_newlines_no_cr content)
              Hnames (universal_newlines_nonempty _ Hcontent)) as [Hstable Hne].
  assert (os_path.isdir fs1 project_dir = true) as Hdir1.
  { apply isdir_true in Hdir as [Hp Hd]. apply isdir_true. split; [done|].
    unfold fs1. rewrite lookup_insert_ne; [done|]. intros Heq.
    rewrite Heq in Hreadme. congruence. }
  pose proof (update_readme_existing getcwd fs1 project_dir sections
                (readme_update old sections) Hdir1 Hend Hreadme1 Hne) as Hsecond.
  fold readme in Hsecond. rewrite Hstable in Hsecond.
  split; [done|]. intros Hnone. rewrite Hsecond. f_equal.
  unfold readme_update. rewrite Hnone. unfold fs1, readme_update.
  rewrite Hnone. apply insert_insert_eq.
Qed.

Lemma update_readme_twice_witness :
  let fs : filesystem := <["/proj/README.md" := File "# proj"]> project_fs in
  let readme := posixpath.join "/proj" DEFAULT_README_PATH in
  let old := str.universal_newlines "# proj" in
  exists fs1,
    update_readme "/" "/proj" (Some ["Usage"]) fs
    = (Returned (readme_reply false readme), fs1)
    /\ fs1 !! readme = Some (File (readme_update old (Some ["Usage"])))
    /\ update_readme "/" "/proj" (Some ["Usage"]) fs1
       = (Returned (readme_reply false readme),
          <[readme := File (readme_update (readme_update old (Some ["Usage"]))
                              (Some ["Usage"]))]> fs1)
    /\ (given_sections (Some ["Usage"]) = [] ->
        update_readme "/" "/proj" (Some ["Usage"]) fs1
        = (Returned (readme_reply false readme), fs1)).
Proof.
  apply (update_readme_twice "/" (<["/proj/README.md" := File "# proj"]> project_fs)
           "/proj" (Some ["Usage"]) "# proj").
  - reflexivity.
  - reflexivity.
  - reflexivity.
  - discriminate.
  - repeat constructor.
Defined.

(** ** [run_tests] and [lint_code] *)

Section Commands.

Variable subprocess_run : list string -> IO CompletedProcess.

Lemma execute_command_result command fs :
  execute_command subprocess_run command fs
  = (Returned (result_of_run (fst (subprocess_run command fs))),
     snd (subprocess_run command fs)).
Proof.
  unfold execute_command. io_unfold.
  by destruct (subprocess_run command fs) as [[result|e] fs1].
Qed.

Lemma run_tests_runs directory pattern fs :
  os_path.isdir fs directory = true ->
  run_tests subprocess_run directory pattern fs
  = (Returned (tests_reply
                 (result_of_run
                    (fst (subprocess_run ["pytest"; directory; "-v"] fs)))),
     snd (subprocess_run ["pytest"; directory; "-v"] fs)).
Proof.
  intros Hdir. unfold run_tests, try_except, mbind, IO_bind, bind, read_fs.
  rewrite Hdir. cbn [negb]. by rewrite execute_command_result.
Qed.

Lemma lint_code_runs file_path fs :
  str.endswith file_path ".py" = true ->
  os_path_isfile fs file_path = true ->
  lint_code subprocess_run file_path fs
  = (Returned (lint_reply
                 (result_of_run (fst (subprocess_run ["flake8"; file_path] fs)))),
     snd (subprocess_run ["flake8"; file_path] fs)).
Proof.
  intros Hpy Hfile. unfold lint_code, try_except, mbind, IO_bind, bind, read_fs.
  rewrite Hpy. cbn [negb]. rewrite Hfile. cbn [negb].
  by rewrite execute_command_result.
Qed.

End Commands.

(** X24. The replies of [run_tests] on a directory and of [lint_code] on
    a regular [.py] file follow the outcome of the command. When the command
    ran, success is true exactly when its exit code is 0 and the reply holds
    its output, its errors and its exit code. When the command could not be
    started (the program is not installed), the reply holds success false,
    two empty texts and the exit code 1: the text of the exception is
    dropped, and no [error] field tells the case from a run that failed. *)
Theorem command_reply_follows_the_run
    (subprocess_run : list string -> IO CompletedProcess) (fs : filesystem)
    (directory pattern file_path : string) :
  os_path.isdir fs directory = true ->
  str.endswith file_path ".py" = true ->
  os_path_isfile fs file_path = true ->
  let tests := run_tests subprocess_run directory pattern fs in
  let lint := lint_code subprocess_run file_path fs in
  (forall result fs1,
     subprocess_run ["pytest"; directory; "-v"] fs = (Returned result, fs1) ->
     tests
     = (Returned
          (Dumps (JObj [("success", JBool (returncode result =? 0));
                        ("stdout", JStr (stdout result));
                        ("stderr", JStr (stderr result));
                        ("returncode", JInt (returncode result))])), fs1))
  /\ (forall e fs1,
        subprocess_run ["pytest"; directory; "-v"] fs = (Raised e, fs1) ->
        tests
        = (Returned
             (Dumps (JObj [("success", JBool false);
                           ("stdout", JStr EmptyString);
                           ("stderr", JStr EmptyString);
                           ("returncode", JInt 1)])), fs1))
  /\ (forall result fs1,
        subprocess_run ["flake8"; file_path] fs = (Returned result, fs1) ->
        lint
        = (Returned
             (Dumps (JObj [("success", JBool (returncode result =? 0));
                           ("output", JStr (stdout result));
                           ("errors", JStr (stderr result));
                           ("returncode", JInt (returncode result))])), fs1))
  /\ (forall e fs1,
        subprocess_run ["flake8"; file_path] fs = (Raised e, fs1) ->
        lint
        = (Returned
             (Dumps (JObj [("success", JBool false);
                           ("output", JStr EmptyString);
                           ("errors", JStr EmptyString);
                           ("returncode", JInt 1)])), fs1)).
Proof.
  intros Hdir Hpy Hfile tests lint. unfold tests, lint.
  rewrite (run_tests_runs _ _ _ _ Hdir), (lint_code_runs _ _ _ Hpy Hfile).
  repeat split; intros ? ? Hrun; by rewrite Hrun.
Qed.

Lemma command_reply_follows_the_run_witness :
  let tests := run_tests run_with_findings "/proj" "test_*.py" project_fs in
  let lint := lint_code run_not_installed "/proj/a.py" project_fs in
  (forall result fs1,
     run_with_findings ["pytest"; "/proj"; "-v"] project_fs = (Returned result, fs1) ->
     tests
     = (Returned
          (Dumps (JObj [("success", JBool (returncode result =? 0));
                        ("stdout", JStr (stdout result));
                        ("stderr", JStr (stderr result));
                        ("returncode", JInt (returncode result))])), fs1))
  /\ (forall e fs1,
        run_not_installed ["flake8"; "/proj/a.py"] project_fs = (Raised e, fs1) ->
        lint
        = (Returned
             (Dumps (JObj [("success", JBool false);
                           ("output", JStr EmptyString);
                           ("errors", JStr EmptyString);
                           ("returncode", JInt 1)])), fs1)).
Proof.
  split.
  - apply (proj1 (command_reply_follows_the_run run_with_findings project_fs
                    "/proj" "test_*.py" "/proj/a.py" eq_refl eq_refl eq_refl)).
  - apply (proj2 (proj2 (proj2
             (command_reply_follows_the_run run_not_installed project_fs
                "/proj" "test_*.py" "/proj/a.py" eq_refl eq_refl eq_refl)))).
Defined.

(** X25. No command is started unless the tests before it pass.
    [lint_code] on a path that does not end in [.py] replies that only
    Python files are supported, without looking at the filesystem; on a
    [.py] path that names no regular file (nothing, or a directory) it
    replies that the file is not found; [run_tests] on a path that names no
    directory replies that the directory is not found. In the three cases the
    reply is a bare [error] record and the filesystem is left as it is,
    whatever the command would do. *)
Theorem no_command_without_a_target
    (subprocess_run : list string -> IO CompletedProcess) (fs : filesystem)
    (directory pattern file_path : string) :
  (str.endswith file_path ".py" = false ->
   lint_code subprocess_run file_path fs
   = (Returned (Dumps (JObj [("error",
                               JStr "Only Python files are supported for linting")])),
      fs))
  /\ (str.endswith file_path ".py" = true ->
      os_path_isfile fs file_path = false ->
      lint_code subprocess_run file_path fs
      = (Returned (Dumps (JObj [("error", JStr ("File not found: " +:+ file_path))])),
         fs))
  /\ (os_path.isdir fs directory = false ->
      run_tests subprocess_run directory pattern fs
      = (Returned (Dumps (JObj [("error",
                                  JStr ("Directory not found: " +:+ directory))])),
         fs)).
Proof.
  split; [|split].
  - intros Hpy. unfold lint_code, try_except. by rewrite Hpy.
  - intros Hpy Hfile. unfold lint_code, try_except, mbind, IO_bind, bind, read_fs.
    rewrite Hpy. cbn [negb]. by rewrite Hfile.
  - intros Hdir. unfold run_tests, try_except, mbind, IO_bind, bind, read_fs.
    by rewrite Hdir.
Qed.

Lemma no_command_without_a_target_witness :
  lint_code run_with_findings "/proj/notes.txt" project_fs
  = (Returned (Dumps (JObj [("error",
                              JStr "Only Python files are supported for linting")])),
     project_fs)
  /\ lint_code run_with_findings "/proj/sub.py" project_fs
     = (Returned (Dumps (JObj [("error",
                                 JStr ("File not found: " +:+ "/proj/sub.py"))])),
        project_fs)
  /\ run_tests run_with_findings "/proj/a.py" "test_*.py" project_fs
     = (Returned (Dumps (JObj [("error",
                                 JStr ("Directory not found: " +:+ "/proj/a.py"))])),
        project_fs).
Proof.
  split; [|split].
  - apply (proj1 (no_command_without_a_target run_with_findings project_fs
                    "/proj/a.py" "test_*.py" "/proj/notes.txt")).
    reflexivity.
  - apply (proj1 (proj2 (no_command_without_a_target run_with_findings project_fs
                           "/proj/a.py" "test_*.py" "/proj/sub.py")));
      reflexivity.
  - apply (proj2 (proj2 (no_command_without_a_target run_with_findings project_fs
                           "/proj/a.py" "test_*.py" "/proj/notes.txt"))).
    reflexivity.
Defined.

(** ** [list_files] and the two modes of [find_files] *)

Lemma join_relative d p :
  str.contains posixpath.sep p = false ->
  posixpath.join d p
  = if String.eqb d EmptyString || str.endswith d "/" then d +:+ p
    else d +:+ "/" +:+ p.
Proof. intros Hp. unfold posixpath.join. by rewrite (no_sep_not_absolute _ Hp). Qed.

(** A path that starts with a name free of glob characters does not start
    with the recursion marker. *)
Lemma no_marker_in_front d p :
  d <> EmptyString -> glob.has_magic d = false ->
  str.contains posixpath.sep p = false ->
  glob._isrecursive (substring 0 2 (posixpath.join d p)) = false.
Proof.
  intros Hd Hmagic Hp. rewrite (join_relative d p Hp).
  destruct d as [|c d]; [done|]. cbn [glob.has_magic] in Hmagic.
  apply orb_false_iff in Hmagic as [Hc _].
  assert (forall rest, glob._isrecursive (substring 0 2 (String c rest)) = false)
    as Hfront.
  { intros rest. unfold glob._isrecursive. cbn [substring String.eqb].
    unfold glob.is_magic_char in Hc.
    destruct (Ascii.eqb_spec c "*") as [->|_]; [done|done]. }
  destruct (_ || _); rewrite ?append_cons; apply Hfront.
Qed.

(** With a pattern that is not the recursion marker, in a directory whose
    name holds no glob character, [glob.glob] gives the same paths with and
    without [recursive]. *)
Lemma glob_without_marker fnmatchcase fs d pattern :
  d <> EmptyString ->
  glob.has_magic d = false ->
  str.contains posixpath.sep pattern = false ->
  glob._isrecursive pattern = false ->
  glob.glob fnmatchcase fs (posixpath.join d pattern) true
  = glob.glob fnmatchcase fs (posixpath.join d pattern) false.
Proof.
  intros Hd Hmagic Hpat Hrec.
  destruct (split_join_name d pattern Hd Hpat) as (Hsplit & Hmag & Hne).
  rewrite Hmagic, orb_false_l in Hmag.
  pose proof (without_trailing_sep_nonempty d Hd) as Hd'.
  pose proof (without_trailing_sep_magic d Hmagic) as Hmagic'.
  unfold glob.glob. rewrite (eqb_empty_false _ Hne).
  rewrite (no_marker_in_front d pattern Hd Hmagic Hpat). cbn [orb andb].
  generalize (String.length (posixpath.join d pattern)). intros fuel.
  destruct fuel; cbn [glob._iglob]; rewrite Hsplit, Hmag, Hrec;
    rewrite ?(eqb_empty_false _ Hd'), ?Hmagic', ?andb_false_r; done.
Qed.

(** X26. [list_files] looks in the directory alone unless the pattern
    asks for more. For a directory whose name holds no glob character and a
    pattern that holds no separator and is not the recursion marker,
    [list_files] returns the paths [find_files] matches without recursion
    (although it calls [glob] with [recursive=True]): each is an entry of the
    directory itself, none lies in a nested subdirectory. *)
Theorem list_files_in_the_directory (fnmatchcase : string -> string -> bool)
    (fs : filesystem) (directory pattern : string) :
  os_path.isdir fs directory = true ->
  glob.has_magic directory = false ->
  str.contains posixpath.sep pattern = false ->
  glob._isrecursive pattern = false ->
  list_files fnmatchcase directory pattern fs
  = (Returned
       (Dumps (JObj [("files",
                       JList (map JStr
                                (find_matches fnmatchcase fs directory pattern
                                   false)))])), fs)
  /\ forall m, m ∈ find_matches fnmatchcase fs directory pattern false ->
       posixpath.dirname m = without_trailing_sep directory
       /\ in_nested_subdirectory directory m = false.
Proof.
  intros Hdir Hmagic Hpat Hrec. pose proof Hdir as [Hd _]%isdir_true. split.
  - unfold list_files, find_matches. io_unfold. rewrite Hdir. cbn [negb].
    by rewrite (glob_without_marker fnmatchcase fs directory pattern Hd Hmagic
                  Hpat Hrec).
  - intros m Hm. unfold find_matches in Hm.
    pose proof (glob_in_directory fnmatchcase fs directory pattern m Hd Hmagic
                  Hpat Hm) as Hdirname.
    split; [done|]. by apply not_nested_in_own_directory.
Qed.

Lemma list_files_in_the_directory_witness :
  list_files sample_fnmatch "/proj" "*.py" project_fs
  = (Returned
       (Dumps (JObj [("files",
                       JList (map JStr
                                (find_matches sample_fnmatch project_fs "/proj"
                                   "*.py" false)))])), project_fs)
  /\ forall m, m ∈ find_matches sample_fnmatch project_fs "/proj" "*.py" false ->
       posixpath.dirname m = without_trailing_sep "/proj"
       /\ in_nested_subdirectory "/proj" m = false.
Proof.
  apply (list_files_in_the_directory sample_fnmatch project_fs "/proj" "*.py");
    reflexivity.
Defined.

Lemma endswith_marker x : str.endswith (x +:+ "**") "/" = false.
Proof.
  induction x as [|c x IH]; [done|]. rewrite append_cons, endswith_cons, IH.
  rewrite orb_false_r. apply String.eqb_neq. intros [= _ Hx]. by destruct x.
Qed.

Lemma has_magic_marker x : glob.has_magic (x +:+ "**") = true.
Proof. rewrite has_magic_app. apply orb_true_r. Qed.

(** The paths of the entries of [d] are spelled alike from [d] and from
    [d] with a slash behind. *)
Lemma join_after_slash d n :
  d <> EmptyString -> str.endswith d "/" = false ->
  str.contains posixpath.sep n = false ->
  posixpath.join (d +:+ "/") n = posixpath.join d n.
Proof.
  intros Hd Hend Hn. rewrite !(join_relative _ n Hn), Hend.
  rewrite (eqb_empty_false _ Hd). cbn [orb].
  assert (str.endswith (d +:+ "/") "/" = true) as ->.
  { clear Hd Hend. induction d as [|c d IH]; [done|].
    rewrite append_cons, endswith_cons, IH. apply orb_true_r. }
  rewrite orb_true_r. rewrite append_assoc_one.
  clear. induction d as [|c d IH]; [done|]. rewrite !append_cons. by f_equal.
Qed.

Lemma listdir_after_slash fs d dironly :
  d <> EmptyString -> str.endswith d "/" = false ->
  glob._listdir fs (d +:+ "/") dironly = glob._listdir fs d dironly.
Proof.
  intros Hd Hend. unfold glob._listdir. apply omap_ext_in. intros [k e] _.
  by rewrite (join_after_slash d _ Hd Hend (basename_no_sep k)).
Qed.

Lemma front_not_marker c rest :
  glob.is_magic_char c = false ->
  glob._isrecursive (substring 0 2 (String c rest)) = false.
Proof.
  intros Hc. unfold glob._isrecursive. cbn [substring String.eqb].
  unfold glob.is_magic_char in Hc.
  destruct (Ascii.eqb_spec c "*") as [->|_]; [done|done].
Qed.

Lemma glob_recursive_superset fnmatchcase fs d pattern m :
  os_path.isdir fs d = true ->
  glob.has_magic d = false ->
  str.endswith d "/" = false ->
  str.contains posixpath.sep pattern = false ->
  pattern <> EmptyString ->
  glob._isrecursive pattern = false ->
  m ∈ glob.glob fnmatchcase fs (posixpath.join d pattern) false ->
  m ∈ glob.glob fnmatchcase fs
        (posixpath.join (posixpath.join d "**") pattern) true.
Proof.
  intros Hdir Hmagic Hend Hpat Hpne Hrec.
  pose proof Hdir as [Hd Hdd]%isdir_true.
  destruct (no_trailing_sep d Hd Hend) as [Hall Hstrip].
  assert (without_trailing_sep d = d) as Hwd
    by (unfold without_trailing_sep; by rewrite Hall).
  destruct (split_join_name d pattern Hd Hpat) as (Hsplit & Hmag & Hne).
  rewrite Hmagic, orb_false_l, Hwd in *.
  assert (posixpath.join d "**" = d +:+ "/**") as HD.
  { rewrite (join_relative d "**" eq_refl), Hend, (eqb_empty_false _ Hd). done. }
  assert (d +:+ "/**" = (d +:+ "/") +:+ "**") as HD'.
  { clear. induction d as [|c d IH]; [done|]. rewrite !append_cons. by f_equal. }
  set (D := posixpath.join d "**") in *.
  assert (D <> EmptyString) as HDne by (rewrite HD; by destruct d).
  assert (str.endswith D "/" = false) as HDend
    by (rewrite HD, HD'; apply endswith_marker).
  assert (glob.has_magic D = true) as HDmagic
    by (rewrite HD, HD'; apply has_magic_marker).
  destruct (no_trailing_sep D HDne HDend) as [HDall HDstrip].
  destruct (split_join_name D pattern HDne Hpat) as (HsplitD & HmagD & HneD).
  unfold without_trailing_sep in HsplitD. rewrite HDall, HDstrip in HsplitD.
  rewrite HDmagic, orb_true_l in HmagD.
  destruct (split_join_name d "**" Hd eq_refl) as (Hsplit2 & _ & _).
  fold D in Hsplit2. rewrite Hwd in Hsplit2.
  set (d0 := d +:+ "/").
  assert (d0 <> EmptyString) as Hd0 by (unfold d0; by destruct d).
  (* the directories the marker stands for begin with [d] itself *)
  assert (forall fuel, d0 ∈ glob._iglob fnmatchcase fuel fs D true true) as Hinner.
  { intros fuel.
    assert (glob._iglob fnmatchcase fuel fs D true true
            = map (posixpath.join d) (glob._glob2 fs d "**" true) ++ []) as ->.
    { destruct fuel; cbn [glob._iglob]; rewrite Hsplit2, HDmagic;
        rewrite (eqb_empty_false _ Hd), Hmagic, andb_false_r; reflexivity. }
    unfold glob._glob2. rewrite Hdir, orb_true_r. cbn [app map].
    rewrite (join_relative d EmptyString eq_refl), Hend, (eqb_empty_false _ Hd).
    apply list_elem_of_here. }
  (* the outer call *)
  assert (forall x, x ∈ map (posixpath.join d0)
                          ((if glob.has_magic pattern then glob._glob1 fnmatchcase
                            else glob._glob0) fs d0 pattern false) ->
                    x ∈ glob.glob fnmatchcase fs (posixpath.join D pattern) true)
    as Houter.
  { intros x Hx. unfold glob.glob. rewrite (eqb_empty_false _ HneD).
    assert (glob._isrecursive (substring 0 2 (posixpath.join D pattern)) = false)
      as ->.
    { rewrite (join_relative D pattern Hpat), HDend, (eqb_empty_false _ HDne), HD.
      cbn [orb]. destruct d as [|c d']; [done|]. rewrite !append_cons.
      apply front_not_marker. cbn [glob.has_magic] in Hmagic.
      by apply orb_false_iff in Hmagic as [? _]. }
    rewrite andb_false_r. cbn [orb].
    assert (String.eqb D (posixpath.join D pattern) = false) as HDp.
    { apply String.eqb_neq. intros Heq.
      pose proof (join_length D pattern Hpat) as Hlen. rewrite <- Heq in Hlen.
      destruct pattern; [done|]. cbn [String.length] in Hlen. lia. }
    destruct (String.length (posixpath.join D pattern)) as [|fuel] eqn:Hfuel.
    { destruct (posixpath.join D pattern); [done|discriminate]. }
    cbn [glob._iglob]. rewrite HsplitD, HmagD, (eqb_empty_false _ HDne), HDp, HDmagic.
    cbn [negb andb]. rewrite Hrec, ?andb_false_r.
    apply list_elem_of_In, in_flat_map. exists d0. split.
    - apply list_elem_of_In, Hinner.
    - apply list_elem_of_In. by destruct (glob.has_magic pattern). }
  (* the matches without recursion *)
  unfold glob.glob at 1. rewrite (eqb_empty_false _ Hne). cbn [orb andb].
  generalize (String.length (posixpath.join d pattern)). intros fuel Hm.
  apply Houter.
  assert (forall n, str.contains posixpath.sep n = false ->
                    posixpath.join d0 n = posixpath.join d n) as Hjoin
    by (intros n; by apply join_after_slash).
  destruct (glob.has_magic pattern) eqn:Hp.
  - assert (m ∈ map (posixpath.join d) (glob._glob1 fnmatchcase fs d pattern false))
      as Hm'.
    { destruct fuel; cbn [glob._iglob] in Hm; rewrite Hsplit, Hmag, Hp in Hm;
        rewrite (eqb_empty_false _ Hd), Hmagic, ?andb_false_r in Hm;
        cbn [negb andb flat_map] in Hm; by rewrite app_nil_r in Hm. }
    apply list_elem_of_fmap in Hm' as (n & -> & Hn).
    apply list_elem_of_fmap. exists n. split.
    + symmetry. apply Hjoin. unfold glob._glob1 in Hn.
      apply list_elem_of_In, filter_In in Hn as [Hn _].
      destruct (glob._ishidden pattern);
        [|apply filter_In in Hn as [Hn _]];
        by apply list_elem_of_In, listdir_names in Hn as [_ ?].
    + unfold glob._glob1, d0. by rewrite (listdir_after_slash fs d false Hd Hend).
  - assert (glob._lexists fs (posixpath.join d pattern) = true
            /\ m = posixpath.join d pattern) as [Hex ->].
    { destruct fuel; cbn [glob._iglob] in Hm; rewrite Hsplit, Hmag, Hp in Hm;
        cbn [negb] in Hm; rewrite (eqb_empty_false _ Hpne) in Hm; cbn [negb] in Hm;
        destruct (glob._lexists fs (posixpath.join d pattern));
        try (by apply elem_of_nil in Hm);
        by apply list_elem_of_singleton in Hm as ->. }
    unfold glob._glob0, glob._join.
    rewrite (eqb_empty_false _ Hpne), (eqb_empty_false _ Hd0). cbn [negb].
    rewrite (Hjoin pattern Hpat), Hex. cbn [map].
    rewrite (Hjoin pattern Hpat). apply list_elem_of_here.
Qed.

(** X27. Recursion loses no match of the directory itself. For a
    directory whose name holds no glob character and does not end in a slash,
    and a pattern that is not empty, holds no separator and is not the
    recursion marker, every path [find_files] matches without recursion is
    among those it matches with recursion: the pattern [directory/**/pattern]
    it builds covers the directory as well as what lies below. *)
Theorem recursive_search_keeps_the_matches
    (fnmatchcase : string -> string -> bool) (fs : filesystem)
    (directory pattern : string) :
  os_path.isdir fs directory = true ->
  glob.has_magic directory = false ->
  str.endswith directory "/" = false ->
  str.contains posixpath.sep pattern = false ->
  pattern <> EmptyString ->
  glob._isrecursive pattern = false ->
  Forall (fun m => m ∈ find_matches fnmatchcase fs directory pattern true)
    (find_matches fnmatchcase fs directory pattern false).
Proof.
  intros Hdir Hmagic Hend Hpat Hpne Hrec. apply Forall_forall. intros m Hm.
  unfold find_matches in *. by apply glob_recursive_superset.
Qed.

Lemma recursive_search_keeps_the_matches_witness :
  Forall (fun m => m ∈ find_matches sample_fnmatch project_fs "/proj" "*.py" true)
    (find_matches sample_fnmatch project_fs "/proj" "*.py" false).
Proof.
  apply (recursive_search_keeps_the_matches sample_fnmatch project_fs "/proj"
           "*.py"); (reflexivity || discriminate).
Defined.

(** ** [search_in_files]: every file below the directory is searched *)

Section SearchAll.

Variable fnmatchcase : string -> string -> bool.
Variable re_search : string -> string -> outcome bool.

Lemma search_file_finds pattern path fs c ms :
  fs !! path = Some (File c) ->
  matching_lines re_search pattern 0
    (str.splitlines (str.universal_newlines c)) = Returned ms ->
  ms <> [] ->
  search_file re_search pattern path fs = (Returned [(path, ms)], fs).
Proof.
  intros Hfile Hms Hne. unfold search_file. io_unfold.
  rewrite (open_read_file _ _ _ Hfile), Hms. by destruct ms.
Qed.

Lemma search_files_finds pattern file_pattern root files fs name c ms res :
  root <> EmptyString ->
  (forall f, f ∈ files -> f ∈ glob._listdir fs root false) ->
  name ∈ files ->
  fnmatchcase name file_pattern = true ->
  fs !! posixpath.join root name = Some (File c) ->
  matching_lines re_search pattern 0
    (str.splitlines (str.universal_newlines c)) = Returned ms ->
  ms <> [] ->
  search_files fnmatchcase re_search pattern file_pattern root files fs
  = (Returned res, fs) ->
  (posixpath.join root name, ms) ∈ res.
Proof.
  intros Hroot Hfiles Hname Hmatch Hfile Hms Hne. revert res Hfiles Hname.
  induction files as [|f files IH]; intros res Hfiles Hname;
    [by apply elem_of_nil in Hname|].
  cbn [search_files]. io_unfold.
  destruct (search_files_spec fnmatchcase re_search pattern file_pattern root
              files fs Hroot) as (more & Hmore & _).
  { intros g Hg. apply Hfiles. by apply list_elem_of_further. }
  assert (name ∈ files -> (posixpath.join root name, ms) ∈ more) as Hrest.
  { intros Hin. apply (IH more); [|done|done].
    intros g Hg. apply Hfiles. by apply list_elem_of_further. }
  destruct (fnmatchcase f file_pattern) eqn:Hf; cbn [negb].
  - destruct (search_file_spec re_search pattern (posixpath.join root f) fs)
      as (found & Hfound & _).
    rewrite Hfound, Hmore. intros [= <-]. apply elem_of_app.
    apply elem_of_cons in Hname as [Heq|Hname]; [|right; by apply Hrest].
    left. subst f. rewrite (search_file_finds _ _ _ _ _ Hfile Hms Hne) in Hfound.
    injection Hfound as <-. apply list_elem_of_here.
  - rewrite Hmore. intros [= <-].
    apply elem_of_cons in Hname as [Heq|Hname]; [|by apply Hrest].
    subst f. congruence.
Qed.

Lemma search_walk_finds pattern file_pattern walked fs root dirs files name c ms res :
  (forall r d f, (r, d, f) ∈ walked ->
     r <> EmptyString /\ forall g, g ∈ f -> g ∈ glob._listdir fs r false) ->
  (root, dirs, files) ∈ walked ->
  name ∈ files ->
  fnmatchcase name file_pattern = true ->
  fs !! posixpath.join root name = Some (File c) ->
  matching_lines re_search pattern 0
    (str.splitlines (str.universal_newlines c)) = Returned ms ->
  ms <> [] ->
  search_walk fnmatchcase re_search pattern file_pattern walked fs
  = (Returned res, fs) ->
  (posixpath.join root name, ms) ∈ res.
Proof.
  intros Hwalked Hin Hname Hmatch Hfile Hms Hne. revert res Hwalked Hin.
  induction walked as [|[[r d] f] walked IH]; intros res Hwalked Hin;
    [by apply elem_of_nil in Hin|].
  cbn [search_walk]. io_unfold.
  destruct (Hwalked r d f) as [Hr Hf]; [apply list_elem_of_here|].
  destruct (search_files_spec fnmatchcase re_search pattern file_pattern r f fs
              Hr Hf) as (found & Hfound & _).
  destruct (search_walk_spec fnmatchcase re_search pattern file_pattern walked fs)
    as (more & Hmore & _).
  { intros r' d' f' Hin'. apply (Hwalked r' d' f'). by apply list_elem_of_further. }
  rewrite Hfound, Hmore. intros [= <-]. apply elem_of_app.
  apply elem_of_cons in Hin as [Heq|Hin].
  - left. injection Heq as <- <- <-.
    by apply (search_files_finds pattern file_pattern root files fs name c ms).
  - right. apply (IH more); [|done|done].
    intros r' d' f' Hin'. apply (Hwalked r' d' f'). by apply list_elem_of_further.
Qed.

(** [os.walk] yields the triple of every directory it comes to. *)
Lemma os_walk_reaches fs top root :
  reaches fs top root ->
  os_path.isdir fs root = true ->
  forall fuel,
    (longest_path fs <= fuel + String.length top)%nat ->
    exists dirs,
      (root, dirs,
       List.filter
         (fun name => negb (os_path.isdir fs (posixpath.join root name)))
         (glob._listdir fs root false))
      ∈ os_walk fuel fs top.
Proof.
  assert (forall d, os_path.isdir fs d = true ->
                    os_listdir fs d = Returned (glob._listdir fs d false))
    as Hlist.
  { intros d [Hne Hd]%isdir_true. unfold os_listdir.
    by rewrite (eqb_empty_false _ Hne), Hd. }
  induction 1 as [top|top name root Htop Hname Hsub _ IH]; intros Hdir fuel Hfuel.
  - eexists. destruct fuel; cbn [os_walk]; rewrite (Hlist _ Hdir);
      apply list_elem_of_here.
  - pose proof (listdir_deeper _ _ _ _ Hname) as Hdeep.
    destruct fuel as [|fuel]; [lia|].
    destruct (IH Hdir fuel) as [dirs Hin]; [lia|].
    exists dirs. cbn [os_walk]. rewrite (Hlist _ Htop).
    apply list_elem_of_further, list_elem_of_In, in_flat_map.
    exists name. split; [|by apply list_elem_of_In].
    apply filter_In. split; [by apply list_elem_of_In|done].
Qed.

End SearchAll.

Lemma reaches_isdir fs top root :
  reaches fs top root -> os_path.isdir fs top = true ->
  os_path.isdir fs root = true.
Proof. induction 1 as [top|top name root _ _ Hsub _ IH]; [done|]. intros _. by apply IH. Qed.

(** X28. [search_in_files] searches every file below the directory. For
    every directory the walk comes to from the directory given (itself, and
    the directories below it, hidden ones too), every regular file in it
    whose name matches the file pattern, and on no line of which the search
    raises, is reported with its matches when it has one at least. *)
Theorem search_reaches_every_file
    (fnmatchcase : string -> string -> bool)
    (re_search : string -> string -> outcome bool)
    (fs : filesystem) (directory pattern file_pattern root name content : string)
    (ms : list line_match) :
  os_path.isdir fs directory = true ->
  reaches fs directory root ->
  name ∈ glob._listdir fs root false ->
  fs !! posixpath.join root name = Some (File content) ->
  fnmatchcase name file_pattern = true ->
  matching_lines re_search pattern 0
    (str.splitlines (str.universal_newlines content)) = Returned ms ->
  ms <> [] ->
  exists results,
    search_in_files fnmatchcase re_search directory pattern file_pattern fs
    = (Returned (search_reply pattern file_pattern results), fs)
    /\ (posixpath.join root name, ms) ∈ results.
Proof.
  intros Hdir Hreach Hname Hfile Hmatch Hms Hne.
  pose proof (reaches_isdir _ _ _ Hreach Hdir) as Hroot.
  destruct (os_walk_reaches fs directory root Hreach Hroot (longest_path fs))
    as [dirs Hin]; [lia|].
  destruct (search_walk_spec fnmatchcase re_search pattern file_pattern
              (os_walk (longest_path fs) fs directory) fs) as (res & Hwalk & _).
  { intros r d f. apply os_walk_triples. }
  exists res. split.
  - unfold search_in_files. io_unfold. rewrite Hdir. cbn [negb]. by rewrite Hwalk.
  - assert (name ∈ List.filter
                     (fun n => negb (os_path.isdir fs (posixpath.join root n)))
                     (glob._listdir fs root false)) as Hname'.
    { apply list_elem_of_In, filter_In. split; [by apply list_elem_of_In|].
      by rewrite (isdir_file _ _ _ Hfile). }
    refine (search_walk_finds fnmatchcase re_search pattern file_pattern _ fs root
              dirs _ name content ms res _ Hin Hname' Hmatch Hfile Hms Hne Hwalk).
    intros r d f. apply os_walk_triples.
Qed.

Lemma search_reaches_every_file_witness :
  exists results,
    search_in_files sample_fnmatch search_char "/p" "c" "*.py" tree_fs
    = (Returned (search_reply "c" "*.py" results), tree_fs)
    /\ (posixpath.join "/p/sub" "c.py", [(1, "c")]) ∈ results.
Proof.
  apply (search_reaches_every_file sample_fnmatch search_char tree_fs "/p" "c"
           "*.py" "/p/sub" "c.py" "c" [(1, "c")]).
  - reflexivity.
  - apply (reaches_down tree_fs "/p" "sub" "/p/sub").
    + reflexivity.
    + apply list_elem_of_In. vm_compute. auto 10.
    + reflexivity.
    + apply reaches_here.
  - apply list_elem_of_In. vm_compute. auto 10.
  - reflexivity.
  - reflexivity.
  - reflexivity.
  - discriminate.
Defined.
